(** * p4-whodunit: a shallow embedding of [p4-whodunit.py]

    The script runs [p4 -s annotate] on a depot file, parses the
    annotation stream, resolves every change list number to its owner
    with [p4 describe] (memoised per file) and prints an aligned report.

    The embedding follows the script function by function.  Python
    byte strings are [string]s, Python integers are [Z], the
    dictionary [cl_owner] is a [gmap Z string], and the effects of the
    script (standard output, the external commands it runs, exceptions
    and [sys.exit]) are threaded through a small state-and-exception
    monad.  What the script gets from outside is a parameter of the
    embedding: the global [VERBOSE], the shell that runs the commands,
    and the integer part of the floating-point [math.log10(n) + 1]. *)

From Stdlib Require Import ZArith Lia Ascii String.
From stdpp Require Import base list gmap strings.

Open Scope Z_scope.

(** ** Python strings *)

Module Py.

(** The characters the script names explicitly. *)
Definition NL : ascii := "010"%char.
Definition TAB : ascii := "009"%char.
Definition DQUOTE : ascii := "034"%char.

(** [str.isspace] on a byte string, which is also the class [\s] of
    [re] for byte patterns: space, [\t], [\n], [\v], [\f], [\r]. *)
Definition isspace (c : ascii) : bool :=
  let n := nat_of_ascii c in
  (n =? 32)%nat || ((9 <=? n)%nat && (n <=? 13)%nat).

(** The class [\d] of [re]. *)
Definition isdigit (c : ascii) : bool :=
  let n := nat_of_ascii c in
  (48 <=? n)%nat && (n <=? 57)%nat.

(** [len(s)] *)
Definition len (s : string) : Z := Z.of_nat (String.length s).

(** [s.split(sep)] for a one-character separator: the result always
    has at least one element. *)
Fixpoint split (sep : ascii) (s : string) : list string :=
  match s with
  | EmptyString => [EmptyString]
  | String c s' =>
      if Ascii.eqb c sep then EmptyString :: split sep s'
      else match split sep s' with
           | [] => [String c EmptyString]
           | l :: ls => String c l :: ls
           end
  end.

(** [s.startswith(p)] *)
Fixpoint startswith (p s : string) : bool :=
  match p, s with
  | EmptyString, _ => true
  | String a p', String b s' => Ascii.eqb a b && startswith p' s'
  | String _ _, EmptyString => false
  end.

(** [s.find(sub)]: the index of the first occurrence, or -1. *)
Fixpoint find_from (sub s : string) (i : Z) : Z :=
  if startswith sub s then i
  else match s with
       | EmptyString => -1
       | String _ s' => find_from sub s' (i + 1)
       end.

Definition find (s sub : string) : Z := find_from sub s 0.

(** [s.lstrip()], [s.rstrip()] and [s.strip()] *)
Fixpoint lstrip (s : string) : string :=
  match s with
  | EmptyString => EmptyString
  | String c s' => if isspace c then lstrip s' else s
  end.

Fixpoint rstrip (s : string) : string :=
  match s with
  | EmptyString => EmptyString
  | String c s' =>
      match rstrip s' with
      | EmptyString => if isspace c then EmptyString else String c EmptyString
      | r => String c r
      end
  end.

Definition strip (s : string) : string := rstrip (lstrip s).

(** [l[i]] with Python's negative indices; [None] is [IndexError]. *)
Definition getitem {A} (l : list A) (i : Z) : option A :=
  let n := Z.of_nat (length l) in
  if i <? 0 then (if 0 <=? n + i then l !! Z.to_nat (n + i) else None)
  else l !! Z.to_nat i.

(** [l[a:b]] with Python's clamping of the two bounds. *)
Definition clamp (n i : Z) : Z :=
  if i <? 0 then Z.max 0 (n + i) else Z.min i n.

Definition slice {A} (l : list A) (a b : Z) : list A :=
  let n := Z.of_nat (length l) in
  let a' := clamp n a in
  let b' := clamp n b in
  take (Z.to_nat (b' - a')) (drop (Z.to_nat a') l).

(** [int(s)] on a string of decimal digits. *)
Definition digit_val (c : ascii) : Z := Z.of_nat (nat_of_ascii c) - 48.

Fixpoint int_acc (s : string) (acc : Z) : Z :=
  match s with
  | EmptyString => acc
  | String c s' => int_acc s' (acc * 10 + digit_val c)
  end.

Definition int (s : string) : Z := int_acc s 0.

(** ['%d' % n] and [str(n)].  The digits are produced least
    significant first; the fuel is one more than the binary size of
    [n], which bounds the number of divisions by ten. *)
Definition digit_char (d : Z) : ascii := ascii_of_nat (48 + Z.to_nat d).

Fixpoint digits_acc (fuel : nat) (n : Z) (acc : string) : string :=
  match fuel with
  | O => acc
  | S fuel' =>
      let acc' := String (digit_char (n mod 10)) acc in
      if n <? 10 then acc' else digits_acc fuel' (n / 10) acc'
  end.

Definition digit_fuel (n : Z) : nat := S (Z.to_nat (Z.log2 n)).

Definition str (n : Z) : string :=
  if n <? 0 then String "-" (digits_acc (digit_fuel (- n)) (- n) EmptyString)
  else digits_acc (digit_fuel n) n EmptyString.

(** The integer part of [math.log10(n)] for [n >= 1], computed by the
    same divisions by ten as [str]. *)
Fixpoint ilog10_acc (fuel : nat) (n : Z) : Z :=
  match fuel with
  | O => 0
  | S fuel' => if n <? 10 then 0 else 1 + ilog10_acc fuel' (n / 10)
  end.

Definition ilog10 (n : Z) : Z := ilog10_acc (digit_fuel n) n.

(** Padding: [n] spaces. *)
Fixpoint spaces (n : nat) : string :=
  match n with
  | O => EmptyString
  | S n' => String " " (spaces n')
  end.

(** ['%*s' % (w, s)] is right-justified and ['%-*s' % (w, s)]
    left-justified in a field of [w] characters; a field narrower than
    the text never truncates it. A negative [w] given through [*]
    left-justifies in [-w] characters. *)
Definition ljust (w : Z) (s : string) : string :=
  s +:+ spaces (Z.to_nat (Z.abs w - len s)).

Definition rjust (w : Z) (s : string) : string :=
  if w <? 0 then ljust w s
  else spaces (Z.to_nat (w - len s)) +:+ s.

End Py.

(** ** The three regular expressions of the script

    [re.search] returns the leftmost match and, at a start position,
    the first match found by backtracking over greedy repetitions.
    In each pattern below a greedy repetition is followed by a literal
    (or by the end of the subject) that no character of the repeated
    class can match, so at a given start position only the longest
    repetition can lead to a match: giving a character back leaves a
    character of the class where the literal is required.  The
    matchers below therefore take the longest run ([span]) and never
    backtrack. *)

Module Re.

(** The longest prefix of [s] whose characters satisfy [p], and the
    rest: a greedy [p*]. *)
Fixpoint span (p : ascii -> bool) (s : string) : string * string :=
  match s with
  | EmptyString => (EmptyString, EmptyString)
  | String c s' =>
      if p c then let '(a, b) := span p s' in (String c a, b)
      else (EmptyString, s)
  end.

(** A greedy [p+]: a non-empty run. *)
Definition span1 (p : ascii -> bool) (s : string) : option (string * string) :=
  match span p s with
  | (EmptyString, _) => None
  | (a, b) => Some (a, b)
  end.

(** A literal: the rest of [s] after the prefix [p]. *)
Fixpoint lit (p s : string) : option string :=
  match p, s with
  | EmptyString, _ => Some s
  | String a p', String b s' => if Ascii.eqb a b then lit p' s' else None
  | String _ _, EmptyString => None
  end.

(** [.] matches every character but the newline. *)
Definition dot (c : ascii) : bool := negb (Ascii.eqb c Py.NL).

(** [$] matches at the end of the subject and before a newline that
    ends the subject. *)
Definition at_end (s : string) : bool :=
  match s with
  | EmptyString => true
  | String c EmptyString => Ascii.eqb c Py.NL
  | _ => false
  end.

(** [re.search]: the matcher [m] is tried at every start position,
    from the left, the end of the subject included. *)
Fixpoint search {G} (m : string -> option G) (s : string) : option G :=
  match m s with
  | Some g => Some g
  | None =>
      match s with
      | EmptyString => None
      | String _ s' => search m s'
      end
  end.

(** [Change (\d+) by ([^@]+)@], tried at the start of [s]. *)
Definition not_at (c : ascii) : bool := negb (Ascii.eqb c "@").

Definition change_by_at (s : string) : option (string * string) :=
  r ← lit "Change " s;
  '(g1, r) ← span1 Py.isdigit r;
  r ← lit " by " r;
  '(g2, r) ← span1 not_at r;
  _ ← lit "@" r;
  Some (g1, g2).

(** [change\s+(\d+)], tried at the start of [s]. *)
Definition change_at (s : string) : option string :=
  r ← lit "change" s;
  '(_, r) ← span1 Py.isspace r;
  '(g1, _) ← span1 Py.isdigit r;
  Some g1.

(** [text:\s+(\d+)-(\d+):(G)$] where the third group [G] is [.*],
    tried at the start of [s]. *)
Definition text_at (s : string) : option (string * string * string) :=
  r ← lit "text:" s;
  '(_, r) ← span1 Py.isspace r;
  '(g1, r) ← span1 Py.isdigit r;
  r ← lit "-" r;
  '(g2, r) ← span1 Py.isdigit r;
  r ← lit ":" r;
  let '(g3, r) := span dot r in
  if at_end r then Some (g1, g2, g3) else None.

End Re.

(** ** Effects

    The world the script acts on: what it has written to standard
    output and the command lines it has handed to the shell, both in
    chronological order. *)

(** A line written by [print], or a message written by [_msg].  A
    message carries its prefix ([INFO] or [ERROR]) and its text; the
    time stamp and the call site that [_msg] puts between them are
    left out. *)
Inductive event :=
| Print (line : string)
| Msg (prefix msg : string).

Record world := World {
  stdout : list event;
  commands : list string;
}.

(** The exceptions the script can end with; [sys.exit] raises
    [SystemExit], which nothing in the script catches. *)
Inductive exn :=
| IndexError
| ValueError
| SystemExit (exitcode : Z).

Inductive outcome (A : Type) :=
| Ok (a : A)
| Raise (e : exn).
Arguments Ok {A} a.
Arguments Raise {A} e.

Definition M (A : Type) : Type := world -> outcome A * world.

(** [M] is a monad in the sense of stdpp, so that the embedding can
    be written with [x ← m; k] and [m;; k]. *)
#[global] Instance M_ret : MRet M := fun A a w => (Ok a, w).

#[global] Instance M_bind : MBind M := fun A B k m w =>
  match m w with
  | (Ok a, w') => k a w'
  | (Raise e, w') => (Raise e, w')
  end.

Definition raise {A} (e : exn) : M A := fun w => (Raise e, w).

(** One more event on standard output. *)
Definition emit (e : event) : M unit :=
  fun w => (Ok tt, World (stdout w ++ [e]) (commands w)).

(** [for x in l: body], threading the loop variables [s]. *)
Fixpoint for_each {A S} (body : S -> A -> M S) (l : list A) (s : S) : M S :=
  match l with
  | [] => mret s
  | x :: l' => s' ← body s x; for_each body l' s'
  end.

(** [l[i]], raising [IndexError]. *)
Definition item {A} (l : list A) (i : Z) : M A :=
  match Py.getitem l i with
  | Some x => mret x
  | None => raise IndexError
  end.

(** ** The script *)

(** The value of [rec['type']]: the strings ['unknown'], ['present']
    and ['deleted']. *)
Inductive rtype := unknown | present | deleted.

#[global] Instance rtype_eq_dec : EqDecision rtype.
Proof. solve_decision. Defined.

(** The dictionary [rec] that [process] builds for every text line. *)
Record record := Rec {
  r_from : Z;
  r_from_owner : string;
  r_lineno : Z;
  r_sep : string;
  r_text : string;
  r_to : Z;
  r_to_owner : string;
  r_type : rtype;
}.

(** The variables of [process] that its first loop updates. *)
Record loop_vars := LoopVars {
  data : list record;
  cl_owner : gmap Z string;
  cl_to_max_digits : Z;
  cl_from_max_digits : Z;
  cl_to_owner_max_len : Z;
  cl_from_owner_max_len : Z;
  lineno : Z;
}.

(** Their values before the loop. *)
Definition init_vars : loop_vars :=
  {| data := [];
     cl_owner := ∅;
     cl_to_max_digits := 1;
     cl_from_max_digits := 1;
     cl_to_owner_max_len := 0;
     cl_from_owner_max_len := 0;
     lineno := 0 |}.

(** [frec], [trec], [lnum] and [clr] of the second loop of [process],
    and the line it prints for a record. *)
Definition frec (r : record) : string :=
  Py.str (r_from r) +:+ "@" +:+ r_from_owner r.

Definition trec (r : record) : string :=
  Py.str (r_to r) +:+ "@" +:+ r_to_owner r.

Definition lnum (lineno_digits : Z) (r : record) : string :=
  if decide (r_type r = present)
  then Py.rjust lineno_digits (Py.str (r_lineno r))
  else Py.rjust lineno_digits "-".

Definition clr (r : record) : string :=
  if decide (r_type r = present) then frec r
  else frec r +:+ " ... " +:+ trec r.

Definition render (lineno_digits clr_len : Z) (r : record) : string :=
  lnum lineno_digits r +:+ " " +:+ Py.ljust clr_len (clr r) +:+ " "
    +:+ r_sep r +:+ " " +:+ r_text r.

(** [clr_len], from the final values of the loop variables. *)
Definition clr_len (v : loop_vars) : Z :=
  cl_to_max_digits v + cl_to_owner_max_len v + 1
  + (cl_from_max_digits v + cl_from_owner_max_len v + 1)
  + 5.

Section Script.

(** The global [VERBOSE]; the integer part of [math.log10(n) + 1]
    for a positive integer [n], as the floating-point library computes
    it; and the shell: the exit status and the combined output of a
    command line. *)
Variable VERBOSE : Z.
Variable log10_digits : Z -> Z.
Variable shell : string -> Z * string.

(** [math.log10(n) + 1], of which the script only uses the integer
    part; [math.log10] raises [ValueError] on an argument that is not
    positive.  The script keeps the floating-point values of the
    running maxima and truncates them with [int()] when it uses them;
    truncation is monotone, so the maximum of the integer parts is the
    integer part of the maximum, and the embedding keeps integer
    parts throughout. *)
Definition log10_plus_1 (n : Z) : M Z :=
  if n <=? 0 then raise ValueError else mret (log10_digits n).

Definition _msg (msg prefix : string) : M unit := emit (Msg prefix msg).

Definition vinfo (msg : string) : M unit :=
  if VERBOSE =? 0 then mret tt else _msg msg "INFO".

(** [err] writes its message and leaves through [sys.exit]: it never
    returns, so it has every result type. *)
Definition err {A} (msg : string) : M A :=
  _msg msg "ERROR";; raise (SystemExit 1).

Definition _system (cmd : string) : M (Z * string) :=
  fun w => (Ok (shell cmd), World (stdout w) (commands w ++ [cmd])).

Definition system (cmd : string) : M (Z * string) :=
  '(ret, out) ← _system cmd;
  (if negb (ret =? 0)
   then err ("command failed: " +:+ String Py.DQUOTE cmd
             +:+ String Py.DQUOTE "")
   else mret tt);;
  mret (ret, out).

(** The loop of [get_owner]: [change] and [owner] after it. The loop
    stops at the first line in which the pattern is found. *)
Fixpoint first_change_by (lines : list string) : Z * option string :=
  match lines with
  | [] => (0, None)
  | line :: lines' =>
      match Re.search Re.change_by_at line with
      | Some (g1, g2) => (Py.int g1, Some g2)
      | None => first_change_by lines'
      end
  end.

Definition get_owner (cln : Z) : M string :=
  let cmd := "p4 describe -s " +:+ Py.str cln in
  '(_, out) ← system cmd;
  let lines := Py.split Py.NL out in
  let '(change, owner) := first_change_by lines in
  (if negb (change =? cln)
   then err ("p4 describe record not found for " +:+ Py.str cln)
   else mret tt);;
  match owner with
  | None => err ("p4 describe record not found for " +:+ Py.str cln)
  | Some owner => mret owner
  end.

(** The closure [get_cl_owner] of [process]; the dictionary it
    updates is passed and returned. *)
Definition get_cl_owner (cln : Z) (cl_owner : gmap Z string)
  : M (string * gmap Z string) :=
  match cl_owner !! cln with
  | None => owner ← get_owner cln; mret (owner, <[cln := owner]> cl_owner)
  | Some owner => mret (owner, cl_owner)
  end.

(** The body of the first loop of [process]. *)
Definition process_line (ifn : string) (latest : Z) (v : loop_vars)
  (line : string) : M loop_vars :=
  let line := Py.strip line in
  match Re.search Re.text_at line with
  | Some (g1, g2, g3) =>
      let cl_from := Py.int g1 in
      let cl_to := Py.int g2 in
      let text := g3 in
      '(cl_from_owner, cl_owner1) ← get_cl_owner cl_from (cl_owner v);
      '(cl_to_owner, cl_owner2) ← get_cl_owner cl_to cl_owner1;
      let '(lineno', rtype, sep) :=
        if (cl_from =? latest) || (cl_to =? latest)
        then (lineno v + 1, present, "|"%string)
        else (lineno v, deleted, "-"%string) in
      let rec := {| r_from := cl_from;
                    r_from_owner := cl_from_owner;
                    r_lineno := lineno';
                    r_sep := sep;
                    r_text := text;
                    r_to := cl_to;
                    r_to_owner := cl_to_owner;
                    r_type := rtype |} in
      to_digits ← log10_plus_1 cl_to;
      from_digits ← log10_plus_1 cl_from;
      mret {| data := data v ++ [rec];
              cl_owner := cl_owner2;
              cl_to_max_digits := Z.max (cl_to_max_digits v) to_digits;
              cl_from_max_digits := Z.max (cl_from_max_digits v) from_digits;
              cl_to_owner_max_len :=
                Z.max (cl_to_owner_max_len v) (Py.len cl_to_owner);
              cl_from_owner_max_len :=
                Z.max (cl_from_owner_max_len v) (Py.len cl_from_owner);
              lineno := lineno' |}
  | None =>
      err ("unrecognized line in " +:+ ifn
           +:+ String Py.NL (String Py.TAB line))
  end.

(** The index [last] of the terminator: the last line, or the one
    before it when the last line has no [exit:]. *)
Definition find_last (ifn : string) (lines : list string) : M Z :=
  l1 ← item lines (-1);
  if Py.find l1 "exit:" <? 0 then
    l2 ← item lines (-2);
    (if Py.find l2 "exit:" <? 0
     then err ("cannot find exit: record in " +:+ ifn)
     else mret tt);;
    mret (-2)
  else mret (-1).

(** The end of [process]: the header, a line for every record, and
    the header again. *)
Definition report (header : string) (v : loop_vars) : M unit :=
  emit (Print (Py.strip header));;
  lineno_digits ← log10_plus_1 (lineno v);
  for_each (fun _ r => emit (Print (render lineno_digits (clr_len v) r)))
    (data v) tt;;
  emit (Print (Py.strip header)).

(** The first loop of [process], over the text lines [body], from
    the initial values of its variables. *)
Definition first_loop (ifn : string) (latest : Z) (body : list string)
  : M loop_vars :=
  for_each (process_line ifn latest) body init_vars.

(** The two loops of [process] and what lies between them. *)
Definition process_records (ifn header : string) (latest : Z)
  (body : list string) : M unit :=
  v ← first_loop ifn latest body;
  report header v.

(** [process]; [header] is [lines[0]], which always exists. *)
Definition process (ifn : string) : M unit :=
  let cmd := "p4 -s annotate -a -i -I " +:+ ifn in
  '(_, out) ← system cmd;
  let lines := Py.split Py.NL out in
  vinfo ("file: " +:+ ifn);;
  vinfo ("num lines = " +:+ Py.str (Z.of_nat (length lines)));;
  header ← item lines 0;
  (if Py.find header "info:" <? 0
   then err ("cannot find info: record in " +:+ ifn)
   else mret tt);;
  last ← find_last ifn lines;
  latest ← match Re.search Re.change_at header with
           | Some g1 => mret (Py.int g1)
           | None =>
               err ("cannot find the latest change list number for " +:+ ifn
                    +:+ String Py.NL (String Py.TAB header))
           end;
  vinfo ("latest change list: " +:+ Py.str latest);;
  process_records ifn header latest (Py.slice lines 1 last).

(** [main], after [getopts]: the files are processed in order. *)
Definition main (files : list string) : M unit :=
  for_each (fun _ ifn => process ifn) files tt.

End Script.

(** The integer part of [math.log10(n) + 1] when the logarithm is
    exact: the number of decimal digits of [n]. *)
Definition exact_digits (n : Z) : Z := Py.ilog10 n + 1.

(** ** Vocabulary of the properties *)

(** Whether the text line with these two change lists is present. *)
Definition is_present (latest cl_from cl_to : Z) : bool :=
  (cl_from =? latest) || (cl_to =? latest).

(** The command line of a metadata lookup. *)
Definition describe_cmd (cln : Z) : string := "p4 describe -s " +:+ Py.str cln.

(** The command line of the annotation of a file. *)
Definition annotate_cmd (ifn : string) : string :=
  "p4 -s annotate -a -i -I " +:+ ifn.

(** The change lists that a text line names, and those of a stream. *)
Definition line_changes (line : string) : list Z :=
  match Re.search Re.text_at (Py.strip line) with
  | Some (g1, g2, _) => [Py.int g1; Py.int g2]
  | None => []
  end.

Definition stream_changes (body : list string) : list Z :=
  concat (line_changes <$> body).

(** Every character of [s] is in the class [p]. *)
Fixpoint all_of (p : ascii -> bool) (s : string) : bool :=
  match s with
  | EmptyString => true
  | String c s' => p c && all_of p s'
  end.

(** A non-empty string of characters of the class [p]. *)
Definition run_of (p : ascii -> bool) (s : string) : Prop :=
  s <> "" /\ all_of p s = true.

(** The text [Change <d> by <o>@] occurs in [line], with [d] a number
    and [o] a name without [@]. *)
Definition occurs_change_by (line d o : string) : Prop :=
  exists pre post,
    line = pre +:+ "Change " +:+ d +:+ " by " +:+ o +:+ "@" +:+ post /\
    run_of Py.isdigit d /\ run_of Re.not_at o.

(** The outcome of [err msg] in the world [w]. *)
Definition failed {A} (msg : string) (w : world) : outcome A * world :=
  (Raise (SystemExit 1), World (stdout w ++ [Msg "ERROR" msg]) (commands w)).

(** The world after one more command. *)
Definition ran (cmd : string) (w : world) : world :=
  World (stdout w) (commands w ++ [cmd]).

(** Where a greedy repetition stops: at the end or before a character
    outside the class. *)
Definition stops (p : ascii -> bool) (s : string) : Prop :=
  match s with
  | EmptyString => True
  | String c _ => p c = false
  end.

(** The lookups run so far, [cls], with respect to the world [w0]
    before the loop: each change list has been looked up once. *)
Definition lookups_log (w0 : world) (cls : list Z) (w : world) : Prop :=
  commands w = commands w0 ++ (describe_cmd <$> cls) /\ NoDup cls.

(** They are the entries of the dictionary. *)
Definition lookups_of (w0 : world) (cls : list Z) (m : gmap Z string)
  (w : world) : Prop :=
  lookups_log w0 cls w /\ forall c, c ∈ cls <-> is_Some (m !! c).

(** ** Vocabulary of the error handling *)

(** An informational message, as [vinfo] writes them. *)
Definition is_info (e : event) : Prop := exists msg, e = Msg "INFO" msg.

(** From [w] to [w'], standard output has got informational messages
    only. *)
Definition quiet (w w' : world) : Prop :=
  exists infos, stdout w' = stdout w ++ infos /\ Forall is_info infos.

(** From [w] to [w'], standard output has got informational
    messages, then one error message, and nothing else. *)
Definition aborted (w w' : world) : Prop :=
  exists infos msg,
    stdout w' = stdout w ++ infos ++ [Msg "ERROR" msg] /\
    Forall is_info infos.

(** A computation that prints nothing, whatever its outcome, and
    that leaves through [sys.exit] only with the status 1 and after
    one error message. *)
Definition silent {A} (m : M A) : Prop :=
  forall w r w', m w = (r, w') ->
    match r with
    | Raise (SystemExit exitcode) => exitcode = 1 /\ aborted w w'
    | _ => quiet w w'
    end.

(** A computation that has printed nothing when it leaves through
    [sys.exit]. *)
Definition exits_silently {A} (m : M A) : Prop :=
  forall w exitcode w',
    m w = (Raise (SystemExit exitcode), w') -> exitcode = 1 /\ aborted w w'.

(** A computation that does not leave through [sys.exit]. *)
Definition never_exits {A} (m : M A) : Prop :=
  forall w r w', m w = (r, w') ->
    forall exitcode, r <> Raise (SystemExit exitcode).

(** The world after the informational messages [msgs] of [vinfo]. *)
Definition informed (VERBOSE : Z) (msgs : list string) (w : world) : world :=
  if VERBOSE =? 0 then w
  else World (stdout w ++ (Msg "INFO" <$> msgs)) (commands w).

(** ** Concrete runs *)

(** [sep.join(l)] for a one-character separator. *)
Fixpoint join (sep : ascii) (l : list string) : string :=
  match l with
  | [] => ""
  | [s] => s
  | s :: l' => s +:+ String sep (join sep l')
  end.

(** A shell that knows the commands of a table, and fails on every
    other command. *)
Fixpoint shell_of (table : list (string * (Z * string))) (cmd : string)
  : Z * string :=
  match table with
  | [] => (1, "")
  | (c, r) :: table' => if String.eqb c cmd then r else shell_of table' cmd
  end.

(** The world before the script has done anything. *)
Definition w0 : world := World [] [].

(** A lookup whose output names another change list before the one
    that was asked for. *)
Definition shell_two_changes : string -> Z * string :=
  shell_of
    [("p4 describe -s 10",
      (0, join Py.NL ["Change 99 by bob@ws on 2015/01/01 10:00:00";
                      "Change 10 by amy@ws on 2015/01/02 10:00:00"]))].

(** The annotation of a file whose head is change list 30, with one
    line that is still there and one that change list 20 removed; the
    owners of the change lists 10, 20 and 30 are amy, bob and cleo. *)
Definition scenario_header : string := "info: file#3 - edit change 30 (text)".

Definition scenario_body : list string :=
  ["text: 10-30:alpha"; "text: 10-20:beta"].

Definition scenario_lookups : list (string * (Z * string)) :=
  [(describe_cmd 10, (0, "Change 10 by amy@ws on 2015/01/01 10:00:00"));
   (describe_cmd 20, (0, "Change 20 by bob@ws on 2015/01/02 10:00:00"));
   (describe_cmd 30, (0, "Change 30 by cleo@ws on 2015/01/03 10:00:00"))].

Definition shell_scenario : string -> Z * string :=
  shell_of
    ((annotate_cmd "file",
      (0, join Py.NL (scenario_header :: scenario_body ++ ["exit:"])))
     :: scenario_lookups).

(** The same annotation with a newline after the terminator. *)
Definition shell_scenario_nl : string -> Z * string :=
  shell_of
    ((annotate_cmd "file",
      (0, join Py.NL (scenario_header :: scenario_body ++ ["exit:"; ""])))
     :: scenario_lookups).

(** The two records of that annotation, and the variables of the
    first loop after it. *)
Definition scenario_present : record :=
  {| r_from := 10; r_from_owner := "amy"; r_lineno := 1; r_sep := "|";
     r_text := "alpha"; r_to := 30; r_to_owner := "cleo";
     r_type := present |}.

Definition scenario_deleted : record :=
  {| r_from := 10; r_from_owner := "amy"; r_lineno := 1; r_sep := "-";
     r_text := "beta"; r_to := 20; r_to_owner := "bob";
     r_type := deleted |}.

Definition scenario_vars : loop_vars :=
  {| data := [scenario_present; scenario_deleted];
     cl_owner := <[20 := "bob"]> (<[30 := "cleo"]> (<[10 := "amy"]> ∅));
     cl_to_max_digits := 2;
     cl_from_max_digits := 2;
     cl_to_owner_max_len := 4;
     cl_from_owner_max_len := 3;
     lineno := 1 |}.

(** The lookups of the first loop, in the order it runs them. *)
Definition scenario_world : world :=
  World [] [describe_cmd 10; describe_cmd 30; describe_cmd 20].

(** An annotation with a blank line before the terminator. *)
Definition shell_blank_before_exit : string -> Z * string :=
  shell_of
    ((annotate_cmd "file",
      (0, join Py.NL [scenario_header; "text: 10-30:alpha"; ""; "exit:"]))
     :: scenario_lookups).

(** The annotation of the scenario without its present line, and
    one text line that ends with blanks. *)
Definition shell_no_present : string -> Z * string :=
  shell_of
    ((annotate_cmd "file",
      (0, join Py.NL [scenario_header; "text: 10-20:beta"; "exit:"]))
     :: scenario_lookups).

Definition line_with_blanks : string := "text: 10-30:    x = 1;  ".

(** The variables of the first loop after the line with blanks, and
    after the text lines of the annotation without a present line. *)
Definition blanks_record : record :=
  {| r_from := 10; r_from_owner := "amy"; r_lineno := 1; r_sep := "|";
     r_text := "    x = 1;"; r_to := 30; r_to_owner := "cleo";
     r_type := present |}.

Definition blanks_vars : loop_vars :=
  {| data := [blanks_record];
     cl_owner := <[30 := "cleo"]> (<[10 := "amy"]> ∅);
     cl_to_max_digits := 2;
     cl_from_max_digits := 2;
     cl_to_owner_max_len := 4;
     cl_from_owner_max_len := 3;
     lineno := 1 |}.

Definition no_present_record : record :=
  {| r_from := 10; r_from_owner := "amy"; r_lineno := 0; r_sep := "-";
     r_text := "beta"; r_to := 20; r_to_owner := "bob";
     r_type := deleted |}.

Definition no_present_vars : loop_vars :=
  {| data := [no_present_record];
     cl_owner := <[20 := "bob"]> (<[10 := "amy"]> ∅);
     cl_to_max_digits := 2;
     cl_from_max_digits := 2;
     cl_to_owner_max_len := 3;
     cl_from_owner_max_len := 3;
     lineno := 0 |}.

(** An output of one line, without a newline and without terminator. *)
Definition shell_single_line : string -> Z * string :=
  shell_of [(annotate_cmd "file", (0, scenario_header))].


(** ** The command line *)

Definition VERSION : string := "1.0".

Definition info (msg : string) : M unit := _msg msg "INFO".

(** [os.path.basename(p)]: what follows the last slash. *)
Definition basename (p : string) : string :=
  default "" (last (Py.split "/" p)).

(** The text that [_help] writes for the program name [prog], without
    the newline that ends it. *)
Definition usage (prog : string) : string :=
  let DQ := String Py.DQUOTE "" in
  join Py.NL
    ["";
     "USAGE";
     "    " +:+ prog +:+ " [OPTIONS] <file> [<file>]*";
     "";
     "DESCRIPTION";
     "    Display the name(s) of people who changed each line of code in a";
     "    file or a perforce path.";
     "";
     "    The format of the output is each line of the file. The first column";
     "    is the line number. The second column is the changelist and person";
     "    (<cl>@<name>) that created the line. The third column is an ellipse";
     "    (...) if there is a fourth column. The fourth column is the";
     "    changelist and name of who deleted the line. The fifth column is";
     "    the separator (" +:+ DQ +:+ "|" +:+ DQ +:+ " line is present, "
       +:+ DQ +:+ "-" +:+ DQ +:+ " line was deleted). The";
     "    sixth column is the text of the line.";
     "";
     "    Here is an example:";
     "";
     "      $ " +:+ prog +:+ " //depot/dev/proj1/lib1/src/file1.cc";
     "      .";
     "      .";
     "      275 11547@bigbob                      |    auto up1 = make_unique(Thing);";
     "        - 11547@bigbob ... 363442@jlinoff   - ";
     "      ^   ^     ^      ^   ^                ^    ^";
     "      |   |     |      |   |                |    +--- col 6 - source line";
     "      |   |     |      |   |                +-------- col 5 - separator (|, -)";
     "      |   |     |      |   +------------------------- col 4 - who deleted it";
     "      |   |     |      +----------------------------- col 3 - ellipses";
     "      |   +------------------------------------------ col 2 - who deleted it";
     "      +---------------------------------------------- col 1 - line number or dash (deleted)";
     "";
     "    The first line is one that is currently present. The second line";
     "    was created by mtennant and deleted by jlinoff.";
     "";
     "    Note that you if you are in a sandbox you can simply specify the";
     "    file as follows:";
     "";
     "      $ " +:+ prog +:+ " proj1/lib1/src/file1.cc";
     "";
     "OPTIONS";
     "    -h, --help          This help message.";
     "";
     "    -v, --verbose       Increase the level of verbosity.";
     "";
     "    -V, --version       Print the version number and exit.";
     "";
     "EXAMPLES";
     "    $ " +:+ prog +:+ " -h";
     "    $ " +:+ prog +:+ " //depot/dev/proj1/lib1/src/file1.cc";
     "    $ " +:+ prog +:+ " //depot/dev/proj1/lib1/src/file1.cc | grep -B 2 -A 5 make_unique";
     "";
     "VERSION";
     "  v" +:+ VERSION;
     ""].

(** [_help] writes the text with [sys.stdout.write]; the text ends
    with a newline, so that what is written is what [print] writes
    for the text without it.  [_help] leaves through [sys.exit(0)]: it
    never returns, so it has every result type. *)
Definition _help {A} (argv : list string) : M A :=
  argv0 ← item argv 0;
  emit (Print (usage (basename argv0)));;
  raise (SystemExit 0).

(** [opt in ['-h', '--help']] and the like. *)
Definition is_help (opt : string) : bool :=
  String.eqb opt "-h" || String.eqb opt "--help".

Definition is_verbose (opt : string) : bool :=
  String.eqb opt "-v" || String.eqb opt "--verbose".

Definition is_version (opt : string) : bool :=
  String.eqb opt "-V" || String.eqb opt "--version".

(** A turn of the loop of [getopts]: [opts['files']] and the global
    [VERBOSE] are the loop variables. *)
Definition getopts_step (argv : list string) (s : list string * Z)
  (opt : string) : M (list string * Z) :=
  let '(files, VERBOSE) := s in
  if is_help opt then _help argv
  else if is_verbose opt then mret (files, VERBOSE + 1)
  else if is_version opt then
    info ("v" +:+ VERSION);; raise (SystemExit 0)
  else mret (files ++ [opt], VERBOSE).

(** [getopts]: the loop goes through [sys.argv[1:]]; the result is
    [opts['files']] with the value of [VERBOSE] after the loop. *)
Definition getopts (argv : list string) (VERBOSE : Z)
  : M (list string * Z) :=
  for_each (getopts_step argv) (drop 1 argv) ([], VERBOSE).

(** [main], with [getopts]; [VERBOSE] is 0 when the script starts. *)
Definition run_main (log10_digits : Z -> Z) (shell : string -> Z * string)
  (argv : list string) : M unit :=
  '(files, VERBOSE) ← getopts argv 0;
  main VERBOSE log10_digits shell files.

(** ** Vocabulary of the further properties *)

(** An option that ends the run: help or version. *)
Definition is_stop (opt : string) : bool := is_help opt || is_version opt.

(** The world [w] after the events [evs] and the commands [cmds]. *)
Definition extend (w : world) (evs : list event) (cmds : list string)
  : world :=
  World (stdout w ++ evs) (commands w ++ cmds).

(** The lookup of the change list [c] gives the owner [o]. *)
Definition resolves (shell : string -> Z * string) (c : Z) (o : string)
  : Prop :=
  exists out,
    shell (describe_cmd c) = (0, out) /\
    first_change_by (Py.split Py.NL out) = (c, Some o).

(** A text line that is recognized, with positive change lists
    whose lookups give an owner. *)
Definition good_line (shell : string -> Z * string) (line : string) : Prop :=
  exists g1 g2 g3 o1 o2,
    Re.search Re.text_at (Py.strip line) = Some (g1, g2, g3) /\
    1 <= Py.int g1 /\ 1 <= Py.int g2 /\
    resolves shell (Py.int g1) o1 /\ resolves shell (Py.int g2) o2.

(** A computation whose outcome, events and commands are the same in
    every world. *)
Definition framed {A} (m : M A) : Prop :=
  exists r evs cmds, forall w, m w = (r, extend w evs cmds).

(** A computation that writes informational messages only (none
    when [VERBOSE] is 0), and one error message after them when it
    leaves through [sys.exit], which it does with the status 1. *)
Definition shaped (VERBOSE : Z) {A} (m : M A) : Prop :=
  forall w r w', m w = (r, w') ->
    exists infos,
      Forall is_info infos /\ (VERBOSE = 0 -> infos = []) /\
      match r with
      | Raise (SystemExit exitcode) =>
          exitcode = 1 /\
          exists msg, stdout w' = stdout w ++ infos ++ [Msg "ERROR" msg]
      | _ => stdout w' = stdout w ++ infos
      end.

(** What a run of [process] has written after its informational
    messages, by outcome: the whole report, one error message,
    nothing, or the header alone. *)
Definition report_tail (r : outcome unit) (tail : list event) : Prop :=
  match r with
  | Ok _ =>
      exists header lines,
        tail = Print header :: (Print <$> lines) ++ [Print header]
  | Raise (SystemExit exitcode) =>
      exitcode = 1 /\ exists msg, tail = [Msg "ERROR" msg]
  | Raise IndexError => tail = []
  | Raise ValueError => tail = [] \/ exists header, tail = [Print header]
  end.

Definition classified (VERBOSE : Z) (m : M unit) : Prop :=
  forall w r w', m w = (r, w') ->
    exists infos tail,
      stdout w' = stdout w ++ infos ++ tail /\
      Forall is_info infos /\ (VERBOSE = 0 -> infos = []) /\
      report_tail r tail.

(** The record [r] is the one of the text line [line]. *)
Definition record_of_line (latest : Z) (line : string) (r : record) : Prop :=
  exists g1 g2,
    Re.search Re.text_at (Py.strip line) = Some (g1, g2, r_text r) /\
    r_from r = Py.int g1 /\ r_to r = Py.int g2 /\
    r_type r = (if is_present latest (r_from r) (r_to r)
                then present else deleted) /\
    r_sep r = (if is_present latest (r_from r) (r_to r) then "|" else "-").

(** The change lists of a record with the owners it shows for them. *)
Definition shown_owners (r : record) : list (Z * string) :=
  [(r_from r, r_from_owner r); (r_to r, r_to_owner r)].

(** A computation whose exceptions are all in [E]. *)
Definition raises_only {A} (E : exn -> Prop) (m : M A) : Prop :=
  forall w r w', m w = (r, w') -> forall e, r = Raise e -> E e.

(** Every exception but [IndexError]. *)
Definition not_index (e : exn) : Prop := e <> IndexError.


(** ** Concrete command lines and runs *)

(** A command line with two files and two verbosity options, and the
    annotation of the scenario for a shell that also knows a change
    list 0. *)
Definition argv_verbose : list string :=
  ["/usr/bin/p4-whodunit.py"; "-v"; "file"; "--verbose"; "other"].

Definition shell_zero : string -> Z * string :=
  shell_of
    ((describe_cmd 0, (0, "Change 0 by root@ws on 2015/01/01 09:00:00"))
     :: (annotate_cmd "file",
         (0, join Py.NL (scenario_header :: scenario_body ++ ["exit:"])))
     :: scenario_lookups).
(** * Properties *)

(** ** Strings *)

Section StringFacts.

Lemma str_app_nil_l (s : string) : "" +:+ s = s.
Proof. reflexivity. Qed.

Lemma str_app_cons (c : ascii) (a b : string) :
  String c a +:+ b = String c (a +:+ b).
Proof. reflexivity. Qed.

Lemma str_app_nil_r (s : string) : s +:+ "" = s.
Proof. induction s; rewrite ?str_app_cons, ?str_app_nil_l; congruence. Qed.

Lemma str_app_assoc (a b c : string) : (a +:+ b) +:+ c = a +:+ (b +:+ c).
Proof. induction a; rewrite ?str_app_cons, ?str_app_nil_l; congruence. Qed.

Lemma len_nonneg (s : string) : 0 <= Py.len s.
Proof. unfold Py.len. lia. Qed.

Lemma len_cons (c : ascii) (s : string) : Py.len (String c s) = 1 + Py.len s.
Proof. unfold Py.len. cbn [String.length]. lia. Qed.

Lemma len_app (a b : string) : Py.len (a +:+ b) = Py.len a + Py.len b.
Proof.
  induction a as [|c a IH]; rewrite ?str_app_cons, ?str_app_nil_l.
  - unfold Py.len at 2. cbn [String.length]. lia.
  - rewrite !len_cons, IH. lia.
Qed.

Lemma len_spaces (n : nat) : Py.len (Py.spaces n) = Z.of_nat n.
Proof.
  induction n as [|n IH]; [reflexivity|].
  cbn [Py.spaces]. rewrite len_cons, IH. lia.
Qed.

(** A field at least as wide as the text is filled exactly, and the
    text is kept whole in every case. *)
Lemma ljust_spec (w : Z) (s : string) :
  Py.len s <= w ->
  Py.len (Py.ljust w s) = w /\
  Py.ljust w s = s +:+ Py.spaces (Z.to_nat (w - Py.len s)).
Proof.
  intros Hle. pose proof (len_nonneg s).
  unfold Py.ljust. rewrite len_app, len_spaces.
  replace (Z.abs w) with w by lia. split; [lia | reflexivity].
Qed.

End StringFacts.

(** ** Decimal digits *)

Section Digits.

Lemma digit_fuel_enough (n : Z) :
  0 <= n -> n < 2 ^ Z.of_nat (Py.digit_fuel n).
Proof.
  intros Hn. unfold Py.digit_fuel.
  destruct (Z.eq_dec n 0) as [->|Hne]; [reflexivity|].
  rewrite Nat2Z.inj_succ, Z2Nat.id by apply Z.log2_nonneg.
  apply Z.log2_spec. lia.
Qed.

Lemma div10_fuel (f : nat) (n : Z) :
  10 <= n -> n < 2 ^ Z.of_nat (S f) -> 0 <= n / 10 < 2 ^ Z.of_nat f.
Proof.
  intros Hn Hlt. split; [apply Z.div_pos; lia|].
  rewrite Nat2Z.inj_succ, Z.pow_succ_r in Hlt by lia.
  apply Z.div_lt_upper_bound; lia.
Qed.

(** [str] writes as many characters as [math.log10] says. *)
Lemma len_digits_acc (f : nat) (n : Z) (acc : string) :
  0 <= n < 2 ^ Z.of_nat (S f) ->
  Py.len (Py.digits_acc (S f) n acc)
  = Py.len acc + 1 + Py.ilog10_acc (S f) n.
Proof.
  revert n acc. induction f as [|f IH]; intros n acc Hn.
  - cbn [Py.digits_acc Py.ilog10_acc].
    destruct (n <? 10) eqn:E; [rewrite len_cons; lia|].
    apply Z.ltb_ge in E. change (2 ^ Z.of_nat 1) with 2 in Hn. lia.
  - cbn [Py.digits_acc Py.ilog10_acc] in *.
    destruct (n <? 10) eqn:E; [rewrite len_cons; lia|].
    apply Z.ltb_ge in E.
    rewrite IH by (apply div10_fuel; lia).
    rewrite len_cons. lia.
Qed.

Lemma len_str (n : Z) : 0 <= n -> Py.len (Py.str n) = Py.ilog10 n + 1.
Proof.
  intros Hn. unfold Py.str, Py.ilog10.
  destruct (n <? 0) eqn:E; [apply Z.ltb_lt in E; lia|].
  unfold Py.digit_fuel at 1 2.
  rewrite len_digits_acc.
  - change (Py.len "") with 0. lia.
  - split; [lia|]. apply (digit_fuel_enough n Hn).
Qed.

(** [ilog10] is the integer part of the decimal logarithm. *)
Lemma ilog10_acc_spec (f : nat) (n : Z) :
  1 <= n < 2 ^ Z.of_nat (S f) ->
  0 <= Py.ilog10_acc (S f) n /\
  10 ^ Py.ilog10_acc (S f) n <= n < 10 ^ (Py.ilog10_acc (S f) n + 1).
Proof.
  revert n. induction f as [|f IH]; intros n Hn.
  - change (2 ^ Z.of_nat 1) with 2 in Hn.
    cbn [Py.ilog10_acc]. destruct (n <? 10) eqn:E; simpl; lia.
  - cbn [Py.ilog10_acc] in *.
    destruct (n <? 10) eqn:E.
    + apply Z.ltb_lt in E. simpl. lia.
    + apply Z.ltb_ge in E.
      destruct (IH (n / 10)) as (H0 & Hlo & Hhi).
      { pose proof (div10_fuel (S f) n). 
        assert (1 <= n / 10) by (apply Z.div_le_lower_bound; lia). lia. }
      set (k := if n / 10 <? 10 then 0
                else 1 + Py.ilog10_acc f (n / 10 / 10)) in *.
      split; [lia|].
      replace (1 + k) with (Z.succ k) by lia.
      replace (Z.succ k + 1) with (Z.succ (k + 1)) by lia.
      rewrite !Z.pow_succ_r by lia.
      pose proof (Z.div_mod n 10 ltac:(lia)).
      pose proof (Z.mod_pos_bound n 10 ltac:(lia)).
      lia.
Qed.

Lemma ilog10_spec (n : Z) :
  1 <= n -> 10 ^ Py.ilog10 n <= n < 10 ^ (Py.ilog10 n + 1).
Proof.
  intros Hn. unfold Py.ilog10, Py.digit_fuel.
  apply ilog10_acc_spec. split; [lia|].
  apply (digit_fuel_enough n). lia.
Qed.

(** [int] reads back what [str] writes. *)
Lemma digit_val_char (d : Z) :
  0 <= d < 10 -> Py.digit_val (Py.digit_char d) = d.
Proof.
  intros Hd. unfold Py.digit_val, Py.digit_char.
  rewrite nat_ascii_embedding by lia. lia.
Qed.

Lemma int_digits_acc (f : nat) (n : Z) :
  0 <= n < 2 ^ Z.of_nat (S f) ->
  exists p, forall acc a,
    Py.int_acc (Py.digits_acc (S f) n acc) a = Py.int_acc acc (a * p + n).
Proof.
  revert n. induction f as [|f IH]; intros n Hn.
  - change (2 ^ Z.of_nat 1) with 2 in Hn. exists 10. intros acc a.
    cbn [Py.digits_acc]. destruct (n <? 10) eqn:E; [|apply Z.ltb_ge in E; lia].
    cbn [Py.int_acc]. rewrite Z.mod_small, digit_val_char by lia. done.
  - cbn [Py.digits_acc] in *. destruct (n <? 10) eqn:E.
    + apply Z.ltb_lt in E. exists 10. intros acc a.
      cbn [Py.int_acc]. rewrite Z.mod_small, digit_val_char by lia. done.
    + apply Z.ltb_ge in E.
      destruct (IH (n / 10)) as [p Hp]; [apply div10_fuel; lia|].
      exists (p * 10). intros acc a. rewrite Hp. cbn [Py.int_acc].
      pose proof (Z.mod_pos_bound n 10 ltac:(lia)).
      rewrite digit_val_char by lia. f_equal.
      pose proof (Z.div_mod n 10 ltac:(lia)). lia.
Qed.

Lemma int_str (n : Z) : 0 <= n -> Py.int (Py.str n) = n.
Proof.
  intros Hn. unfold Py.int, Py.str.
  destruct (n <? 0) eqn:E; [apply Z.ltb_lt in E; lia|].
  destruct (int_digits_acc (Z.to_nat (Z.log2 n)) n) as [p Hp].
  { split; [lia|]. apply (digit_fuel_enough n Hn). }
  unfold Py.digit_fuel. rewrite Hp. cbn [Py.int_acc]. lia.
Qed.

(** A string of digits is read as a natural number. *)
Lemma int_acc_nonneg (s : string) (a : Z) :
  all_of Py.isdigit s = true -> 0 <= a -> 0 <= Py.int_acc s a.
Proof.
  revert a. induction s as [|c s IH]; intros a Hs Ha; [done|].
  cbn in Hs. apply andb_true_iff in Hs as [Hc Hs]. cbn [Py.int_acc].
  apply IH; [done|]. unfold Py.isdigit in Hc. unfold Py.digit_val.
  apply andb_true_iff in Hc as [Hlo _]. apply Nat.leb_le in Hlo. lia.
Qed.

Lemma int_nonneg (s : string) : all_of Py.isdigit s = true -> 0 <= Py.int s.
Proof. intros Hs. by apply int_acc_nonneg. Qed.

(** Different change lists have different lookup commands. *)
Lemma describe_cmd_inj (a b : Z) :
  0 <= a -> 0 <= b -> describe_cmd a = describe_cmd b -> a = b.
Proof.
  intros Ha Hb H. unfold describe_cmd in H.
  apply (inj (String.append _)) in H.
  by rewrite <- (int_str a), <- (int_str b), H.
Qed.

End Digits.

(** ** The monad *)

Section MonadFacts.

Context {A B : Type}.

Lemma bind_ok (m : M A) (k : A -> M B) w a w1 :
  m w = (Ok a, w1) -> (m ≫= k) w = k a w1.
Proof. intros H. unfold mbind, M_bind. by rewrite H. Qed.

Lemma bind_raise (m : M A) (k : A -> M B) w e w1 :
  m w = (Raise e, w1) -> (m ≫= k) w = (Raise e, w1).
Proof. intros H. unfold mbind, M_bind. by rewrite H. Qed.

Lemma bind_ok_inv (m : M A) (k : A -> M B) w b w' :
  (m ≫= k) w = (Ok b, w') ->
  exists a w1, m w = (Ok a, w1) /\ k a w1 = (Ok b, w').
Proof.
  unfold mbind, M_bind. destruct (m w) as [[a|e] w1]; [eauto | done].
Qed.

Lemma bind_raise_inv (m : M A) (k : A -> M B) w e w' :
  (m ≫= k) w = (Raise e, w') ->
  m w = (Raise e, w') \/
  exists a w1, m w = (Ok a, w1) /\ k a w1 = (Raise e, w').
Proof.
  unfold mbind, M_bind. destruct (m w) as [[a|e1] w1]; intros H;
    [right; eauto | left; congruence].
Qed.

End MonadFacts.

(** A loop that ends normally has an invariant over the elements it
    has gone through. *)
Lemma for_each_inv {A S} (P : list A -> S -> world -> Prop)
  (body : S -> A -> M S) (l : list A) (s0 : S) (w0 : world) :
  P [] s0 w0 ->
  (forall pre x s w s' w',
      P pre s w -> body s x w = (Ok s', w') -> P (pre ++ [x]) s' w') ->
  forall s' w', for_each body l s0 w0 = (Ok s', w') -> P l s' w'.
Proof.
  intros H0 Hstep.
  cut (forall pre s w s' w',
          P pre s w -> for_each body l s w = (Ok s', w') -> P (pre ++ l) s' w').
  { intros Hcut s' w' Hrun. apply (Hcut [] s0 w0); done. }
  induction l as [|x l IH]; intros pre s w s' w' HP Hrun.
  - cbn in Hrun. injection Hrun as <- <-. by rewrite app_nil_r.
  - cbn [for_each] in Hrun.
    apply bind_ok_inv in Hrun as (s1 & w1 & Hx & Hrest).
    rewrite (assoc_L (++) pre [x] l : pre ++ x :: l = (pre ++ [x]) ++ l).
    eapply IH; [|exact Hrest]. eapply Hstep; eauto.
Qed.

(** ** The first loop of [process] *)

Section Loop.

Variable log10_digits : Z -> Z.
Variable shell : string -> Z * string.

Lemma log10_plus_1_ok n d w w' :
  log10_plus_1 log10_digits n w = (Ok d, w') ->
  1 <= n /\ d = log10_digits n /\ w' = w.
Proof.
  unfold log10_plus_1. destruct (n <=? 0) eqn:E; [done|].
  apply Z.leb_gt in E. intros [= <- <-]. repeat split; lia.
Qed.

(** What a turn of the loop that ends normally has done. *)
Lemma process_line_ok ifn latest v line w v' w' :
  process_line log10_digits shell ifn latest v line w = (Ok v', w') ->
  exists g1 g2 g3 fo to m1 w1,
    Re.search Re.text_at (Py.strip line) = Some (g1, g2, g3) /\
    get_cl_owner shell (Py.int g1) (cl_owner v) w = (Ok (fo, m1), w1) /\
    get_cl_owner shell (Py.int g2) m1 w1 = (Ok (to, cl_owner v'), w') /\
    1 <= Py.int g1 /\ 1 <= Py.int g2 /\
    let b := is_present latest (Py.int g1) (Py.int g2) in
    let r := {| r_from := Py.int g1;
                r_from_owner := fo;
                r_lineno := if b then lineno v + 1 else lineno v;
                r_sep := if b then "|" else "-";
                r_text := g3;
                r_to := Py.int g2;
                r_to_owner := to;
                r_type := if b then present else deleted |} in
    data v' = data v ++ [r] /\
    cl_to_max_digits v'
    = Z.max (cl_to_max_digits v) (log10_digits (Py.int g2)) /\
    cl_from_max_digits v'
    = Z.max (cl_from_max_digits v) (log10_digits (Py.int g1)) /\
    cl_to_owner_max_len v' = Z.max (cl_to_owner_max_len v) (Py.len to) /\
    cl_from_owner_max_len v' = Z.max (cl_from_owner_max_len v) (Py.len fo) /\
    lineno v' = if b then lineno v + 1 else lineno v.
Proof.
  unfold process_line.
  destruct (Re.search Re.text_at (Py.strip line)) as [[[g1 g2] g3]|] eqn:Hm.
  2:{ unfold err, _msg, emit, raise, mbind, M_bind. done. }
  intros H.
  apply bind_ok_inv in H as ([fo m1] & w1 & Hfo & H).
  apply bind_ok_inv in H as ([to m2] & w2 & Hto & H).
  fold (is_present latest (Py.int g1) (Py.int g2)) in H.
  exists g1, g2, g3, fo, to, m1, w1.
  destruct (is_present latest (Py.int g1) (Py.int g2));
    apply bind_ok_inv in H as (d2 & w3 & Hd2 & H);
    apply bind_ok_inv in H as (d1 & w4 & Hd1 & H);
    apply log10_plus_1_ok in Hd2 as (? & -> & ->);
    apply log10_plus_1_ok in Hd1 as (? & -> & ->);
    injection H as <- <-; cbn; done.
Qed.

(** C1: every record built from the annotation stream is present
    exactly when its [from] or its [to] change list is the latest one
    of the header, and is deleted otherwise. *)
Theorem status_present_iff_latest ifn latest body w v w' :
  first_loop log10_digits shell ifn latest body w = (Ok v, w') ->
  forall r, r ∈ data v ->
    (r_type r = present <-> r_from r = latest \/ r_to r = latest) /\
    (r_type r <> present -> r_type r = deleted).
Proof.
  apply (for_each_inv (fun _ v _ => forall r, r ∈ data v ->
    (r_type r = present <-> r_from r = latest \/ r_to r = latest) /\
    (r_type r <> present -> r_type r = deleted))).
  - intros r Hr. cbn in Hr. by apply elem_of_nil in Hr.
  - clear. intros _ line v w v' w' IH Hstep r Hr.
    apply process_line_ok in Hstep
      as (g1 & g2 & g3 & fo & to & m1 & w1 & _ & _ & _ & _ & _ & Hv').
    cbn zeta in Hv'. destruct Hv' as (Hdata & _).
    rewrite Hdata in Hr. apply elem_of_app in Hr as [Hr|Hr]; [by apply IH|].
    apply list_elem_of_singleton in Hr as ->. cbn.
    unfold is_present.
    destruct (Py.int g1 =? latest) eqn:E1; cbn.
    { apply Z.eqb_eq in E1. split; [tauto | done]. }
    destruct (Py.int g2 =? latest) eqn:E2; cbn.
    { apply Z.eqb_eq in E2. split; [tauto | done]. }
    apply Z.eqb_neq in E1, E2. split; [|done].
    split; [done | lia].
Qed.

(** [lineno] counts the present records. *)
Lemma lineno_counts_present ifn latest body w v w' :
  first_loop log10_digits shell ifn latest body w = (Ok v, w') ->
  Z.of_nat (length (filter (fun r => r_type r = present) (data v)))
  = lineno v.
Proof.
  apply (for_each_inv (fun _ v _ =>
    Z.of_nat (length (filter (fun r => r_type r = present) (data v)))
    = lineno v)); [done|].
  clear. intros _ line v w v' w' IH Hstep.
  apply process_line_ok in Hstep
    as (g1 & g2 & g3 & fo & to & m1 & w1 & _ & _ & _ & _ & _ & Hv').
  cbn zeta in Hv'. destruct Hv' as (-> & _ & _ & _ & _ & ->).
  rewrite filter_app, length_app.
  destruct (is_present latest (Py.int g1) (Py.int g2)).
  - rewrite filter_cons_True by done. cbn. lia.
  - rewrite filter_cons_False by done. cbn. lia.
Qed.

(** C2: the present records are as many as the final value of
    [lineno], their line numbers are 1, 2, ..., [lineno] in the order
    of the records, and the line printed for a deleted record starts
    with a right-justified dash where the line number would be. *)
Theorem present_line_numbers ifn latest body w v w' :
  first_loop log10_digits shell ifn latest body w = (Ok v, w') ->
  let presents := filter (fun r => r_type r = present) (data v) in
  Z.of_nat (length presents) = lineno v /\
  r_lineno <$> presents = seqZ 1 (lineno v) /\
  forall r, r ∈ data v -> r_type r = deleted ->
    forall lineno_digits clr_len,
      render lineno_digits clr_len r
      = Py.rjust lineno_digits "-" +:+ " "
        +:+ Py.ljust clr_len (frec r +:+ " ... " +:+ trec r)
        +:+ " " +:+ r_sep r +:+ " " +:+ r_text r.
Proof.
  intros Hrun. cbn zeta. repeat apply conj.
  - by apply (lineno_counts_present _ _ _ _ _ _ Hrun).
  - revert v w' Hrun.
    apply (for_each_inv (fun _ v _ =>
      0 <= lineno v /\
      r_lineno <$> filter (fun r => r_type r = present) (data v)
      = seqZ 1 (lineno v))); [done|].
    clear. intros _ line v w v' w' [Hpos IH] Hstep.
    apply process_line_ok in Hstep
      as (g1 & g2 & g3 & fo & to & m1 & w1 & _ & _ & _ & _ & _ & Hv').
    cbn zeta in Hv'. destruct Hv' as (-> & _ & _ & _ & _ & ->).
    rewrite filter_app, fmap_app, IH.
    destruct (is_present latest (Py.int g1) (Py.int g2)).
    + rewrite filter_cons_True by done. cbn.
      split; [lia|].
      rewrite (seqZ_app 1 (lineno v) 1) by lia.
      f_equal. rewrite seqZ_cons, seqZ_nil by lia. f_equal. lia.
    + rewrite filter_cons_False by done. cbn.
      split; [lia|]. by rewrite app_nil_r.
  - intros r Hr Hdel d c. unfold render, lnum, clr.
    destruct (decide (r_type r = present)); [congruence | done].
Qed.

(** C4: when [math.log10] never gives a positive integer fewer
    digits than it has (as the exact logarithm does), [clr_len] is at
    least the length of the change/owner column of every record, in
    the layout of a present record as well as in
    the layout of a deleted one, so that the column, left-justified in
    [clr_len] characters, is the text followed by spaces and is
    [clr_len] characters long. *)
Theorem clr_len_fits ifn latest body w v w' :
  (forall n, 1 <= n -> exact_digits n <= log10_digits n) ->
  first_loop log10_digits shell ifn latest body w = (Ok v, w') ->
  forall r, r ∈ data v ->
    Py.len (frec r) <= clr_len v /\
    Py.len (frec r +:+ " ... " +:+ trec r) <= clr_len v /\
    Py.len (clr r) <= clr_len v /\
    Py.len (Py.ljust (clr_len v) (clr r)) = clr_len v /\
    Py.ljust (clr_len v) (clr r)
    = clr r +:+ Py.spaces (Z.to_nat (clr_len v - Py.len (clr r))).
Proof.
  intros Hlog Hrun r Hr.
  assert (Hinv : 1 <= cl_to_max_digits v /\ 1 <= cl_from_max_digits v /\
    forall r, r ∈ data v ->
      0 <= r_from r /\ 0 <= r_to r /\
      Py.ilog10 (r_from r) + 1 <= cl_from_max_digits v /\
      Py.ilog10 (r_to r) + 1 <= cl_to_max_digits v /\
      Py.len (r_from_owner r) <= cl_from_owner_max_len v /\
      Py.len (r_to_owner r) <= cl_to_owner_max_len v).
  { clear r Hr. revert v w' Hrun.
    apply (for_each_inv (fun _ v _ =>
      1 <= cl_to_max_digits v /\ 1 <= cl_from_max_digits v /\
      forall r, r ∈ data v ->
        0 <= r_from r /\ 0 <= r_to r /\
        Py.ilog10 (r_from r) + 1 <= cl_from_max_digits v /\
        Py.ilog10 (r_to r) + 1 <= cl_to_max_digits v /\
        Py.len (r_from_owner r) <= cl_from_owner_max_len v /\
        Py.len (r_to_owner r) <= cl_to_owner_max_len v)).
    - cbn. split; [lia|]. split; [lia|].
      intros r Hr. by apply elem_of_nil in Hr.
    - clear -Hlog. intros _ line v w v' w' (Hto & Hfrom & IH) Hstep.
      apply process_line_ok in Hstep
        as (g1 & g2 & g3 & fo & to & m1 & w1 & _ & _ & _ & H1 & H2 & Hv').
      cbn zeta in Hv'. destruct Hv' as (-> & -> & -> & -> & -> & _).
      pose proof (Hlog _ H1) as Hl1. pose proof (Hlog _ H2) as Hl2.
      unfold exact_digits in Hl1, Hl2.
      split; [lia|]. split; [lia|].
      intros r H. apply elem_of_app in H as [H|H].
      + destruct (IH _ H) as (? & ? & ? & ? & ? & ?). lia.
      + apply list_elem_of_singleton in H as ->.
        cbn [r_from r_to r_from_owner r_to_owner]. lia. }
  destruct Hinv as (Hto & Hfrom & Hall).
  destruct (Hall r Hr) as (H1 & H2 & H3 & H4 & H5 & H6).
  assert (Hf : Py.len (frec r)
               = Py.ilog10 (r_from r) + 1 + 1 + Py.len (r_from_owner r)).
  { unfold frec. rewrite !len_app, len_str by done.
    change (Py.len "@") with 1. lia. }
  assert (Ht : Py.len (trec r)
               = Py.ilog10 (r_to r) + 1 + 1 + Py.len (r_to_owner r)).
  { unfold trec. rewrite !len_app, len_str by done.
    change (Py.len "@") with 1. lia. }
  assert (Hd : Py.len (frec r +:+ " ... " +:+ trec r)
               = Py.len (frec r) + 5 + Py.len (trec r)).
  { rewrite !len_app. change (Py.len " ... ") with 5. lia. }
  pose proof (len_nonneg (r_to_owner r)).
  assert (Hclr : Py.len (clr r) <= clr_len v).
  { unfold clr. destruct (decide (r_type r = present)); unfold clr_len; lia. }
  split; [unfold clr_len; lia|]. split; [unfold clr_len; lia|].
  split; [exact Hclr|]. by apply ljust_spec.
Qed.

End Loop.

(** ** Regular expressions *)

Section RegexFacts.

Lemma lit_sound p s r : Re.lit p s = Some r -> s = p +:+ r.
Proof.
  revert s. induction p as [|a p IH]; intros [|b s] H; cbn in H; try done.
  - by injection H as <-.
  - by injection H as <-.
  - destruct (Ascii.eqb a b) eqn:E; [|done].
    apply Ascii.eqb_eq in E as ->. rewrite str_app_cons. f_equal. by apply IH.
Qed.

Lemma lit_complete p r : Re.lit p (p +:+ r) = Some r.
Proof.
  induction p as [|a p IH]; [by destruct r|].
  rewrite str_app_cons. cbn. by rewrite Ascii.eqb_refl.
Qed.

Lemma span_sound p s a b :
  Re.span p s = (a, b) -> s = a +:+ b /\ all_of p a = true /\ stops p b.
Proof.
  revert a b. induction s as [|c s IH]; intros a b H; cbn in H.
  - by injection H as <- <-.
  - destruct (p c) eqn:E.
    + destruct (Re.span p s) as [a' b'] eqn:Hs.
      injection H as <- <-. destruct (IH a' b' eq_refl) as (-> & Ha & Hb).
      rewrite str_app_cons. cbn. by rewrite E, Ha.
    + injection H as <- <-. done.
Qed.

Lemma span_complete p a b :
  all_of p a = true -> stops p b -> Re.span p (a +:+ b) = (a, b).
Proof.
  intros Ha Hb. induction a as [|c a IH].
  - rewrite str_app_nil_l. destruct b as [|c b]; [done|].
    cbn in *. by rewrite Hb.
  - cbn in Ha. apply andb_true_iff in Ha as [Hc Ha].
    rewrite str_app_cons. cbn. by rewrite Hc, IH.
Qed.

Lemma span1_sound p s a b :
  Re.span1 p s = Some (a, b) -> s = a +:+ b /\ run_of p a /\ stops p b.
Proof.
  unfold Re.span1. destruct (Re.span p s) as [a' b'] eqn:Hs.
  destruct a' as [|c a']; [done|]. intros [= <- <-].
  apply span_sound in Hs as (-> & Ha & Hb). by repeat split.
Qed.

Lemma span1_complete p a b :
  run_of p a -> stops p b -> Re.span1 p (a +:+ b) = Some (a, b).
Proof.
  intros [Hne Ha] Hb. unfold Re.span1. rewrite span_complete by done.
  by destruct a.
Qed.

(** [re.search] finds a match when, and only when, the pattern
    matches at the start of some suffix of the subject. *)
Lemma search_sound {G} (m : string -> option G) s g :
  Re.search m s = Some g -> exists pre t, s = pre +:+ t /\ m t = Some g.
Proof.
  induction s as [|c s IH]; cbn.
  - destruct (m "") eqn:E; [|done]. intros [= <-]. by exists "", "".
  - destruct (m (String c s)) eqn:E.
    + intros [= <-]. by exists "", (String c s).
    + intros H. destruct (IH H) as (pre & t & -> & Ht).
      by exists (String c pre), t.
Qed.

Lemma search_complete {G} (m : string -> option G) pre t g :
  m t = Some g -> is_Some (Re.search m (pre +:+ t)).
Proof.
  intros Ht. induction pre as [|c pre IH].
  - rewrite str_app_nil_l. destruct t; cbn; rewrite Ht; eauto.
  - rewrite str_app_cons. cbn.
    destruct (m (String c (pre +:+ t))); eauto.
Qed.

Lemma change_by_at_sound t d o :
  Re.change_by_at t = Some (d, o) ->
  exists post,
    t = "Change " +:+ d +:+ " by " +:+ o +:+ "@" +:+ post /\
    run_of Py.isdigit d /\ run_of Re.not_at o.
Proof.
  unfold Re.change_by_at. intros H.
  destruct (Re.lit "Change " t) as [r1|] eqn:H1; [|done].
  cbn [mbind option_bind] in H.
  destruct (Re.span1 Py.isdigit r1) as [[g1 r2]|] eqn:H2; [|done].
  cbn [mbind option_bind] in H.
  destruct (Re.lit " by " r2) as [r3|] eqn:H3; [|done].
  cbn [mbind option_bind] in H.
  destruct (Re.span1 Re.not_at r3) as [[g2 r4]|] eqn:H4; [|done].
  cbn [mbind option_bind] in H.
  destruct (Re.lit "@" r4) as [r5|] eqn:H5; [|done].
  cbn [mbind option_bind] in H. injection H as <- <-.
  apply lit_sound in H1 as ->, H3 as ->, H5 as ->.
  apply span1_sound in H2 as (-> & Hd & _), H4 as (-> & Ho & _).
  by exists r5.
Qed.

Lemma change_by_at_complete d o post :
  run_of Py.isdigit d -> run_of Re.not_at o ->
  Re.change_by_at ("Change " +:+ d +:+ " by " +:+ o +:+ "@" +:+ post)
  = Some (d, o).
Proof.
  intros Hd Ho. unfold Re.change_by_at.
  rewrite lit_complete. cbn [mbind option_bind].
  rewrite (span1_complete _ d) by done. cbn [mbind option_bind].
  rewrite lit_complete. cbn [mbind option_bind].
  rewrite (span1_complete _ o) by done. cbn [mbind option_bind].
  by rewrite lit_complete.
Qed.

(** The pattern of [get_owner] is found in a line exactly when the
    text occurs in it. *)
Lemma search_change_by_sound line d o :
  Re.search Re.change_by_at line = Some (d, o) -> occurs_change_by line d o.
Proof.
  intros H. apply search_sound in H as (pre & t & -> & Ht).
  apply change_by_at_sound in Ht as (post & -> & Hd & Ho).
  by exists pre, post.
Qed.

Lemma search_change_by_none line :
  Re.search Re.change_by_at line = None <->
  forall d o, ~ occurs_change_by line d o.
Proof.
  split.
  - intros Hn d o (pre & post & -> & Hd & Ho).
    pose proof (change_by_at_complete d o post Hd Ho) as Hm.
    apply (search_complete _ pre) in Hm as [g Hg]. congruence.
  - intros Hno. destruct (Re.search Re.change_by_at line) as [[d o]|] eqn:E;
      [|done].
    by apply search_change_by_sound, Hno in E.
Qed.

(** Where the pattern of a text line matches, the subject is made of
    the groups and the literals of the pattern, up to its end. *)
Lemma text_at_sound t g1 g2 g3 :
  Re.text_at t = Some (g1, g2, g3) ->
  exists ws rest,
    t = "text:" +:+ ws +:+ g1 +:+ "-" +:+ g2 +:+ ":" +:+ g3 +:+ rest /\
    run_of Py.isspace ws /\ run_of Py.isdigit g1 /\ run_of Py.isdigit g2 /\
    all_of Re.dot g3 = true /\
    (rest = "" \/ rest = String Py.NL "").
Proof.
  unfold Re.text_at. intros H.
  destruct (Re.lit "text:" t) as [r1|] eqn:H1; [|done].
  cbn [mbind option_bind] in H.
  destruct (Re.span1 Py.isspace r1) as [[ws r2]|] eqn:H2; [|done].
  cbn [mbind option_bind] in H.
  destruct (Re.span1 Py.isdigit r2) as [[d1 r3]|] eqn:H3; [|done].
  cbn [mbind option_bind] in H.
  destruct (Re.lit "-" r3) as [r4|] eqn:H4; [|done].
  cbn [mbind option_bind] in H.
  destruct (Re.span1 Py.isdigit r4) as [[d2 r5]|] eqn:H5; [|done].
  cbn [mbind option_bind] in H.
  destruct (Re.lit ":" r5) as [r6|] eqn:H6; [|done].
  cbn [mbind option_bind] in H.
  destruct (Re.span Re.dot r6) as [txt r7] eqn:H7.
  destruct (Re.at_end r7) eqn:H8; [|done]. injection H as <- <- <-.
  apply lit_sound in H1 as ->, H4 as ->, H6 as ->.
  apply span1_sound in H2 as (-> & Hws & _), H3 as (-> & Hd1 & _),
    H5 as (-> & Hd2 & _).
  apply span_sound in H7 as (-> & Htxt & _).
  exists ws, r7. repeat split; try done; try apply Hws; try apply Hd1;
    try apply Hd2.
  destruct r7 as [|c [|c' r]]; [by left | | done].
  cbn in H8. apply Ascii.eqb_eq in H8 as ->. by right.
Qed.

(** The change lists of a stream are natural numbers. *)
Lemma line_changes_nonneg line c : c ∈ line_changes line -> 0 <= c.
Proof.
  unfold line_changes.
  destruct (Re.search Re.text_at (Py.strip line)) as [[[g1 g2] g3]|] eqn:E;
    [|by intros ?%elem_of_nil].
  apply search_sound in E as (pre & t & _ & Ht).
  apply text_at_sound in Ht as (ws & rest & _ & _ & [_ H1] & [_ H2] & _).
  rewrite !elem_of_cons, elem_of_nil.
  intros [-> | [-> | []]]; by apply int_nonneg.
Qed.

Lemma stream_changes_nonneg body c : c ∈ stream_changes body -> 0 <= c.
Proof.
  unfold stream_changes. induction body as [|line body IH]; cbn.
  - by intros ?%elem_of_nil.
  - rewrite elem_of_app. intros [Hc|Hc]; [|by apply IH].
    by apply (line_changes_nonneg line).
Qed.

End RegexFacts.

(** ** Owner resolution *)

Section Owner.

Variable log10_digits : Z -> Z.
Variable shell : string -> Z * string.

Lemma err_eq {A} msg w : err (A:=A) msg w = failed msg w.
Proof. reflexivity. Qed.

Lemma system_ok cmd out w :
  shell cmd = (0, out) -> system shell cmd w = (Ok (0, out), ran cmd w).
Proof.
  intros H. unfold system, _system, mbind, M_bind. by rewrite H.
Qed.

Lemma system_failed cmd ret out w :
  shell cmd = (ret, out) -> ret <> 0 ->
  system shell cmd w
  = failed ("command failed: " +:+ String Py.DQUOTE cmd +:+ String Py.DQUOTE "")
      (ran cmd w).
Proof.
  intros H Hret. unfold system, _system, mbind, M_bind. rewrite H.
  apply Z.eqb_neq in Hret. by rewrite Hret.
Qed.

Lemma system_ok_inv cmd r w w' :
  system shell cmd w = (Ok r, w') ->
  exists out, r = (0, out) /\ shell cmd = (0, out) /\ w' = ran cmd w.
Proof.
  unfold system, _system, mbind, M_bind.
  destruct (shell cmd) as [ret out]. destruct (ret =? 0) eqn:E; [|done].
  apply Z.eqb_eq in E as ->. intros [= <- <-]. by exists out.
Qed.

(** The loop of [get_owner shell] stops at the first line in which the
    pattern is found. *)
Lemma first_change_by_none lines :
  (forall line, line ∈ lines -> Re.search Re.change_by_at line = None) ->
  first_change_by lines = (0, None).
Proof.
  induction lines as [|l lines IH]; intros H; [done|].
  cbn. rewrite H by left. apply IH. intros line Hl. apply H. by right.
Qed.

Lemma first_change_by_first l1 line l2 d o :
  (forall l, l ∈ l1 -> Re.search Re.change_by_at l = None) ->
  Re.search Re.change_by_at line = Some (d, o) ->
  first_change_by (l1 ++ line :: l2) = (Py.int d, Some o).
Proof.
  intros H Hm. induction l1 as [|l l1 IH]; cbn.
  - by rewrite Hm.
  - rewrite H by left. apply IH. intros l' Hl'. apply H. by right.
Qed.

(** [get_owner shell] in terms of the outcome of its loop. *)
Lemma get_owner_eq cln out w :
  shell (describe_cmd cln) = (0, out) ->
  get_owner shell cln w =
  match first_change_by (Py.split Py.NL out) with
  | (change, Some owner) =>
      if change =? cln then (Ok owner, ran (describe_cmd cln) w)
      else failed ("p4 describe record not found for " +:+ Py.str cln)
             (ran (describe_cmd cln) w)
  | (_, None) =>
      failed ("p4 describe record not found for " +:+ Py.str cln)
        (ran (describe_cmd cln) w)
  end.
Proof.
  intros H. unfold get_owner.
  change ("p4 describe -s " +:+ Py.str cln) with (describe_cmd cln).
  cbn zeta. rewrite (bind_ok _ _ _ _ _ (system_ok _ _ w H)).
  destruct (first_change_by (Py.split Py.NL out)) as [change [owner|]].
  - destruct (change =? cln); reflexivity.
  - destruct (change =? cln); reflexivity.
Qed.

Lemma get_owner_ok cln o w w' :
  get_owner shell cln w = (Ok o, w') -> w' = ran (describe_cmd cln) w.
Proof.
  unfold get_owner.
  change ("p4 describe -s " +:+ Py.str cln) with (describe_cmd cln).
  cbn zeta. intros H.
  apply bind_ok_inv in H as (r & w1 & Hsys & H).
  apply system_ok_inv in Hsys as (out & -> & _ & ->).
  destruct (first_change_by (Py.split Py.NL out)) as [change [owner|]];
    destruct (change =? cln);
    unfold err, _msg, emit, raise, mbind, M_bind, mret, M_ret in H;
    cbn in H; congruence.
Qed.

(** A request for a change list that is in the dictionary is
    answered from it and runs no command; any other request runs one
    lookup and enters its answer. *)
Lemma get_cl_owner_cached cln (m : gmap Z string) o w :
  m !! cln = Some o -> get_cl_owner shell cln m w = (Ok (o, m), w).
Proof. intros H. unfold get_cl_owner. by rewrite H. Qed.

Lemma get_cl_owner_ok cln (m m' : gmap Z string) o w w' :
  get_cl_owner shell cln m w = (Ok (o, m'), w') ->
  (m !! cln = Some o /\ m' = m /\ w' = w) \/
  (m !! cln = None /\ m' = <[cln := o]> m /\ w' = ran (describe_cmd cln) w).
Proof.
  unfold get_cl_owner. destruct (m !! cln) as [o'|] eqn:E.
  - intros [= <- <- <-]. by left.
  - intros H. apply bind_ok_inv in H as (o' & w1 & Hget & [= <- <- <-]).
    apply get_owner_ok in Hget as ->. by right.
Qed.

(** Every run of [get_owner] is one lookup command. *)
Lemma get_owner_commands cln r w w' :
  get_owner shell cln w = (r, w') ->
  commands w' = commands w ++ [describe_cmd cln].
Proof.
  unfold get_owner, system, _system.
  change ("p4 describe -s " +:+ Py.str cln) with (describe_cmd cln).
  unfold err, _msg, emit, raise, mbind, M_bind, mret, M_ret. cbn.
  destruct (shell (describe_cmd cln)) as [ret out].
  destruct (ret =? 0); cbn; [|by intros [= <- <-]].
  destruct (first_change_by (Py.split Py.NL out)) as [change [owner|]];
    destruct (change =? cln); cbn; by intros [= <- <-].
Qed.

Lemma lookups_log_snoc w0 cls w cln w' :
  lookups_log w0 cls w -> cln ∉ cls ->
  commands w' = commands w ++ [describe_cmd cln] ->
  lookups_log w0 (cls ++ [cln]) w'.
Proof.
  intros [Hcmd Hnd] Hnin Hw'. split.
  - by rewrite Hw', Hcmd, fmap_app, (assoc_L (++)).
  - apply NoDup_app. repeat split; [done| |apply NoDup_singleton].
    intros x Hx ->%list_elem_of_singleton. done.
Qed.

(** A request to [get_cl_owner], whatever its outcome. *)
Lemma get_cl_owner_lookups w0 cls m w cln r w' :
  lookups_of w0 cls m w ->
  get_cl_owner shell cln m w = (r, w') ->
  exists cls',
    lookups_log w0 cls' w' /\
    (forall c, c ∈ cls' <-> c ∈ cls \/ c = cln) /\
    match r with
    | Ok (_, m') => forall c, c ∈ cls' <-> is_Some (m' !! c)
    | Raise _ => True
    end.
Proof.
  intros [Hlog Hdom]. unfold get_cl_owner.
  destruct (m !! cln) as [o|] eqn:Hm.
  - intros [= <- <-]. exists cls. split; [done|]. split; [|done].
    intros c. split; [tauto|]. intros [?| ->]; [done|]. apply Hdom. eauto.
  - assert (Hnin : cln ∉ cls).
    { intros Hin. apply Hdom in Hin as [x Hx]. congruence. }
    unfold mbind, M_bind.
    destruct (get_owner shell cln w) as [[o|e] w1] eqn:Hget;
      pose proof (get_owner_commands _ _ _ _ Hget) as Hcmd;
      intros [= <- <-]; exists (cls ++ [cln]);
      (split; [by eapply lookups_log_snoc|]);
      (split; [intros c; rewrite elem_of_app, list_elem_of_singleton; tauto|]);
      [|done].
    intros c. rewrite elem_of_app, list_elem_of_singleton, Hdom.
    destruct (decide (c = cln)) as [->|Hne].
    + rewrite lookup_insert_eq. split; eauto.
    + rewrite lookup_insert_ne by done. split; [intros [?|?]; done | auto].
Qed.

(** A turn of the first loop, whatever its outcome. *)
Lemma process_line_lookups w0 cls ifn latest v line w r w' :
  lookups_of w0 cls (cl_owner v) w ->
  process_line log10_digits shell ifn latest v line w = (r, w') ->
  exists cls',
    lookups_log w0 cls' w' /\
    (forall c, c ∈ cls' -> c ∈ cls \/ c ∈ line_changes line) /\
    match r with
    | Ok v' =>
        (forall c, c ∈ cls' <-> is_Some (cl_owner v' !! c)) /\
        (forall c, c ∈ cls \/ c ∈ line_changes line -> c ∈ cls')
    | Raise _ => True
    end.
Proof.
  intros Hl. unfold process_line, line_changes. cbn zeta.
  destruct (Re.search Re.text_at (Py.strip line)) as [[[g1 g2] g3]|].
  2:{ rewrite err_eq. intros [= <- <-]. exists cls.
      split; [apply Hl|]. split; [tauto | done]. }
  unfold mbind at 1, M_bind at 1.
  destruct (get_cl_owner shell (Py.int g1) (cl_owner v) w)
    as [[[fo m1]|e] w1] eqn:H1;
    destruct (get_cl_owner_lookups _ _ _ _ _ _ _ Hl H1)
      as (cls1 & Hlog1 & Hiff1 & Hdom1).
  2:{ intros [= <- <-]. exists cls1. split; [done|]. split; [|done].
      intros c Hc. apply Hiff1 in Hc as [?| ->]; [by left|].
      right. left. }
  unfold mbind at 1, M_bind at 1.
  destruct (get_cl_owner shell (Py.int g2) m1 w1)
    as [[[to m2]|e] w2] eqn:H2;
    destruct (get_cl_owner_lookups _ _ _ _ _ _ _ (conj Hlog1 Hdom1) H2)
      as (cls2 & Hlog2 & Hiff2 & Hdom2).
  2:{ intros [= <- <-]. exists cls2. split; [done|]. split; [|done].
      intros c Hc. apply Hiff2 in Hc as [Hc| ->].
      - apply Hiff1 in Hc as [?| ->]; [by left|]. right. left.
      - right. right. left. }
  assert (Hsub : forall c, c ∈ cls2 <->
                           c ∈ cls \/ c ∈ [Py.int g1; Py.int g2]).
  { intros c. rewrite Hiff2, Hiff1, !elem_of_cons, elem_of_nil. tauto. }
  intros H.
  assert (Hend : w' = w2 /\
                 match r with Ok v' => cl_owner v' = m2 | Raise _ => True end).
  { destruct (_ || _);
      unfold log10_plus_1, raise, mbind, M_bind, mret, M_ret in H;
      destruct (Py.int g2 <=? 0); destruct (Py.int g1 <=? 0);
      injection H as <- <-; done. }
  destruct Hend as [-> Hm2]. exists cls2. split; [done|].
  split; [intros c; by rewrite Hsub|].
  destruct r as [v'|e]; [|done]. rewrite Hm2.
  split; [done|]. intros c. by rewrite Hsub.
Qed.

(** The first loop, whatever its outcome. *)
Lemma for_each_lookups w0 ifn latest body cls v w r w' :
  lookups_of w0 cls (cl_owner v) w ->
  for_each (process_line log10_digits shell ifn latest) body v w = (r, w') ->
  exists cls',
    lookups_log w0 cls' w' /\
    (forall c, c ∈ cls' -> c ∈ cls \/ c ∈ stream_changes body) /\
    ((exists v', r = Ok v') ->
     forall c, c ∈ cls \/ c ∈ stream_changes body -> c ∈ cls').
Proof.
  revert cls v w. induction body as [|line body IH]; intros cls v w Hl.
  - intros [= <- <-]. exists cls. split; [apply Hl|]. split; [tauto|].
    intros _ c [?|Hc]; [done|]. by apply elem_of_nil in Hc.
  - cbn [for_each]. unfold mbind, M_bind.
    destruct (process_line log10_digits shell ifn latest v line w)
      as [[v1|e] w1] eqn:H1;
      destruct (process_line_lookups _ _ _ _ _ _ _ _ _ Hl H1)
        as (cls1 & Hlog1 & Hsub1 & Hok1).
    + destruct Hok1 as [Hdom1 Hsup1]. intros Hrest.
      destruct (IH _ _ _ (conj Hlog1 Hdom1) Hrest)
        as (cls2 & Hlog2 & Hsub2 & Hsup2).
      exists cls2. split; [done|].
      unfold stream_changes in *. cbn [fmap list_fmap concat].
      split.
      * intros c Hc. rewrite elem_of_app.
        apply Hsub2 in Hc as [Hc|?]; [|tauto].
        apply Hsub1 in Hc. tauto.
      * intros Hr c Hc. apply (Hsup2 Hr). rewrite elem_of_app in Hc.
        destruct Hc as [?|[?|?]]; [left; apply Hsup1| left; apply Hsup1 |];
          tauto.
    + intros [= <- <-]. exists cls1. split; [done|].
      unfold stream_changes. cbn [fmap list_fmap concat].
      split; [|by intros [? [=]]].
      intros c Hc. rewrite elem_of_app. apply Hsub1 in Hc. tauto.
Qed.

(** C3: in a run of the first loop over an annotation stream, the
    lookup commands are those of a list of change lists without
    duplicates, all of them named in the stream as [from] or [to], and
    the commands themselves are all different; when the loop goes
    through the whole stream, every change list that the stream names
    has been looked up, so that there is exactly one lookup for each
    of them, whatever the number of records that name it.  A request
    for a change list that is in the dictionary returns the stored
    owner and runs no command. *)
Theorem one_lookup_per_change ifn latest body w r w' :
  first_loop log10_digits shell ifn latest body w = (r, w') ->
  (exists cls,
      commands w' = commands w ++ (describe_cmd <$> cls) /\
      NoDup cls /\
      NoDup (describe_cmd <$> cls) /\
      (forall c, c ∈ cls -> c ∈ stream_changes body) /\
      ((exists v, r = Ok v) ->
       forall c, c ∈ stream_changes body -> c ∈ cls)) /\
  (forall cln (m : gmap Z string) o w1,
      m !! cln = Some o -> get_cl_owner shell cln m w1 = (Ok (o, m), w1)).
Proof.
  intros Hrun. split; [|intros; by apply get_cl_owner_cached].
  assert (Hinit : lookups_of w [] (cl_owner init_vars) w).
  { repeat split; cbn.
    - by rewrite app_nil_r.
    - apply NoDup_nil_2.
    - intros Hc. by apply elem_of_nil in Hc.
    - intros [x Hx]. by rewrite lookup_empty in Hx. }
  destruct (for_each_lookups _ _ _ _ _ _ _ _ _ Hinit Hrun)
    as (cls & [Hcmd Hnd] & Hsub & Hsup).
  assert (Hin : forall c, c ∈ cls -> c ∈ stream_changes body).
  { intros c Hc. apply Hsub in Hc as [Hc|?]; [|done].
    by apply elem_of_nil in Hc. }
  exists cls. repeat split; try done.
  - apply NoDup_fmap_2_strong; [|done].
    intros a b Ha Hb. apply describe_cmd_inj;
      by eapply stream_changes_nonneg, Hin.
  - intros Hr c Hc. apply (Hsup Hr). by right.
Qed.

End Owner.

Section OwnerIntegrity.

Variable log10_digits : Z -> Z.
Variable shell : string -> Z * string.


(** C6, as the script has it: when the lookup command succeeds,
    [get_owner shell] goes by the first line of its output in which the
    pattern is found, and by the leftmost place of that line where it
    matches.  It returns the owner found there when the number found
    there is the requested one; it ends with the error "record not
    found" when that number is another one, and when the pattern is
    found in no line. *)
Theorem get_owner_first_match cln out w :
  shell (describe_cmd cln) = (0, out) ->
  let not_found :=
    failed ("p4 describe record not found for " +:+ Py.str cln)
      (ran (describe_cmd cln) w) in
  ((forall line, line ∈ Py.split Py.NL out ->
      forall d o, ~ occurs_change_by line d o) ->
   get_owner shell cln w = not_found) /\
  (forall l1 line l2 d o,
      Py.split Py.NL out = l1 ++ line :: l2 ->
      (forall l, l ∈ l1 -> forall d o, ~ occurs_change_by l d o) ->
      Re.search Re.change_by_at line = Some (d, o) ->
      occurs_change_by line d o /\
      (Py.int d = cln ->
       get_owner shell cln w = (Ok o, ran (describe_cmd cln) w)) /\
      (Py.int d <> cln -> get_owner shell cln w = not_found)).
Proof.
  intros Hsh not_found. split.
  - intros Hnone. rewrite (get_owner_eq _ _ _ _ Hsh).
    rewrite first_change_by_none; [done|].
    intros line Hl. apply search_change_by_none. by apply Hnone.
  - intros l1 line l2 d o Hsplit Hl1 Hm.
    split; [by apply search_change_by_sound|].
    assert (Hfirst : first_change_by (Py.split Py.NL out) = (Py.int d, Some o)).
    { rewrite Hsplit. apply first_change_by_first; [|done].
      intros l Hl. apply search_change_by_none. by apply Hl1. }
    split; intros Hd; rewrite (get_owner_eq _ _ _ _ Hsh), Hfirst.
    + apply Z.eqb_eq in Hd. by rewrite Hd.
    + apply Z.eqb_neq in Hd. by rewrite Hd.
Qed.

End OwnerIntegrity.

(** C6, as stated, fails: the second line of this output is
    [Change 10 by amy@...], yet the lookup of change list 10 ends with
    the error, because the first line names change list 99. *)
Lemma get_owner_needs_first_match :
  let out := (shell_two_changes (describe_cmd 10)).2 in
  (shell_two_changes (describe_cmd 10)).1 = 0 /\
  (exists line, line ∈ Py.split Py.NL out /\
                occurs_change_by line "10" "amy" /\ Py.int "10" = 10) /\
  get_owner shell_two_changes 10 w0
  = failed "p4 describe record not found for 10" (ran "p4 describe -s 10" w0).
Proof.
  cbn zeta. split; [reflexivity|]. split; [|by vm_compute].
  exists "Change 10 by amy@ws on 2015/01/02 10:00:00". split.
  - vm_compute. right. left.
  - split; [|reflexivity].
    exists "", "ws on 2015/01/02 10:00:00". by repeat split.
Qed.

(** ** The run of the scenario *)

Lemma scenario_first_loop :
  first_loop exact_digits shell_scenario "file" 30 scenario_body w0
  = (Ok scenario_vars, scenario_world).
Proof. vm_compute. reflexivity. Qed.

Lemma scenario_process :
  process 0 exact_digits shell_scenario "file" w0
  = (Ok tt,
     World [Print "info: file#3 - edit change 30 (text)";
            Print "1 10@amy             | alpha";
            Print "- 10@amy ... 20@bob  - beta";
            Print "info: file#3 - edit change 30 (text)"]
           ["p4 -s annotate -a -i -I file"; "p4 describe -s 10";
            "p4 describe -s 30"; "p4 describe -s 20"]).
Proof. vm_compute. reflexivity. Qed.

(** C5, as the script has it: the report of the scenario has the
    present record as line 1, with the column [10@amy], the separator
    [|] and the text [alpha], and the deleted record of [beta] with the
    column [10@amy ... 20@bob], bob being the owner of change list 20,
    and the separator [-]; a newline after the terminator changes
    nothing. *)
Theorem scenario_report :
  first_loop exact_digits shell_scenario "file" 30 scenario_body w0
  = (Ok scenario_vars, scenario_world) /\
  data scenario_vars = [scenario_present; scenario_deleted] /\
  (r_type scenario_present = present /\ r_lineno scenario_present = 1 /\
   clr scenario_present = "10@amy" /\ r_sep scenario_present = "|" /\
   r_text scenario_present = "alpha") /\
  (r_type scenario_deleted = deleted /\
   clr scenario_deleted = "10@amy ... 20@bob" /\
   r_sep scenario_deleted = "-" /\ r_text scenario_deleted = "beta") /\
  process 0 exact_digits shell_scenario "file" w0
  = (Ok tt,
     World [Print "info: file#3 - edit change 30 (text)";
            Print "1 10@amy             | alpha";
            Print "- 10@amy ... 20@bob  - beta";
            Print "info: file#3 - edit change 30 (text)"]
           ["p4 -s annotate -a -i -I file"; "p4 describe -s 10";
            "p4 describe -s 30"; "p4 describe -s 20"]) /\
  process 0 exact_digits shell_scenario_nl "file" w0
  = process 0 exact_digits shell_scenario "file" w0.
Proof. repeat split; vm_compute; reflexivity. Qed.

(** C5, as stated, fails: no record of the scenario has the column
    [10@amy ... 20@cleo], and no line of the report contains it. *)
Lemma scenario_deleted_owner_not_cleo :
  ~ (exists v w r,
        first_loop exact_digits shell_scenario "file" 30 scenario_body w0
        = (Ok v, w) /\
        r ∈ data v /\ r_text r = "beta" /\
        clr r = "10@amy ... 20@cleo") /\
  ~ (exists w line,
        process 0 exact_digits shell_scenario "file" w0 = (Ok tt, w) /\
        Print line ∈ stdout w /\ 0 <= Py.find line "10@amy ... 20@cleo").
Proof.
  split.
  - intros (v & w & r & Hrun & Hr & Htext & Hclr).
    rewrite scenario_first_loop in Hrun. injection Hrun as <- <-.
    cbn in Hr. rewrite !elem_of_cons, elem_of_nil in Hr.
    destruct Hr as [-> | [-> | []]]; vm_compute in Hclr; discriminate.
  - intros (w & line & Hrun & Hline & Hfind).
    rewrite scenario_process in Hrun. injection Hrun as <-.
    cbn in Hline. rewrite !elem_of_cons, elem_of_nil in Hline.
    destruct Hline as [H | [H | [H | [H | []]]]];
      injection H as ->; vm_compute in Hfind; by apply Hfind.
Qed.

(** ** Fatal errors *)

Section Fatal.

Variable VERBOSE : Z.
Variable log10_digits : Z -> Z.
Variable shell : string -> Z * string.

Lemma quiet_refl w : quiet w w.
Proof. exists []. by rewrite app_nil_r. Qed.

Lemma quiet_trans w1 w2 w3 : quiet w1 w2 -> quiet w2 w3 -> quiet w1 w3.
Proof.
  intros (i1 & H1 & F1) (i2 & H2 & F2). exists (i1 ++ i2). split.
  - by rewrite H2, H1, (assoc_L (++)).
  - by apply Forall_app.
Qed.

Lemma quiet_aborted w1 w2 w3 : quiet w1 w2 -> aborted w2 w3 -> aborted w1 w3.
Proof.
  intros (i1 & H1 & F1) (i2 & msg & H2 & F2). exists (i1 ++ i2), msg. split.
  - by rewrite H2, H1, !(assoc_L (++)).
  - by apply Forall_app.
Qed.

Lemma silent_ret {A} (a : A) : silent (mret a).
Proof. intros w r w' [= <- <-]. apply quiet_refl. Qed.

Lemma silent_raise {A} e :
  (forall exitcode, e <> SystemExit exitcode) -> silent (raise (A:=A) e).
Proof.
  intros He w r w' [= <- <-]. destruct e; try apply quiet_refl.
  by destruct (He exitcode).
Qed.

Lemma silent_err {A} msg : silent (err (A:=A) msg).
Proof.
  intros w r w'. rewrite err_eq. intros [= <- <-]. split; [done|].
  exists [], msg. by split.
Qed.

Lemma silent_vinfo msg : silent (vinfo VERBOSE msg).
Proof.
  intros w r w'. unfold vinfo, _msg, emit.
  destruct (VERBOSE =? 0); intros [= <- <-]; [apply quiet_refl|].
  exists [Msg "INFO" msg]. split; [done|].
  apply Forall_singleton. by exists msg.
Qed.

Lemma silent_bind {A B} (m : M A) (k : A -> M B) :
  silent m -> (forall a, silent (k a)) -> silent (m ≫= k).
Proof.
  intros Hm Hk w r w'. unfold mbind, M_bind.
  destruct (m w) as [[a|e] w1] eqn:E; pose proof (Hm _ _ _ E) as H1.
  - intros H. pose proof (Hk a _ _ _ H) as H2.
    destruct r as [b|[| |c]]; cbn in *;
      try (by eapply quiet_trans); destruct H2; eauto using quiet_aborted.
  - by intros [= <- <-].
Qed.

Lemma exits_silently_bind {A B} (m : M A) (k : A -> M B) :
  silent m -> (forall a, exits_silently (k a)) -> exits_silently (m ≫= k).
Proof.
  intros Hm Hk w c w'. unfold mbind, M_bind.
  destruct (m w) as [[a|e] w1] eqn:E; pose proof (Hm _ _ _ E) as H1.
  - intros H. destruct (Hk a _ _ _ H) as [-> Hab]. cbn in H1.
    split; [done | by eapply quiet_aborted].
  - by intros [= -> <-].
Qed.

Lemma never_exits_silently {A} (m : M A) : never_exits m -> exits_silently m.
Proof. intros H w c w' E. by destruct (H _ _ _ E c). Qed.

Lemma never_exits_bind {A B} (m : M A) (k : A -> M B) :
  never_exits m -> (forall a, never_exits (k a)) -> never_exits (m ≫= k).
Proof.
  intros Hm Hk w r w'. unfold mbind, M_bind.
  destruct (m w) as [[a|e] w1] eqn:E.
  - apply Hk.
  - intros [= <- <-] c [= ->]. by apply (Hm _ _ _ E c).
Qed.

Lemma never_exits_emit e : never_exits (emit e).
Proof. by intros w r w' [= <- <-] c. Qed.

Lemma never_exits_log10 n : never_exits (log10_plus_1 log10_digits n).
Proof.
  intros w r w'. unfold log10_plus_1.
  destruct (n <=? 0); by intros [= <- <-] c.
Qed.

Lemma never_exits_for_each {A S} (body : S -> A -> M S) l s :
  (forall s x, never_exits (body s x)) -> never_exits (for_each body l s).
Proof.
  intros Hb. revert s. induction l as [|x l IH]; intros s; cbn.
  - by intros w r w' [= <- <-] c.
  - apply never_exits_bind; [apply Hb | apply IH].
Qed.

Lemma silent_for_each {A S} (body : S -> A -> M S) l s :
  (forall s x, silent (body s x)) -> silent (for_each body l s).
Proof.
  intros Hb. revert s. induction l as [|x l IH]; intros s; cbn.
  - apply silent_ret.
  - apply silent_bind; [apply Hb | apply IH].
Qed.

Lemma silent_item {A} (l : list A) i : silent (item l i).
Proof.
  unfold item. destruct (Py.getitem l i); [apply silent_ret|].
  by apply silent_raise.
Qed.

Lemma silent_log10 n : silent (log10_plus_1 log10_digits n).
Proof.
  unfold log10_plus_1. destruct (n <=? 0);
    [by apply silent_raise | apply silent_ret].
Qed.

Lemma silent_system cmd : silent (system shell cmd).
Proof.
  unfold system. apply silent_bind.
  - intros w r w' [= <- <-]. exists []. by rewrite app_nil_r.
  - intros [ret out]. apply silent_bind; [|intros; apply silent_ret].
    destruct (negb (ret =? 0)); [apply silent_err | apply silent_ret].
Qed.

Lemma silent_get_owner cln : silent (get_owner shell cln).
Proof.
  unfold get_owner. cbn zeta. apply silent_bind; [apply silent_system|].
  intros [ret out].
  destruct (first_change_by (Py.split Py.NL out)) as [change owner].
  apply silent_bind.
  - destruct (negb (change =? cln)); [apply silent_err | apply silent_ret].
  - intros _. destruct owner; [apply silent_ret | apply silent_err].
Qed.

Lemma silent_get_cl_owner cln m : silent (get_cl_owner shell cln m).
Proof.
  unfold get_cl_owner. destruct (m !! cln); [apply silent_ret|].
  apply silent_bind; [apply silent_get_owner | intros; apply silent_ret].
Qed.

Lemma silent_process_line ifn latest v line :
  silent (process_line log10_digits shell ifn latest v line).
Proof.
  unfold process_line. cbn zeta.
  destruct (Re.search Re.text_at (Py.strip line)) as [[[g1 g2] g3]|];
    [|apply silent_err].
  apply silent_bind; [apply silent_get_cl_owner|]. intros [fo m1].
  apply silent_bind; [apply silent_get_cl_owner|]. intros [to m2].
  destruct (_ || _);
    (apply silent_bind; [apply silent_log10|]; intros d2;
     apply silent_bind; [apply silent_log10|]; intros d1;
     apply silent_ret).
Qed.

Lemma silent_find_last ifn lines : silent (find_last ifn lines).
Proof.
  unfold find_last. apply silent_bind; [apply silent_item|]. intros l1.
  destruct (Py.find l1 "exit:" <? 0); [|apply silent_ret].
  apply silent_bind; [apply silent_item|]. intros l2.
  apply silent_bind; [|intros; apply silent_ret].
  destruct (Py.find l2 "exit:" <? 0); [apply silent_err | apply silent_ret].
Qed.

Lemma never_exits_report header v : never_exits (report log10_digits header v).
Proof.
  unfold report.
  apply never_exits_bind; [apply never_exits_emit|]. intros _.
  apply never_exits_bind; [apply never_exits_log10|]. intros d.
  apply never_exits_bind; [|intros; apply never_exits_emit].
  apply never_exits_for_each. intros; apply never_exits_emit.
Qed.

(** C7: when [process] ends through [err], whatever the fatal
    condition that was found (a command that failed, no header, no
    terminator, no latest change list, a text line that is not
    recognized, a lookup without the requested record), no line of the
    report has been printed: standard output has only got the
    informational messages of a verbose run and the one error
    message, and the exit status is 1. *)
Theorem fatal_before_report ifn w exitcode w' :
  process VERBOSE log10_digits shell ifn w
  = (Raise (SystemExit exitcode), w') ->
  exitcode = 1 /\
  exists infos msg,
    stdout w' = stdout w ++ infos ++ [Msg "ERROR" msg] /\
    Forall is_info infos /\
    forall line, Print line ∉ infos ++ [Msg "ERROR" msg].
Proof.
  intros Hrun.
  assert (Hsilent : exits_silently (process VERBOSE log10_digits shell ifn)).
  { unfold process. cbn zeta.
    apply exits_silently_bind; [apply silent_system|]. intros [ret out].
    apply exits_silently_bind; [apply silent_vinfo|]. intros _.
    apply exits_silently_bind; [apply silent_vinfo|]. intros _.
    apply exits_silently_bind; [apply silent_item|]. intros header.
    apply exits_silently_bind.
    { destruct (Py.find header "info:" <? 0);
        [apply silent_err | apply silent_ret]. }
    intros _.
    apply exits_silently_bind; [apply silent_find_last|]. intros last.
    apply exits_silently_bind.
    { destruct (Re.search Re.change_at header);
        [apply silent_ret | apply silent_err]. }
    intros latest.
    apply exits_silently_bind; [apply silent_vinfo|]. intros _.
    unfold process_records.
    apply exits_silently_bind.
    { apply silent_for_each. intros; apply silent_process_line. }
    intros v. apply never_exits_silently, never_exits_report. }
  destruct (Hsilent _ _ _ Hrun) as (-> & infos & msg & Hout & Hinfos).
  split; [done|]. exists infos, msg. repeat split; [done..|].
  intros line Hin. apply elem_of_app in Hin as [Hin|Hin].
  - rewrite Forall_forall in Hinfos. by destruct (Hinfos _ Hin).
  - by apply list_elem_of_singleton in Hin.
Qed.

End Fatal.

(** ** The terminator *)

Section Terminator.

Variable VERBOSE : Z.
Variable log10_digits : Z -> Z.
Variable shell : string -> Z * string.

Lemma getitem_0 {A} (x : A) l : Py.getitem (x :: l) 0 = Some x.
Proof. reflexivity. Qed.

Lemma getitem_last {A} (pre : list A) t : Py.getitem (pre ++ [t]) (-1) = Some t.
Proof.
  unfold Py.getitem. rewrite length_app. cbn [length Z.ltb Z.compare].
  destruct (0 <=? _) eqn:E; [|apply Z.leb_gt in E; lia].
  replace (Z.to_nat _) with (length pre + 0)%nat by lia.
  by rewrite lookup_app_r, Nat.add_comm, Nat.add_sub by lia.
Qed.

Lemma getitem_before_last {A} (pre : list A) t x :
  Py.getitem (pre ++ [t; x]) (-2) = Some t.
Proof.
  unfold Py.getitem. rewrite length_app. cbn [length Z.ltb Z.compare].
  destruct (0 <=? _) eqn:E; [|apply Z.leb_gt in E; lia].
  replace (Z.to_nat _) with (length pre) by lia.
  by rewrite list_lookup_middle.
Qed.

Lemma slice_to_last {A} (h : A) body t :
  Py.slice (h :: body ++ [t]) 1 (-1) = body.
Proof.
  unfold Py.slice, Py.clamp. cbn [length Z.ltb Z.compare].
  rewrite length_app. cbn [length].
  replace (Z.to_nat (Z.min 1 _)) with 1%nat by lia. cbn [drop].
  apply take_app_length'. lia.
Qed.

Lemma slice_to_before_last {A} (h : A) body t x :
  Py.slice (h :: body ++ [t; x]) 1 (-2) = body.
Proof.
  unfold Py.slice, Py.clamp. cbn [length Z.ltb Z.compare].
  rewrite length_app. cbn [length].
  replace (Z.to_nat (Z.min 1 _)) with 1%nat by lia. cbn [drop].
  apply take_app_length'. lia.
Qed.

(** The three outcomes of the search for the terminator in an
    output of two lines or more. *)
Lemma find_last_last ifn pre t w :
  0 <= Py.find t "exit:" -> find_last ifn (pre ++ [t]) w = (Ok (-1), w).
Proof.
  intros Ht. unfold find_last, item. rewrite getitem_last.
  apply Z.ltb_ge in Ht. cbn. unfold mbind, M_bind, mret, M_ret.
  by rewrite Ht.
Qed.

Lemma find_last_before_last ifn pre t x w :
  Py.find x "exit:" < 0 -> 0 <= Py.find t "exit:" ->
  find_last ifn (pre ++ [t; x]) w = (Ok (-2), w).
Proof.
  intros Hx Ht. unfold find_last, item.
  replace (pre ++ [t; x]) with ((pre ++ [t]) ++ [x]) at 1
    by (by rewrite <- (assoc_L (++))).
  rewrite getitem_last, getitem_before_last.
  apply Z.ltb_lt in Hx. apply Z.ltb_ge in Ht.
  cbn. unfold mbind, M_bind, mret, M_ret. by rewrite Hx, Ht.
Qed.

Lemma find_last_missing ifn pre t x w :
  Py.find x "exit:" < 0 -> Py.find t "exit:" < 0 ->
  find_last ifn (pre ++ [t; x]) w
  = failed ("cannot find exit: record in " +:+ ifn) w.
Proof.
  intros Hx Ht. unfold find_last, item.
  replace (pre ++ [t; x]) with ((pre ++ [t]) ++ [x]) at 1
    by (by rewrite <- (assoc_L (++))).
  rewrite getitem_last, getitem_before_last.
  apply Z.ltb_lt in Hx, Ht.
  cbn. unfold mbind, M_bind, mret, M_ret. by rewrite Hx, Ht.
Qed.

Lemma informed_nil w : informed VERBOSE [] w = w.
Proof.
  unfold informed. destruct (VERBOSE =? 0); [done|].
  destruct w. cbn. by rewrite app_nil_r.
Qed.

Lemma vinfo_informed msg msgs w :
  vinfo VERBOSE msg (informed VERBOSE msgs w)
  = (Ok tt, informed VERBOSE (msgs ++ [msg]) w).
Proof.
  unfold vinfo, informed, _msg, emit. destruct (VERBOSE =? 0); [done|].
  cbn. by rewrite fmap_app, (assoc_L (++)).
Qed.

(** [process] up to the search for the terminator. *)
Lemma process_to_find_last ifn out header rest w :
  shell (annotate_cmd ifn) = (0, out) ->
  Py.split Py.NL out = header :: rest ->
  0 <= Py.find header "info:" ->
  process VERBOSE log10_digits shell ifn w
  = (last ← find_last ifn (header :: rest);
     latest ← match Re.search Re.change_at header with
              | Some g1 => mret (Py.int g1)
              | None =>
                  err ("cannot find the latest change list number for "
                       +:+ ifn +:+ String Py.NL (String Py.TAB header))
              end;
     vinfo VERBOSE ("latest change list: " +:+ Py.str latest);;
     process_records log10_digits shell ifn header latest
       (Py.slice (header :: rest) 1 last))
      (informed VERBOSE
         ["file: " +:+ ifn;
          "num lines = " +:+ Py.str (Z.of_nat (length (header :: rest)))]
         (ran (annotate_cmd ifn) w)).
Proof.
  intros Hsh Hsplit Hinfo. unfold process.
  change ("p4 -s annotate -a -i -I " +:+ ifn) with (annotate_cmd ifn).
  cbn zeta. rewrite (bind_ok _ _ _ _ _ (system_ok _ _ _ w Hsh)).
  rewrite Hsplit.
  rewrite <- (informed_nil (ran (annotate_cmd ifn) w)) at 1.
  rewrite (bind_ok _ _ _ _ _ (vinfo_informed _ _ _)).
  rewrite (bind_ok _ _ _ _ _ (vinfo_informed _ _ _)).
  rewrite (bind_ok _ _ _ header _ (eq_refl : item (header :: rest) 0 _ = _)).
  apply Z.ltb_ge in Hinfo. rewrite Hinfo.
  reflexivity.
Qed.

(** C8, as the script has it. When the annotation command succeeds
    and its output starts with a header that has [info:] and the
    latest change list: if the last line has [exit:], or if it has not
    and the line before it has (the terminator followed by one more
    line, such as the empty one after a final newline), the lines
    between the header and the terminator are processed as the text
    lines; if the output has two lines or more and neither of the last
    two has [exit:], the run ends with the error "cannot find exit:
    record" and nothing is reported. *)
Theorem terminator_last_or_before_last ifn out w :
  shell (annotate_cmd ifn) = (0, out) ->
  let lines := Py.split Py.NL out in
  let w1 :=
    informed VERBOSE
      ["file: " +:+ ifn; "num lines = " +:+ Py.str (Z.of_nat (length lines))]
      (ran (annotate_cmd ifn) w) in
  let start latest :=
    informed VERBOSE
      ["file: " +:+ ifn; "num lines = " +:+ Py.str (Z.of_nat (length lines));
       "latest change list: " +:+ Py.str latest]
      (ran (annotate_cmd ifn) w) in
  (forall header body t g,
      lines = header :: body ++ [t] ->
      0 <= Py.find header "info:" ->
      Re.search Re.change_at header = Some g ->
      0 <= Py.find t "exit:" ->
      process VERBOSE log10_digits shell ifn w
      = process_records log10_digits shell ifn header (Py.int g) body
          (start (Py.int g))) /\
  (forall header body t x g,
      lines = header :: body ++ [t; x] ->
      0 <= Py.find header "info:" ->
      Re.search Re.change_at header = Some g ->
      Py.find x "exit:" < 0 ->
      0 <= Py.find t "exit:" ->
      process VERBOSE log10_digits shell ifn w
      = process_records log10_digits shell ifn header (Py.int g) body
          (start (Py.int g))) /\
  (forall header rest t x,
      lines = header :: rest ++ [t; x] \/ (lines = [t; x] /\ header = t) ->
      0 <= Py.find header "info:" ->
      Py.find x "exit:" < 0 ->
      Py.find t "exit:" < 0 ->
      process VERBOSE log10_digits shell ifn w
      = failed ("cannot find exit: record in " +:+ ifn) w1).
Proof.
  intros Hsh lines w1 start. repeat apply conj.
  - intros header body t g Hlines Hinfo Hg Ht.
    rewrite (process_to_find_last _ _ _ _ _ Hsh Hlines Hinfo).
    rewrite (bind_ok _ _ _ _ _
      (find_last_last ifn (header :: body) t _ Ht)).
    rewrite Hg.
    rewrite (bind_ok _ _ _ (Py.int g) _ eq_refl).
    rewrite (bind_ok _ _ _ _ _ (vinfo_informed _ _ _)).
    rewrite slice_to_last. subst start lines. cbn beta. by rewrite Hlines.
  - intros header body t x g Hlines Hinfo Hg Hx Ht.
    rewrite (process_to_find_last _ _ _ _ _ Hsh Hlines Hinfo).
    rewrite (bind_ok _ _ _ _ _
      (find_last_before_last ifn (header :: body) t x _ Hx Ht)).
    rewrite Hg.
    rewrite (bind_ok _ _ _ (Py.int g) _ eq_refl).
    rewrite (bind_ok _ _ _ _ _ (vinfo_informed _ _ _)).
    rewrite slice_to_before_last. subst start lines. cbn beta.
    by rewrite Hlines.
  - intros header rest t x Hlines Hinfo Hx Ht.
    assert (exists pre rest', lines = header :: rest' /\
                              header :: rest' = pre ++ [t; x])
      as (pre & rest' & Hl & Hpre).
    { destruct Hlines as [Hl | [Hl ->]].
      - by exists (header :: rest), (rest ++ [t; x]).
      - by exists [], [x]. }
    rewrite (process_to_find_last _ _ _ _ _ Hsh Hl Hinfo).
    rewrite Hpre at 1.
    rewrite (bind_raise _ _ _ _ _ (find_last_missing ifn pre t x _ Hx Ht)).
    subst w1 lines. cbn beta. by rewrite Hl.
Qed.

End Terminator.

(** C8, as stated, fails: a blank line before the terminator is a
    text line that is not recognized, and the run ends with that
    error. *)
Lemma blank_line_before_terminator_is_fatal :
  (shell_blank_before_exit (annotate_cmd "file")).1 = 0 /\
  Py.split Py.NL (shell_blank_before_exit (annotate_cmd "file")).2
  = [scenario_header; "text: 10-30:alpha"; ""; "exit:"] /\
  process 0 exact_digits shell_blank_before_exit "file" w0
  = failed ("unrecognized line in file" +:+ String Py.NL (String Py.TAB ""))
      (World [] [annotate_cmd "file"; describe_cmd 10; describe_cmd 30]).
Proof. repeat split; vm_compute; reflexivity. Qed.

(** ** The report *)

Lemma filter_none {A} (P : A -> Prop) `{forall x, Decision (P x)} (l : list A) :
  (forall x, x ∈ l -> ~ P x) -> filter P l = [].
Proof.
  induction l as [|x l IH]; intros Hl; [done|].
  rewrite filter_cons_False by (apply Hl; left).
  apply IH. intros y Hy. apply Hl. by right.
Qed.

Section Report.

Variable log10_digits : Z -> Z.
Variable shell : string -> Z * string.

Lemma for_each_print (f : record -> string) l w :
  for_each (fun _ r => emit (Print (f r))) l tt w
  = (Ok tt, World (stdout w ++ (Print ∘ f <$> l)) (commands w)).
Proof.
  revert w. induction l as [|r l IH]; intros w.
  - cbn. destruct w. cbn. by rewrite app_nil_r.
  - cbn [for_each]. unfold mbind, M_bind, emit at 1. rewrite IH. cbn.
    by rewrite <- (assoc_L (++)).
Qed.

(** With a present record the report is the header, a line for
    every record and the header again. *)
Lemma report_ok header v w :
  1 <= lineno v ->
  report log10_digits header v w
  = (Ok tt,
     World (stdout w ++ [Print (Py.strip header)]
              ++ (Print ∘ render (log10_digits (lineno v)) (clr_len v)
                    <$> data v)
              ++ [Print (Py.strip header)])
           (commands w)).
Proof.
  intros Hn. unfold report.
  rewrite (bind_ok (emit _) _ w tt _ eq_refl).
  assert (Hd : forall w1, log10_plus_1 log10_digits (lineno v) w1
                          = (Ok (log10_digits (lineno v)), w1)).
  { intros w1. unfold log10_plus_1.
    destruct (lineno v <=? 0) eqn:E; [apply Z.leb_le in E; lia | done]. }
  rewrite (bind_ok _ _ _ _ _ (Hd _)).
  rewrite (bind_ok _ _ _ _ _ (for_each_print _ _ _)).
  unfold emit. cbn [stdout commands]. do 2 f_equal.
  by rewrite <- !(assoc_L (++)).
Qed.

(** Without one, [math.log10(0)] raises [ValueError] after the
    header has been printed. *)
Lemma report_value_error header v w :
  lineno v = 0 ->
  report log10_digits header v w
  = (Raise ValueError,
     World (stdout w ++ [Print (Py.strip header)]) (commands w)).
Proof.
  intros Hn. unfold report.
  rewrite (bind_ok (emit _) _ w tt _ eq_refl).
  erewrite bind_raise; [reflexivity|].
  unfold log10_plus_1. by rewrite Hn.
Qed.

(** C10: when the first loop ends normally without a present record,
    for instance when there is no text line at all, [lineno] is still
    0 when [math.log10(lineno)] is computed: the run prints the header
    and ends with the exception [ValueError], which is not the exit
    through [err] (no error message, no [sys.exit]). *)
Theorem no_present_record_raises ifn header latest body w v w1 :
  first_loop log10_digits shell ifn latest body w = (Ok v, w1) ->
  (forall r, r ∈ data v -> r_type r <> present) ->
  lineno v = 0 /\
  process_records log10_digits shell ifn header latest body w
  = (Raise ValueError,
     World (stdout w1 ++ [Print (Py.strip header)]) (commands w1)) /\
  (forall exitcode, ValueError <> SystemExit exitcode) /\
  (forall msg, Msg "ERROR" msg ∈ stdout w1 ++ [Print (Py.strip header)] ->
               Msg "ERROR" msg ∈ stdout w).
Proof.
  intros Hrun Hnone.
  assert (Hzero : lineno v = 0).
  { rewrite <- (lineno_counts_present _ _ _ _ _ _ _ _ Hrun).
    replace (filter _ (data v)) with (@nil record); [done|].
    symmetry. by apply filter_none. }
  split; [done|]. split; [|split; [done|]].
  - unfold process_records. rewrite (bind_ok _ _ _ _ _ Hrun).
    by apply report_value_error.
  - intros msg Hin. apply elem_of_app in Hin as [Hin|Hin].
    + pose proof (silent_for_each _ body init_vars
        (silent_process_line log10_digits shell ifn latest) _ _ _ Hrun)
        as (infos & Hout & Hinfos).
      rewrite Hout in Hin. apply elem_of_app in Hin as [Hin|Hin]; [done|].
      rewrite Forall_forall in Hinfos. by destruct (Hinfos _ Hin).
    + by apply list_elem_of_singleton in Hin.
Qed.

(** With a present record, the two loops end normally and the
    report is complete. *)
Lemma process_records_ok ifn header latest body w v w1 :
  first_loop log10_digits shell ifn latest body w
  = (Ok v, w1) ->
  1 <= lineno v ->
  process_records log10_digits shell ifn header latest body w
  = (Ok tt,
     World (stdout w1 ++ [Print (Py.strip header)]
              ++ (Print ∘ render (log10_digits (lineno v)) (clr_len v)
                    <$> data v)
              ++ [Print (Py.strip header)])
           (commands w1)).
Proof.
  intros Hrun Hn. unfold process_records. rewrite (bind_ok _ _ _ _ _ Hrun).
  by apply report_ok.
Qed.

End Report.

(** ** The fatal conditions, one by one *)

Section FatalConditions.

Variable VERBOSE : Z.
Variable log10_digits : Z -> Z.
Variable shell : string -> Z * string.

Lemma for_each_app {A S} (body : S -> A -> M S) l1 l2 s w :
  for_each body (l1 ++ l2) s w
  = (s' ← for_each body l1 s; for_each body l2 s') w.
Proof.
  revert s w. induction l1 as [|x l1 IH]; intros s w; [done|].
  cbn [for_each app]. unfold mbind, M_bind in *.
  destruct (body s x w) as [[s1|e] w1]; [apply IH | done].
Qed.

(** The annotation command fails. *)
Lemma annotate_failure ifn ret out w :
  shell (annotate_cmd ifn) = (ret, out) -> ret <> 0 ->
  process VERBOSE log10_digits shell ifn w
  = failed ("command failed: " +:+ String Py.DQUOTE (annotate_cmd ifn)
            +:+ String Py.DQUOTE "")
      (ran (annotate_cmd ifn) w).
Proof.
  intros Hsh Hret. unfold process.
  change ("p4 -s annotate -a -i -I " +:+ ifn) with (annotate_cmd ifn).
  cbn zeta.
  by rewrite (bind_raise _ _ _ _ _ (system_failed _ _ _ _ w Hsh Hret)).
Qed.

(** The first line has no [info:]. *)
Lemma missing_header ifn out header rest w :
  shell (annotate_cmd ifn) = (0, out) ->
  Py.split Py.NL out = header :: rest ->
  Py.find header "info:" < 0 ->
  process VERBOSE log10_digits shell ifn w
  = failed ("cannot find info: record in " +:+ ifn)
      (informed VERBOSE
         ["file: " +:+ ifn;
          "num lines = " +:+ Py.str (Z.of_nat (length (header :: rest)))]
         (ran (annotate_cmd ifn) w)).
Proof.
  intros Hsh Hsplit Hinfo. unfold process.
  change ("p4 -s annotate -a -i -I " +:+ ifn) with (annotate_cmd ifn).
  cbn zeta. rewrite (bind_ok _ _ _ _ _ (system_ok _ _ _ w Hsh)).
  rewrite Hsplit.
  rewrite <- (informed_nil VERBOSE (ran (annotate_cmd ifn) w)) at 1.
  rewrite (bind_ok _ _ _ _ _ (vinfo_informed _ _ _ _)).
  rewrite (bind_ok _ _ _ _ _ (vinfo_informed _ _ _ _)).
  rewrite (bind_ok _ _ _ header _ (eq_refl : item (header :: rest) 0 _ = _)).
  apply Z.ltb_lt in Hinfo. rewrite Hinfo.
  erewrite bind_raise; [reflexivity|]. by rewrite err_eq.
Qed.

(** A text line is not recognized, after text lines that were. *)
Lemma unrecognized_line ifn header latest pre line post w v w1 :
  first_loop log10_digits shell ifn latest pre w = (Ok v, w1) ->
  Re.search Re.text_at (Py.strip line) = None ->
  process_records log10_digits shell ifn header latest (pre ++ line :: post) w
  = failed ("unrecognized line in " +:+ ifn
            +:+ String Py.NL (String Py.TAB (Py.strip line))) w1.
Proof.
  intros Hpre Hline. unfold process_records.
  erewrite bind_raise; [reflexivity|].
  unfold first_loop in *.
  rewrite for_each_app, (bind_ok _ _ _ _ _ Hpre). cbn [for_each].
  erewrite bind_raise; [reflexivity|].
  unfold process_line. cbn zeta. by rewrite Hline.
Qed.

(** A lookup fails, for the [from] or for the [to] change list of a
    text line: the command fails, or its output has not the record. *)
Lemma lookup_failure ifn header latest pre line post w v w1 g1 g2 g3 e w2 :
  first_loop log10_digits shell ifn latest pre w = (Ok v, w1) ->
  Re.search Re.text_at (Py.strip line) = Some (g1, g2, g3) ->
  (get_cl_owner shell (Py.int g1) (cl_owner v) w1 = (Raise e, w2) \/
   exists fo m1 w1',
     get_cl_owner shell (Py.int g1) (cl_owner v) w1 = (Ok (fo, m1), w1') /\
     get_cl_owner shell (Py.int g2) m1 w1' = (Raise e, w2)) ->
  process_records log10_digits shell ifn header latest (pre ++ line :: post) w
  = (Raise e, w2).
Proof.
  intros Hpre Hline Hget. unfold process_records.
  erewrite bind_raise; [reflexivity|].
  unfold first_loop in *.
  rewrite for_each_app, (bind_ok _ _ _ _ _ Hpre). cbn [for_each].
  erewrite bind_raise; [reflexivity|].
  unfold process_line. cbn zeta. rewrite Hline.
  destruct Hget as [H1 | (fo & m1 & w1' & H1 & H2)].
  - by rewrite (bind_raise _ _ _ _ _ H1).
  - rewrite (bind_ok _ _ _ _ _ H1). by rewrite (bind_raise _ _ _ _ _ H2).
Qed.

End FatalConditions.

(** ** The text of a line *)

Section Text.

Variable log10_digits : Z -> Z.
Variable shell : string -> Z * string.

(** [strip] only removes blanks, at the two ends. *)
Lemma lstrip_spec s :
  exists lead, s = lead +:+ Py.lstrip s /\ all_of Py.isspace lead = true.
Proof.
  induction s as [|c s (lead & IH & Hlead)]; [by exists ""|].
  cbn [Py.lstrip]. destruct (Py.isspace c) eqn:Hc; [|by exists ""].
  exists (String c lead). rewrite str_app_cons, <- IH. cbn. by rewrite Hc.
Qed.

Lemma rstrip_spec s :
  exists trail, s = Py.rstrip s +:+ trail /\ all_of Py.isspace trail = true.
Proof.
  induction s as [|c s (trail & IH & Htrail)]; [by exists ""|].
  cbn [Py.rstrip]. destruct (Py.rstrip s) as [|b r] eqn:E.
  - rewrite str_app_nil_l in IH. subst s.
    destruct (Py.isspace c) eqn:Hc.
    + exists (String c trail). cbn. by rewrite Hc.
    + by exists trail.
  - exists trail. by rewrite str_app_cons, <- IH.
Qed.

Lemma strip_spec s :
  exists lead trail,
    s = lead +:+ Py.strip s +:+ trail /\
    all_of Py.isspace lead = true /\ all_of Py.isspace trail = true.
Proof.
  destruct (lstrip_spec s) as (lead & Hl & Hlead).
  destruct (rstrip_spec (Py.lstrip s)) as (trail & Hr & Htrail).
  exists lead, trail. unfold Py.strip. by rewrite <- Hr.
Qed.

(** After [rstrip] the last character is not a blank. *)
Lemma rstrip_last s x c :
  Py.rstrip s = x +:+ String c "" -> Py.isspace c = false.
Proof.
  revert x. induction s as [|a s IH]; intros x H; cbn in H.
  - by destruct x.
  - destruct (Py.rstrip s) as [|b r] eqn:E.
    + destruct (Py.isspace a) eqn:Ha; [by destruct x|].
      destruct x as [|a' x]; [by injection H as ->|].
      rewrite str_app_cons in H. injection H as _ H. by destruct x.
    + destruct x as [|a' x].
      * rewrite str_app_nil_l in H. by injection H.
      * rewrite str_app_cons in H. injection H as _ H. by apply (IH x).
Qed.

(** A class holds of every character of a string when it holds of
    the characters of its parts. *)
Lemma all_of_app p a b : all_of p (a +:+ b) = all_of p a && all_of p b.
Proof.
  induction a as [|c a IH]; [by rewrite str_app_nil_l|].
  rewrite str_app_cons. cbn. by rewrite IH, andb_assoc.
Qed.

Lemma all_of_suffix p a b : all_of p (a +:+ b) = true -> all_of p b = true.
Proof. rewrite all_of_app. by intros [_ H]%andb_true_iff. Qed.

(** The lines of [s.split(sep)] do not have the separator. *)
Lemma split_no_sep sep s l :
  l ∈ Py.split sep s -> all_of (fun c => negb (Ascii.eqb c sep)) l = true.
Proof.
  revert l. induction s as [|c s IH]; intros l; cbn [Py.split].
  - by intros ->%list_elem_of_singleton.
  - destruct (Ascii.eqb c sep) eqn:E.
    + intros [->|H]%elem_of_cons; [done | by apply IH].
    + destruct (Py.split sep s) as [|l0 ls] eqn:Es.
      * intros ->%list_elem_of_singleton. cbn. by rewrite E.
      * intros [->|H]%elem_of_cons.
        -- cbn. rewrite E. cbn. apply IH. left.
        -- apply IH. by right.
Qed.

(** The elements of a slice are elements of the list. *)
Lemma slice_elem_of {A} (l : list A) a b x : x ∈ Py.slice l a b -> x ∈ l.
Proof.
  unfold Py.slice. intros H.
  by eapply subseteq_drop, subseteq_take.
Qed.

(** A text line of [process] has no newline: it is one of
    [out.split('\n')[1:last]]. *)
Lemma body_line_no_newline out last line :
  line ∈ Py.slice (Py.split Py.NL out) 1 last -> all_of Re.dot line = true.
Proof. intros H. by eapply (split_no_sep Py.NL), slice_elem_of. Qed.

(** Two ways to cut a string in two: one of the first parts is a
    prefix of the other. *)
Lemma str_app_split a b c d :
  a +:+ b = c +:+ d ->
  (exists s, c = a +:+ s /\ b = s +:+ d) \/
  (exists q, q <> "" /\ a = c +:+ q /\ d = q +:+ b).
Proof.
  revert c. induction a as [|x a IH]; intros c H.
  - left. exists c. by rewrite !str_app_nil_l in *.
  - destruct c as [|y c].
    + right. exists (String x a). by rewrite !str_app_nil_l in *.
    + rewrite !str_app_cons in H. injection H as -> H.
      destruct (IH c H) as [(s & -> & ->)|(q & Hq & -> & ->)].
      * left. by exists s.
      * right. by exists q.
Qed.

Lemma str_app_inv_head a b c : a +:+ b = a +:+ c -> b = c.
Proof.
  induction a as [|x a IH]; [by rewrite !str_app_nil_l|].
  rewrite !str_app_cons. intros [= H]. by apply IH.
Qed.

(** [re.search] returns the leftmost match: the pattern matches at
    no start position before the one of the match. *)
Lemma search_leftmost {G} (m : string -> option G) s g :
  Re.search m s = Some g ->
  exists pre t,
    s = pre +:+ t /\ m t = Some g /\
    forall p q, pre = p +:+ q -> q <> "" -> m (q +:+ t) = None.
Proof.
  induction s as [|c s IH]; cbn.
  - destruct (m "") eqn:E; [|done]. intros [= <-]. exists "", "".
    split; [done|]. split; [done|]. intros p q Hp Hq.
    destruct p; [by rewrite str_app_nil_l in Hp | done].
  - destruct (m (String c s)) eqn:E.
    + intros [= <-]. exists "", (String c s).
      split; [done|]. split; [done|]. intros p q Hp Hq.
      destruct p; [by rewrite str_app_nil_l in Hp | done].
    + intros H. destruct (IH H) as (pre & t & -> & Ht & Hleft).
      exists (String c pre), t. split; [done|]. split; [done|].
      intros p q Hp Hq. destruct p as [|c' p].
      * rewrite str_app_nil_l in Hp. subst q. by rewrite str_app_cons.
      * rewrite str_app_cons in Hp. injection Hp as _ Hp. by apply (Hleft p).
Qed.

(** A digit is not a blank. *)
Lemma isdigit_not_isspace c : Py.isdigit c = true -> Py.isspace c = false.
Proof.
  unfold Py.isdigit, Py.isspace. cbn zeta.
  intros [H1 H2]%andb_true_iff.
  apply Nat.leb_le in H1, H2.
  apply orb_false_iff. split.
  - apply Nat.eqb_neq. lia.
  - apply andb_false_iff. right. apply Nat.leb_gt. lia.
Qed.

Lemma stops_after_run p q a b :
  (forall c, q c = true -> p c = false) -> run_of q a -> stops p (a +:+ b).
Proof.
  intros Hpq [Hne Ha]. destruct a as [|c a]; [done|].
  rewrite str_app_cons. cbn in *.
  apply andb_true_iff in Ha as [Hc _]. by apply Hpq.
Qed.

(** The pattern of a text line matches at the start of a subject that
    is made of its literals and groups and has no newline. *)
Lemma text_at_complete ws d1 d2 txt :
  run_of Py.isspace ws -> run_of Py.isdigit d1 -> run_of Py.isdigit d2 ->
  all_of Re.dot txt = true ->
  Re.text_at ("text:" +:+ ws +:+ d1 +:+ "-" +:+ d2 +:+ ":" +:+ txt)
  = Some (d1, d2, txt).
Proof.
  intros Hws Hd1 Hd2 Htxt. unfold Re.text_at.
  rewrite lit_complete. cbn [mbind option_bind].
  rewrite (span1_complete _ ws);
    [|done|by apply (stops_after_run Py.isspace Py.isdigit);
             [apply isdigit_not_isspace|]].
  cbn [mbind option_bind].
  rewrite (span1_complete _ d1) by done. cbn [mbind option_bind].
  rewrite lit_complete. cbn [mbind option_bind].
  rewrite (span1_complete _ d2) by done. cbn [mbind option_bind].
  rewrite lit_complete. cbn [mbind option_bind].
  rewrite <- (str_app_nil_r txt) at 1.
  by rewrite (span_complete _ txt "").
Qed.

(** C9, as the script has it: the text of a record is, character for
    character, what follows the first revision-range prefix of the
    line without its leading and trailing blanks ([line.strip()],
    which removes blanks only), and the line printed for the record
    ends with it.  The prefix is [text:], blanks, the digits of the
    first change list, [-], the digits of the second and [:]; it is
    the first one: no such prefix starts before it in the line, and
    the change lists and the text of the record are those of the
    prefix that starts there.  A text line is one of
    [out.split('\n')[1:last]]. *)
Theorem text_of_stripped_line ifn latest v out last line w v' w' :
  line ∈ Py.slice (Py.split Py.NL out) 1 last ->
  process_line log10_digits shell ifn latest v line w = (Ok v', w') ->
  exists lead trail pre ws g1 g2 r,
    data v' = data v ++ [r] /\
    line = lead +:+ Py.strip line +:+ trail /\
    all_of Py.isspace lead = true /\ all_of Py.isspace trail = true /\
    Py.strip line
    = pre +:+ "text:" +:+ ws +:+ g1 +:+ "-" +:+ g2 +:+ ":" +:+ r_text r /\
    run_of Py.isspace ws /\ run_of Py.isdigit g1 /\ run_of Py.isdigit g2 /\
    r_from r = Py.int g1 /\ r_to r = Py.int g2 /\
    (forall pre' ws' d1 d2 t',
        Py.strip line
        = pre' +:+ "text:" +:+ ws' +:+ d1 +:+ "-" +:+ d2 +:+ ":" +:+ t' ->
        run_of Py.isspace ws' -> run_of Py.isdigit d1 ->
        run_of Py.isdigit d2 ->
        (exists s, pre' = pre +:+ s) /\
        (pre' = pre -> d1 = g1 /\ d2 = g2 /\ t' = r_text r)) /\
    forall lineno_digits clr_len,
      render lineno_digits clr_len r
      = (lnum lineno_digits r +:+ " " +:+ Py.ljust clr_len (clr r) +:+ " "
         +:+ r_sep r +:+ " ") +:+ r_text r.
Proof.
  intros Hbody Hstep.
  apply process_line_ok in Hstep
    as (g1 & g2 & g3 & fo & to & m1 & w1 & Hm & _ & _ & _ & _ & Hv').
  cbn zeta in Hv'. destruct Hv' as (Hdata & _).
  apply search_leftmost in Hm as (pre & t & Hstrip & Ht & Hleft).
  pose proof Ht as Hsound. apply text_at_sound in Hsound
    as (ws & rest & Heq & Hws & Hg1 & Hg2 & _ & Hrest).
  assert (rest = "") as ->.
  { destruct Hrest as [->| ->]; [done|]. exfalso. subst t.
    unfold Py.strip in Hstrip.
    rewrite <- !str_app_assoc in Hstrip.
    apply rstrip_last in Hstrip. by vm_compute in Hstrip. }
  rewrite str_app_nil_r in Heq.
  destruct (strip_spec line) as (lead & trail & Hline & Hlead & Htrail).
  assert (Hdot : all_of Re.dot (Py.strip line) = true).
  { apply body_line_no_newline in Hbody. rewrite Hline in Hbody.
    apply all_of_suffix in Hbody. rewrite all_of_app in Hbody.
    by apply andb_true_iff in Hbody as [? _]. }
  eexists lead, trail, pre, ws, g1, g2, _. split; [exact Hdata|].
  split; [exact Hline|]. split; [exact Hlead|]. split; [exact Htrail|].
  cbn [r_text r_from r_to].
  split; [by rewrite Hstrip, Heq|].
  split; [exact Hws|]. split; [exact Hg1|]. split; [exact Hg2|].
  split; [done|]. split; [done|]. split.
  - intros pre' ws' d1 d2 t' Hocc Hws' Hd1 Hd2.
    assert (Hat : Re.text_at ("text:" +:+ ws' +:+ d1 +:+ "-" +:+ d2
                               +:+ ":" +:+ t')
                  = Some (d1, d2, t')).
    { apply text_at_complete; try done.
      rewrite Hocc in Hdot. by do 7 apply all_of_suffix in Hdot. }
    rewrite Hstrip in Hocc. split.
    + destruct (str_app_split _ _ _ _ Hocc)
        as [(s & -> & _)|(q & Hq & Hpre & Hocc')]; [by exists s|].
      rewrite Hocc', (Hleft _ _ Hpre Hq) in Hat. done.
    + intros ->. apply str_app_inv_head in Hocc.
      rewrite <- Hocc, Ht in Hat. by injection Hat as <- <- <-.
  - intros d c. unfold render. cbn. by rewrite !str_app_assoc.
Qed.

End Text.

(** C9, as stated, fails: the blanks that end the text of this line
    are in the input and not in the record. *)
Lemma trailing_blanks_are_lost :
  line_with_blanks = "text: 10-30:" +:+ "    x = 1;  " /\
  exists v w r,
    process_line exact_digits shell_scenario "file" 30 init_vars
      line_with_blanks w0
    = (Ok v, w) /\
    data v = [r] /\ r_text r = "    x = 1;" /\ r_text r <> "    x = 1;  ".
Proof.
  split; [reflexivity|].
  eexists _, _, _. split; [vm_compute; reflexivity|].
  split; [reflexivity|]. split; [reflexivity | discriminate].
Qed.

(** A text that itself has a revision-range prefix: the record has
    what follows the first one. *)
Example text_after_first_prefix :
  exists v w r,
    process_line exact_digits shell_scenario "file" 30 init_vars
      "text: 10-30:text: 10-20:x" w0
    = (Ok v, w) /\
    data v = [r] /\ r_from r = 10 /\ r_to r = 30 /\
    r_text r = "text: 10-20:x".
Proof.
  eexists _, _, _. split; [vm_compute; reflexivity|].
  by repeat split.
Qed.

(** ** The theorems at work on the scenario *)

(** The deleted record of the scenario: neither 10 nor 20 is the
    latest change list. *)
Lemma status_present_iff_latest_witness :
  first_loop exact_digits shell_scenario "file" 30 scenario_body w0
  = (Ok scenario_vars, scenario_world) /\
  scenario_deleted ∈ data scenario_vars /\
  (r_type scenario_deleted = present <->
   r_from scenario_deleted = 30 \/ r_to scenario_deleted = 30) /\
  (r_type scenario_deleted <> present -> r_type scenario_deleted = deleted).
Proof.
  assert (Hrun : first_loop exact_digits shell_scenario "file" 30
                   scenario_body w0
                 = (Ok scenario_vars, scenario_world))
    by (vm_compute; reflexivity).
  assert (Hin : scenario_deleted ∈ data scenario_vars)
    by (right; left).
  split; [exact Hrun|]. split; [exact Hin|].
  exact (status_present_iff_latest exact_digits shell_scenario "file" 30
           scenario_body w0
           scenario_vars scenario_world Hrun scenario_deleted Hin).
Defined.

(** The scenario has one present record, with the line number 1. *)
Lemma present_line_numbers_witness :
  first_loop exact_digits shell_scenario "file" 30 scenario_body w0
  = (Ok scenario_vars, scenario_world) /\
  let presents := filter (fun r => r_type r = present) (data scenario_vars) in
  Z.of_nat (length presents) = lineno scenario_vars /\
  r_lineno <$> presents = seqZ 1 (lineno scenario_vars) /\
  forall r, r ∈ data scenario_vars -> r_type r = deleted ->
    forall lineno_digits clr_len,
      render lineno_digits clr_len r
      = Py.rjust lineno_digits "-" +:+ " "
        +:+ Py.ljust clr_len (frec r +:+ " ... " +:+ trec r)
        +:+ " " +:+ r_sep r +:+ " " +:+ r_text r.
Proof.
  assert (Hrun : first_loop exact_digits shell_scenario "file" 30
                   scenario_body w0
                 = (Ok scenario_vars, scenario_world))
    by (vm_compute; reflexivity).
  split; [exact Hrun|].
  exact (present_line_numbers exact_digits shell_scenario "file" 30
           scenario_body w0
           scenario_vars scenario_world Hrun).
Defined.

(** The scenario names change list 10 twice and looks it up once. *)
Lemma one_lookup_per_change_witness :
  first_loop exact_digits shell_scenario "file" 30 scenario_body w0
  = (Ok scenario_vars, scenario_world) /\
  (exists cls,
      commands scenario_world = commands w0 ++ (describe_cmd <$> cls) /\
      NoDup cls /\
      NoDup (describe_cmd <$> cls) /\
      (forall c, c ∈ cls -> c ∈ stream_changes scenario_body) /\
      ((exists v, Ok scenario_vars = Ok v) ->
       forall c, c ∈ stream_changes scenario_body -> c ∈ cls)) /\
  (forall cln (m : gmap Z string) o w1,
      m !! cln = Some o ->
      get_cl_owner shell_scenario cln m w1 = (Ok (o, m), w1)).
Proof.
  assert (Hrun : first_loop exact_digits shell_scenario "file" 30
                   scenario_body w0
                 = (Ok scenario_vars, scenario_world))
    by (vm_compute; reflexivity).
  split; [exact Hrun|].
  exact (one_lookup_per_change exact_digits shell_scenario "file" 30
           scenario_body w0
           (Ok scenario_vars) scenario_world Hrun).
Defined.

(** The column of the deleted record of the scenario, 17 characters
    in a field of 18. *)
Lemma clr_len_fits_witness :
  (forall n, 1 <= n -> exact_digits n <= exact_digits n) /\
  first_loop exact_digits shell_scenario "file" 30 scenario_body w0
  = (Ok scenario_vars, scenario_world) /\
  scenario_deleted ∈ data scenario_vars /\
  Py.len (frec scenario_deleted) <= clr_len scenario_vars /\
  Py.len (frec scenario_deleted +:+ " ... " +:+ trec scenario_deleted)
  <= clr_len scenario_vars /\
  Py.len (clr scenario_deleted) <= clr_len scenario_vars /\
  Py.len (Py.ljust (clr_len scenario_vars) (clr scenario_deleted))
  = clr_len scenario_vars /\
  Py.ljust (clr_len scenario_vars) (clr scenario_deleted)
  = clr scenario_deleted
    +:+ Py.spaces (Z.to_nat (clr_len scenario_vars
                             - Py.len (clr scenario_deleted))).
Proof.
  assert (Hlog : forall n, 1 <= n -> exact_digits n <= exact_digits n)
    by (intros n _; lia).
  assert (Hrun : first_loop exact_digits shell_scenario "file" 30
                   scenario_body w0
                 = (Ok scenario_vars, scenario_world))
    by (vm_compute; reflexivity).
  assert (Hin : scenario_deleted ∈ data scenario_vars)
    by (right; left).
  split; [exact Hlog|]. split; [exact Hrun|]. split; [exact Hin|].
  exact (clr_len_fits exact_digits shell_scenario "file" 30 scenario_body w0
           scenario_vars scenario_world Hlog Hrun scenario_deleted Hin).
Defined.

(** The lookup of change list 10 in the scenario. *)
Lemma get_owner_first_match_witness :
  shell_scenario (describe_cmd 10)
  = (0, "Change 10 by amy@ws on 2015/01/01 10:00:00") /\
  get_owner shell_scenario 10 w0 = (Ok "amy", ran (describe_cmd 10) w0).
Proof.
  assert (Hsh : shell_scenario (describe_cmd 10)
                = (0, "Change 10 by amy@ws on 2015/01/01 10:00:00"))
    by (vm_compute; reflexivity).
  split; [exact Hsh|].
  refine (proj1 (proj2 (proj2 (get_owner_first_match shell_scenario 10 _ w0 Hsh)
            [] "Change 10 by amy@ws on 2015/01/01 10:00:00" [] "10" "amy"
            _ _ _)) _).
  - vm_compute. reflexivity.
  - intros l Hl. by apply elem_of_nil in Hl.
  - vm_compute. reflexivity.
  - reflexivity.
Defined.

(** A verbose run that ends on a line that is not recognized. *)
Lemma fatal_before_report_witness :
  let run := process 1 exact_digits shell_blank_before_exit "file" w0 in
  run = (Raise (SystemExit 1), run.2) /\
  1 = 1 /\
  exists infos msg,
    stdout run.2 = stdout w0 ++ infos ++ [Msg "ERROR" msg] /\
    Forall is_info infos /\
    forall line, Print line ∉ infos ++ [Msg "ERROR" msg].
Proof.
  cbn zeta.
  assert (Hrun : process 1 exact_digits shell_blank_before_exit "file" w0
                 = (Raise (SystemExit 1),
                    (process 1 exact_digits shell_blank_before_exit "file"
                       w0).2))
    by (vm_compute; reflexivity).
  split; [exact Hrun|].
  exact (fatal_before_report 1 exact_digits shell_blank_before_exit "file"
           w0 1 _ Hrun).
Defined.

(** The scenario with a newline after the terminator. *)
Lemma terminator_last_or_before_last_witness :
  shell_scenario_nl (annotate_cmd "file")
  = (0, join Py.NL (scenario_header :: scenario_body ++ ["exit:"; ""])) /\
  process 0 exact_digits shell_scenario_nl "file" w0
  = process_records exact_digits shell_scenario_nl "file" scenario_header 30
      scenario_body
      (ran (annotate_cmd "file") w0).
Proof.
  assert (Hsh : shell_scenario_nl (annotate_cmd "file")
                = (0, join Py.NL
                        (scenario_header :: scenario_body ++ ["exit:"; ""])))
    by (vm_compute; reflexivity).
  split; [exact Hsh|].
  refine (proj1 (proj2 (terminator_last_or_before_last 0 exact_digits
                          shell_scenario_nl
                          "file" _ w0 Hsh))
            scenario_header scenario_body "exit:" "" "30" _ _ _ _ _).
  - vm_compute. reflexivity.
  - vm_compute. discriminate.
  - vm_compute. reflexivity.
  - vm_compute. reflexivity.
  - vm_compute. discriminate.
Defined.

(** The line that ends with blanks, in an annotation of three lines. *)
Lemma text_of_stripped_line_witness :
  line_with_blanks
  ∈ Py.slice
      (Py.split Py.NL (join Py.NL [scenario_header; line_with_blanks; "exit:"]))
      1 (-1) /\
  process_line exact_digits shell_scenario "file" 30 init_vars
    line_with_blanks w0
  = (Ok blanks_vars, World [] [describe_cmd 10; describe_cmd 30]) /\
  exists lead trail pre ws g1 g2 r,
    data blanks_vars = data init_vars ++ [r] /\
    line_with_blanks = lead +:+ Py.strip line_with_blanks +:+ trail /\
    all_of Py.isspace lead = true /\ all_of Py.isspace trail = true /\
    Py.strip line_with_blanks
    = pre +:+ "text:" +:+ ws +:+ g1 +:+ "-" +:+ g2 +:+ ":" +:+ r_text r /\
    run_of Py.isspace ws /\ run_of Py.isdigit g1 /\ run_of Py.isdigit g2 /\
    r_from r = Py.int g1 /\ r_to r = Py.int g2 /\
    (forall pre' ws' d1 d2 t',
        Py.strip line_with_blanks
        = pre' +:+ "text:" +:+ ws' +:+ d1 +:+ "-" +:+ d2 +:+ ":" +:+ t' ->
        run_of Py.isspace ws' -> run_of Py.isdigit d1 ->
        run_of Py.isdigit d2 ->
        (exists s, pre' = pre +:+ s) /\
        (pre' = pre -> d1 = g1 /\ d2 = g2 /\ t' = r_text r)) /\
    forall lineno_digits clr_len,
      render lineno_digits clr_len r
      = (lnum lineno_digits r +:+ " " +:+ Py.ljust clr_len (clr r) +:+ " "
         +:+ r_sep r +:+ " ") +:+ r_text r.
Proof.
  assert (Hbody : line_with_blanks
                  ∈ Py.slice
                      (Py.split Py.NL
                         (join Py.NL
                            [scenario_header; line_with_blanks; "exit:"]))
                      1 (-1))
    by (vm_compute; left).
  assert (Hrun : process_line exact_digits shell_scenario "file" 30 init_vars
                   line_with_blanks w0
                 = (Ok blanks_vars,
                    World [] [describe_cmd 10; describe_cmd 30]))
    by (vm_compute; reflexivity).
  split; [exact Hbody|]. split; [exact Hrun|].
  exact (text_of_stripped_line exact_digits shell_scenario "file" 30 init_vars
           _ (-1) line_with_blanks w0 blanks_vars _ Hbody Hrun).
Defined.

(** The annotation without a present line. *)
Lemma no_present_record_raises_witness :
  first_loop exact_digits shell_no_present "file" 30 ["text: 10-20:beta"] w0
  = (Ok no_present_vars, World [] [describe_cmd 10; describe_cmd 20]) /\
  (forall r, r ∈ data no_present_vars -> r_type r <> present) /\
  lineno no_present_vars = 0 /\
  process_records exact_digits shell_no_present "file" scenario_header 30
    ["text: 10-20:beta"] w0
  = (Raise ValueError,
     World ([] ++ [Print (Py.strip scenario_header)])
       [describe_cmd 10; describe_cmd 20]) /\
  (forall exitcode, ValueError <> SystemExit exitcode) /\
  (forall msg, Msg "ERROR" msg ∈ [] ++ [Print (Py.strip scenario_header)] ->
               Msg "ERROR" msg ∈ stdout w0).
Proof.
  assert (Hrun : first_loop exact_digits shell_no_present "file" 30
                   ["text: 10-20:beta"] w0
                 = (Ok no_present_vars,
                    World [] [describe_cmd 10; describe_cmd 20]))
    by (vm_compute; reflexivity).
  assert (Hnone : forall r, r ∈ data no_present_vars -> r_type r <> present).
  { intros r Hr. apply list_elem_of_singleton in Hr. by rewrite Hr. }
  split; [exact Hrun|]. split; [exact Hnone|].
  exact (no_present_record_raises exact_digits shell_no_present "file"
           scenario_header 30
           ["text: 10-20:beta"] w0 no_present_vars _ Hrun Hnone).
Defined.

(** The whole run on the annotation without a present line: the
    header is printed, then the exception is raised. *)
Example process_no_present :
  process 0 exact_digits shell_no_present "file" w0
  = (Raise ValueError,
     World [Print "info: file#3 - edit change 30 (text)"]
       ["p4 -s annotate -a -i -I file"; "p4 describe -s 10";
        "p4 describe -s 20"]).
Proof. vm_compute. reflexivity. Qed.

(** An output of one line without [exit:]: [lines[-2]] does not
    exist, and the run ends with [IndexError] instead of an error
    message. *)
Example process_single_line :
  process 0 exact_digits shell_single_line "file" w0
  = (Raise IndexError, World [] ["p4 -s annotate -a -i -I file"]).
Proof. vm_compute. reflexivity. Qed.

(** A lookup whose output names another change list first, in a
    run of [process]: nothing of the report is printed. *)
Example process_lookup_mismatch :
  process 0 exact_digits
    (shell_of [(annotate_cmd "file",
                (0, join Py.NL
                      [scenario_header; "text: 10-30:alpha"; "exit:"]));
               (describe_cmd 10,
                (0, "Change 99 by bob@ws on 2015/01/01 10:00:00"))])
    "file" w0
  = failed "p4 describe record not found for 10"
      (World [] [annotate_cmd "file"; describe_cmd 10]).
Proof. vm_compute. reflexivity. Qed.

(** * Further properties *)

(** ** The command line *)

Section CommandLine.

Variable log10_digits : Z -> Z.
Variable shell : string -> Z * string.

(** The options are three disjoint classes. *)
Lemma is_stop_false opt :
  is_stop opt = false -> is_help opt = false /\ is_version opt = false.
Proof. unfold is_stop. by intros [? ?]%orb_false_iff. Qed.

Lemma getopts_step_no_stop argv files v opt w :
  is_stop opt = false ->
  getopts_step argv (files, v) opt w
  = (Ok (if is_verbose opt then (files, v + 1) else (files ++ [opt], v)), w).
Proof.
  intros [Hh Hv]%is_stop_false. unfold getopts_step. rewrite Hh, Hv.
  by destruct (is_verbose opt).
Qed.

(** The loop of [getopts] over options that do not end the run. *)
Lemma getopts_loop_no_stop argv args files v w :
  Forall (fun opt => is_stop opt = false) args ->
  for_each (getopts_step argv) args (files, v) w
  = (Ok (files ++ filter (fun opt => is_verbose opt = false) args,
         v + Z.of_nat (length (filter (fun opt => is_verbose opt = true)
                                 args))),
     w).
Proof.
  intros Hargs. revert files v.
  induction Hargs as [|opt args Hopt _ IH]; intros files v.
  - cbn. by rewrite app_nil_r, Z.add_0_r.
  - cbn [for_each].
    rewrite (bind_ok _ _ _ _ _ (getopts_step_no_stop argv files v opt w Hopt)).
    destruct (is_verbose opt) eqn:E.
    + rewrite IH.
      rewrite filter_cons_False by (rewrite E; done).
      rewrite filter_cons_True by done. cbn [length].
      do 3 f_equal. lia.
    + rewrite IH.
      rewrite filter_cons_True by done.
      rewrite filter_cons_False by (rewrite E; done).
      by rewrite <- (assoc_L (++)).
Qed.

(** The loop of [getopts] up to the first option that ends the run. *)
Lemma getopts_loop_stop argv argv0 rest pre opt post files v w :
  argv = argv0 :: rest ->
  Forall (fun opt => is_stop opt = false) pre ->
  is_stop opt = true ->
  for_each (getopts_step argv) (pre ++ opt :: post) (files, v) w
  = (Raise (SystemExit 0),
     World (stdout w ++ [if is_help opt
                         then Print (usage (basename argv0))
                         else Msg "INFO" "v1.0"])
       (commands w)).
Proof.
  intros -> Hpre Hopt.
  rewrite for_each_app.
  rewrite (bind_ok _ _ _ _ _ (getopts_loop_no_stop _ _ _ _ _ Hpre)).
  cbn [for_each]. erewrite bind_raise; [reflexivity|].
  unfold getopts_step. destruct (is_help opt) eqn:Hh; [reflexivity|].
  unfold is_stop in Hopt. rewrite Hh in Hopt. cbn in Hopt.
  assert (is_verbose opt = false) as ->.
  { unfold is_version, is_verbose in *.
    apply orb_true_iff in Hopt as [->%String.eqb_eq| ->%String.eqb_eq];
      reflexivity. }
  by rewrite Hopt.
Qed.

(** X1: when no argument is a help or version option, [getopts]
    returns the arguments that are not [-v] or [--verbose], in their
    order, and [VERBOSE] has grown by the number of those that are; it
    writes nothing and runs no command, and [main] then processes
    those files with that verbosity. *)
Theorem getopts_files_and_verbosity argv v w :
  Forall (fun opt => is_stop opt = false) (drop 1 argv) ->
  let files := filter (fun opt => is_verbose opt = false) (drop 1 argv) in
  let flags := filter (fun opt => is_verbose opt = true) (drop 1 argv) in
  getopts argv v w = (Ok (files, v + Z.of_nat (length flags)), w) /\
  run_main log10_digits shell argv w
  = main (Z.of_nat (length flags)) log10_digits shell files w.
Proof.
  intros Hargs files flags.
  assert (Hget : forall v, getopts argv v w
                           = (Ok (files, v + Z.of_nat (length flags)), w)).
  { intros v'. unfold getopts.
    by rewrite (getopts_loop_no_stop _ _ _ _ _ Hargs). }
  split; [apply Hget|].
  unfold run_main. by rewrite (bind_ok _ _ _ _ _ (Hget 0)).
Qed.

(** X2: at the first help or version option the run ends with the
    exit status 0, after the usage text (help) or the version message
    (version); the arguments after it are not looked at, no file is
    processed and no command is run. *)
Theorem run_main_help_or_version argv0 pre opt post w :
  Forall (fun opt => is_stop opt = false) pre ->
  is_stop opt = true ->
  run_main log10_digits shell (argv0 :: pre ++ opt :: post) w
  = (Raise (SystemExit 0),
     World (stdout w ++ [if is_help opt
                         then Print (usage (basename argv0))
                         else Msg "INFO" "v1.0"])
       (commands w)).
Proof.
  intros Hpre Hopt. unfold run_main, getopts.
  erewrite bind_raise; [reflexivity|]. cbn [drop].
  by eapply getopts_loop_stop.
Qed.

(** X3: [main] stops at the first file whose processing fails: the
    run ends with the exception of that file, in the world that file
    left, and the files after it are not processed. *)
Theorem main_stops_at_first_failure VERBOSE pre file post w w1 e w2 :
  main VERBOSE log10_digits shell pre w = (Ok tt, w1) ->
  process VERBOSE log10_digits shell file w1 = (Raise e, w2) ->
  main VERBOSE log10_digits shell (pre ++ file :: post) w = (Raise e, w2).
Proof.
  intros Hpre Hfile. unfold main in *.
  rewrite for_each_app, (bind_ok _ _ _ _ _ Hpre). cbn [for_each].
  by rewrite (bind_raise _ _ _ _ _ Hfile).
Qed.

End CommandLine.

(** ** The script does not look at the world *)

Section Frame.

Variable VERBOSE : Z.
Variable log10_digits : Z -> Z.
Variable shell : string -> Z * string.

Lemma extend_nil w : extend w [] [] = w.
Proof. destruct w. unfold extend. cbn. by rewrite !app_nil_r. Qed.

Lemma extend_extend w e1 c1 e2 c2 :
  extend (extend w e1 c1) e2 c2 = extend w (e1 ++ e2) (c1 ++ c2).
Proof. unfold extend. cbn. by rewrite !(assoc_L (++)). Qed.

Lemma framed_ret {A} (a : A) : framed (mret a).
Proof. exists (Ok a), [], []. intros w. by rewrite extend_nil. Qed.

Lemma framed_raise {A} e : framed (raise (A:=A) e).
Proof. exists (Raise e), [], []. intros w. by rewrite extend_nil. Qed.

Lemma framed_emit e : framed (emit e).
Proof.
  exists (Ok tt), [e], []. intros w. unfold emit, extend.
  by rewrite app_nil_r.
Qed.

Lemma framed_bind {A B} (m : M A) (k : A -> M B) :
  framed m -> (forall a, framed (k a)) -> framed (m ≫= k).
Proof.
  intros ([a|e] & e1 & c1 & Hm) Hk.
  - destruct (Hk a) as (r & e2 & c2 & Hka).
    exists r, (e1 ++ e2), (c1 ++ c2). intros w.
    by rewrite (bind_ok _ _ _ _ _ (Hm w)), Hka, extend_extend.
  - exists (Raise e), e1, c1. intros w.
    by rewrite (bind_raise _ _ _ _ _ (Hm w)).
Qed.

Lemma framed_for_each {A S} (body : S -> A -> M S) l s :
  (forall s x, framed (body s x)) -> framed (for_each body l s).
Proof.
  intros Hb. revert s. induction l as [|x l IH]; intros s; cbn.
  - apply framed_ret.
  - apply framed_bind; [apply Hb | apply IH].
Qed.

Lemma framed_err {A} msg : framed (err (A:=A) msg).
Proof.
  unfold err. apply framed_bind; [apply framed_emit|].
  intros _. apply framed_raise.
Qed.

Lemma framed_vinfo msg : framed (vinfo VERBOSE msg).
Proof.
  unfold vinfo. destruct (VERBOSE =? 0); [apply framed_ret|].
  apply framed_emit.
Qed.

Lemma framed_item {A} (l : list A) i : framed (item l i).
Proof.
  unfold item. destruct (Py.getitem l i);
    [apply framed_ret | apply framed_raise].
Qed.

Lemma framed_log10 n : framed (log10_plus_1 log10_digits n).
Proof.
  unfold log10_plus_1. destruct (n <=? 0);
    [apply framed_raise | apply framed_ret].
Qed.

Lemma framed_system cmd : framed (system shell cmd).
Proof.
  unfold system. apply framed_bind.
  - exists (Ok (shell cmd)), [], [cmd]. intros w.
    unfold _system, extend. by rewrite app_nil_r.
  - intros [ret out]. apply framed_bind; [|intros; apply framed_ret].
    destruct (negb (ret =? 0)); [apply framed_err | apply framed_ret].
Qed.

Lemma framed_get_owner cln : framed (get_owner shell cln).
Proof.
  unfold get_owner. cbn zeta. apply framed_bind; [apply framed_system|].
  intros [ret out].
  destruct (first_change_by (Py.split Py.NL out)) as [change owner].
  apply framed_bind.
  - destruct (negb (change =? cln)); [apply framed_err | apply framed_ret].
  - intros _. destruct owner; [apply framed_ret | apply framed_err].
Qed.

Lemma framed_get_cl_owner cln m : framed (get_cl_owner shell cln m).
Proof.
  unfold get_cl_owner. destruct (m !! cln); [apply framed_ret|].
  apply framed_bind; [apply framed_get_owner | intros; apply framed_ret].
Qed.

Lemma framed_process_line ifn latest v line :
  framed (process_line log10_digits shell ifn latest v line).
Proof.
  unfold process_line. cbn zeta.
  destruct (Re.search Re.text_at (Py.strip line)) as [[[g1 g2] g3]|];
    [|apply framed_err].
  apply framed_bind; [apply framed_get_cl_owner|]. intros [fo m1].
  apply framed_bind; [apply framed_get_cl_owner|]. intros [to m2].
  destruct (_ || _);
    (apply framed_bind; [apply framed_log10|]; intros d2;
     apply framed_bind; [apply framed_log10|]; intros d1;
     apply framed_ret).
Qed.

Lemma framed_find_last ifn lines : framed (find_last ifn lines).
Proof.
  unfold find_last. apply framed_bind; [apply framed_item|]. intros l1.
  destruct (Py.find l1 "exit:" <? 0); [|apply framed_ret].
  apply framed_bind; [apply framed_item|]. intros l2.
  apply framed_bind; [|intros; apply framed_ret].
  destruct (Py.find l2 "exit:" <? 0); [apply framed_err | apply framed_ret].
Qed.

Lemma framed_report header v : framed (report log10_digits header v).
Proof.
  unfold report.
  apply framed_bind; [apply framed_emit|]. intros _.
  apply framed_bind; [apply framed_log10|]. intros d.
  apply framed_bind; [|intros; apply framed_emit].
  apply framed_for_each. intros; apply framed_emit.
Qed.

Lemma framed_process ifn : framed (process VERBOSE log10_digits shell ifn).
Proof.
  unfold process. cbn zeta.
  apply framed_bind; [apply framed_system|]. intros [ret out].
  apply framed_bind; [apply framed_vinfo|]. intros _.
  apply framed_bind; [apply framed_vinfo|]. intros _.
  apply framed_bind; [apply framed_item|]. intros header.
  apply framed_bind.
  { destruct (Py.find header "info:" <? 0);
      [apply framed_err | apply framed_ret]. }
  intros _.
  apply framed_bind; [apply framed_find_last|]. intros last.
  apply framed_bind.
  { destruct (Re.search Re.change_at header);
      [apply framed_ret | apply framed_err]. }
  intros latest.
  apply framed_bind; [apply framed_vinfo|]. intros _.
  unfold process_records, first_loop.
  apply framed_bind; [|intros; apply framed_report].
  apply framed_for_each. intros; apply framed_process_line.
Qed.

End Frame.

(** ** What a run writes, by outcome *)

Section Shape.

Variable VERBOSE : Z.
Variable log10_digits : Z -> Z.
Variable shell : string -> Z * string.

Lemma shaped_ret {A} (a : A) : shaped VERBOSE (mret a).
Proof.
  intros w r w' [= <- <-]. exists []. by rewrite app_nil_r.
Qed.

Lemma shaped_raise {A} e :
  (forall exitcode, e <> SystemExit exitcode) ->
  shaped VERBOSE (raise (A:=A) e).
Proof.
  intros He w r w' [= <- <-]. exists [].
  split; [done|]. split; [done|].
  destruct e; try by rewrite app_nil_r. by destruct (He exitcode).
Qed.

Lemma shaped_err {A} msg : shaped VERBOSE (err (A:=A) msg).
Proof.
  intros w r w'. rewrite err_eq. intros [= <- <-]. exists [].
  split; [done|]. split; [done|]. split; [done|]. by exists msg.
Qed.

Lemma shaped_vinfo msg : shaped VERBOSE (vinfo VERBOSE msg).
Proof.
  intros w r w'. unfold vinfo, _msg, emit.
  destruct (VERBOSE =? 0) eqn:E; intros [= <- <-].
  - exists []. by rewrite app_nil_r.
  - exists [Msg "INFO" msg]. split; [|split; [|done]].
    + apply Forall_singleton. by exists msg.
    + intros ->. done.
Qed.

Lemma shaped_bind {A B} (m : M A) (k : A -> M B) :
  shaped VERBOSE m -> (forall a, shaped VERBOSE (k a)) ->
  shaped VERBOSE (m ≫= k).
Proof.
  intros Hm Hk w r w'. unfold mbind, M_bind.
  destruct (m w) as [[a|e] w1] eqn:E;
    destruct (Hm _ _ _ E) as (i1 & F1 & Z1 & H1).
  - intros H. destruct (Hk a _ _ _ H) as (i2 & F2 & Z2 & H2).
    exists (i1 ++ i2). split; [by apply Forall_app|].
    split; [intros HV; by rewrite Z1, Z2|].
    destruct r as [b|[| |c]]; cbn in *.
    1-3: by rewrite H2, H1, (assoc_L (++)).
    destruct H2 as [-> [msg H2]]. split; [done|]. exists msg.
    by rewrite H2, H1, !(assoc_L (++)).
  - intros [= <- <-]. exists i1. split; [done|]. split; [done|].
    by destruct e.
Qed.

Lemma shaped_for_each {A S} (body : S -> A -> M S) l s :
  (forall s x, shaped VERBOSE (body s x)) ->
  shaped VERBOSE (for_each body l s).
Proof.
  intros Hb. revert s. induction l as [|x l IH]; intros s; cbn.
  - apply shaped_ret.
  - apply shaped_bind; [apply Hb | apply IH].
Qed.

Lemma shaped_item {A} (l : list A) i : shaped VERBOSE (item l i).
Proof.
  unfold item. destruct (Py.getitem l i); [apply shaped_ret|].
  by apply shaped_raise.
Qed.

Lemma shaped_log10 n : shaped VERBOSE (log10_plus_1 log10_digits n).
Proof.
  unfold log10_plus_1. destruct (n <=? 0);
    [by apply shaped_raise | apply shaped_ret].
Qed.

Lemma shaped_system cmd : shaped VERBOSE (system shell cmd).
Proof.
  unfold system. apply shaped_bind.
  - intros w r w' [= <- <-]. exists []. by rewrite app_nil_r.
  - intros [ret out]. apply shaped_bind; [|intros; apply shaped_ret].
    destruct (negb (ret =? 0)); [apply shaped_err | apply shaped_ret].
Qed.

Lemma shaped_get_owner cln : shaped VERBOSE (get_owner shell cln).
Proof.
  unfold get_owner. cbn zeta. apply shaped_bind; [apply shaped_system|].
  intros [ret out].
  destruct (first_change_by (Py.split Py.NL out)) as [change owner].
  apply shaped_bind.
  - destruct (negb (change =? cln)); [apply shaped_err | apply shaped_ret].
  - intros _. destruct owner; [apply shaped_ret | apply shaped_err].
Qed.

Lemma shaped_get_cl_owner cln m : shaped VERBOSE (get_cl_owner shell cln m).
Proof.
  unfold get_cl_owner. destruct (m !! cln); [apply shaped_ret|].
  apply shaped_bind; [apply shaped_get_owner | intros; apply shaped_ret].
Qed.

Lemma shaped_process_line ifn latest v line :
  shaped VERBOSE (process_line log10_digits shell ifn latest v line).
Proof.
  unfold process_line. cbn zeta.
  destruct (Re.search Re.text_at (Py.strip line)) as [[[g1 g2] g3]|];
    [|apply shaped_err].
  apply shaped_bind; [apply shaped_get_cl_owner|]. intros [fo m1].
  apply shaped_bind; [apply shaped_get_cl_owner|]. intros [to m2].
  destruct (_ || _);
    (apply shaped_bind; [apply shaped_log10|]; intros d2;
     apply shaped_bind; [apply shaped_log10|]; intros d1;
     apply shaped_ret).
Qed.

Lemma shaped_find_last ifn lines : shaped VERBOSE (find_last ifn lines).
Proof.
  unfold find_last. apply shaped_bind; [apply shaped_item|]. intros l1.
  destruct (Py.find l1 "exit:" <? 0); [|apply shaped_ret].
  apply shaped_bind; [apply shaped_item|]. intros l2.
  apply shaped_bind; [|intros; apply shaped_ret].
  destruct (Py.find l2 "exit:" <? 0); [apply shaped_err | apply shaped_ret].
Qed.

(** After a computation that only writes messages, a computation
    that writes the report. *)
Lemma classified_bind {A} (m : M A) (k : A -> M unit) :
  shaped VERBOSE m -> (forall a, classified VERBOSE (k a)) ->
  classified VERBOSE (m ≫= k).
Proof.
  intros Hm Hk w r w'. unfold mbind, M_bind.
  destruct (m w) as [[a|e] w1] eqn:E;
    destruct (Hm _ _ _ E) as (i1 & F1 & Z1 & H1).
  - intros H. destruct (Hk a _ _ _ H) as (i2 & tail & H2 & F2 & Z2 & Ht).
    exists (i1 ++ i2), tail. split; [by rewrite H2, H1, !(assoc_L (++))|].
    split; [by apply Forall_app|].
    split; [intros HV; by rewrite Z1, Z2 | done].
  - intros [= <- <-]. destruct e as [| |c].
    + exists i1, []. by rewrite app_nil_r.
    + exists i1, []. rewrite app_nil_r. repeat split; try done. by left.
    + destruct H1 as [-> [msg H1]]. exists i1, [Msg "ERROR" msg].
      repeat split; try done. by exists msg.
Qed.

(** The second loop and the two header lines: the whole report, or
    the header and [ValueError]. *)
Lemma classified_report header v :
  classified VERBOSE (report log10_digits header v).
Proof.
  intros w r w' Hrun.
  destruct (Z.le_gt_cases (lineno v) 0) as [Hle|Hgt].
  - assert (Hv : report log10_digits header v w
                 = (Raise ValueError,
                    World (stdout w ++ [Print (Py.strip header)])
                      (commands w))).
    { unfold report. rewrite (bind_ok (emit _) _ w tt _ eq_refl).
      erewrite bind_raise; [reflexivity|]. unfold log10_plus_1.
      apply Z.leb_le in Hle. by rewrite Hle. }
    rewrite Hv in Hrun. injection Hrun as <- <-.
    exists [], [Print (Py.strip header)]. repeat split; try done.
    right. by exists (Py.strip header).
  - rewrite report_ok in Hrun by lia. injection Hrun as <- <-.
    exists [], (Print (Py.strip header)
                :: (Print <$> (render (log10_digits (lineno v)) (clr_len v)
                                 <$> data v))
                ++ [Print (Py.strip header)]).
    split; [cbn; by rewrite <- list_fmap_compose|].
    repeat split; try done. by eexists _, _.
Qed.

(** X5: what a run of [process] writes, by outcome.  First come the
    informational messages, of which there are none when [VERBOSE] is
    0.  After them comes the whole report when the run ends normally
    (the header, the record lines, the header again); one error
    message when it ends through [sys.exit], whose status is then 1;
    nothing when it ends with [IndexError]; nothing or the header
    alone when it ends with [ValueError].  A record line is never
    written without the whole report. *)
Theorem process_writes_by_outcome ifn w r w' :
  process VERBOSE log10_digits shell ifn w = (r, w') ->
  exists infos tail,
    stdout w' = stdout w ++ infos ++ tail /\
    Forall is_info infos /\ (VERBOSE = 0 -> infos = []) /\
    report_tail r tail.
Proof.
  revert w r w'.
  change (classified VERBOSE (process VERBOSE log10_digits shell ifn)).
  unfold process. cbn zeta.
  apply classified_bind; [apply shaped_system|]. intros [ret out].
  apply classified_bind; [apply shaped_vinfo|]. intros _.
  apply classified_bind; [apply shaped_vinfo|]. intros _.
  apply classified_bind; [apply shaped_item|]. intros header.
  apply classified_bind.
  { destruct (Py.find header "info:" <? 0);
      [apply shaped_err | apply shaped_ret]. }
  intros _.
  apply classified_bind; [apply shaped_find_last|]. intros last.
  apply classified_bind.
  { destruct (Re.search Re.change_at header);
      [apply shaped_ret | apply shaped_err]. }
  intros latest.
  apply classified_bind; [apply shaped_vinfo|]. intros _.
  unfold process_records, first_loop.
  apply classified_bind; [|intros; apply classified_report].
  apply shaped_for_each. intros; apply shaped_process_line.
Qed.

End Shape.

(** ** The records of the first loop *)

Section Records.

Variable log10_digits : Z -> Z.
Variable shell : string -> Z * string.

(** One record for each text line, in the order of the lines. *)
Lemma first_loop_records ifn latest body w v w' :
  first_loop log10_digits shell ifn latest body w = (Ok v, w') ->
  Forall2 (record_of_line latest) body (data v).
Proof.
  apply (for_each_inv (fun pre v _ =>
    Forall2 (record_of_line latest) pre (data v))); [constructor|].
  clear. intros pre line v w v' w' IH Hstep.
  apply process_line_ok in Hstep
    as (g1 & g2 & g3 & fo & to & m1 & w1 & Hm & _ & _ & _ & _ & Hv').
  cbn zeta in Hv'. destruct Hv' as (-> & _).
  apply Forall2_app; [done|]. constructor; [|constructor].
  exists g1, g2. cbn. repeat split; try done.
Qed.

(** The loop writes nothing when it ends normally. *)
Lemma first_loop_stdout ifn latest body w v w' :
  first_loop log10_digits shell ifn latest body w = (Ok v, w') ->
  stdout w' = stdout w.
Proof.
  apply (for_each_inv (fun _ _ w' => stdout w' = stdout w)); [done|].
  clear. intros _ line v w1 v' w' IH Hstep.
  apply process_line_ok in Hstep
    as (g1 & g2 & g3 & fo & to & m1 & w2 & _ & H1 & H2 & _).
  apply get_cl_owner_ok in H1 as [(_ & _ & ->)|(_ & _ & ->)];
    apply get_cl_owner_ok in H2 as [(_ & _ & ->)|(_ & _ & ->)]; done.
Qed.

(** X6: when the first loop ends normally there is one record for
    each text line, in the order of the lines; the record has the
    text and the two change lists that the pattern finds in the line
    without its blanks at the two ends, and its type and separator
    follow from them. *)
Theorem records_follow_lines ifn latest body w v w' :
  first_loop log10_digits shell ifn latest body w = (Ok v, w') ->
  length (data v) = length body /\
  Forall2 (record_of_line latest) body (data v) /\
  forall i line r,
    body !! i = Some line -> data v !! i = Some r ->
    line_changes line = [r_from r; r_to r].
Proof.
  intros Hrun. pose proof (first_loop_records _ _ _ _ _ _ Hrun) as HF.
  split; [symmetry; by eapply Forall2_length|]. split; [done|].
  intros i line r Hline Hr.
  destruct (Forall2_lookup_lr _ _ _ _ _ _ HF Hline Hr)
    as (g1 & g2 & Hm & -> & -> & _).
  unfold line_changes. by rewrite Hm.
Qed.

(** An owner that [get_owner] returns is the one of the lookup. *)
Lemma get_owner_resolves cln o w w' :
  get_owner shell cln w = (Ok o, w') -> resolves shell cln o.
Proof.
  unfold get_owner.
  change ("p4 describe -s " +:+ Py.str cln) with (describe_cmd cln).
  cbn zeta. intros H.
  apply bind_ok_inv in H as (r & w1 & Hsys & H).
  apply system_ok_inv in Hsys as (out & -> & Hsh & ->).
  exists out. split; [done|].
  destruct (first_change_by (Py.split Py.NL out)) as [change [owner|]];
    destruct (change =? cln) eqn:E;
    unfold err, _msg, emit, raise, mbind, M_bind, mret, M_ret in H;
    cbn in H; try done.
  apply Z.eqb_eq in E as ->. by injection H as ->.
Qed.

(** A lookup gives one owner, and it is a name: not empty and
    without [@]. *)
Lemma resolves_inj c o1 o2 :
  resolves shell c o1 -> resolves shell c o2 -> o1 = o2.
Proof. intros (out1 & H1 & F1) (out2 & H2 & F2). congruence. Qed.

Lemma first_change_by_name lines c o :
  first_change_by lines = (c, Some o) -> run_of Re.not_at o.
Proof.
  induction lines as [|l lines IH]; [done|]. cbn.
  destruct (Re.search Re.change_by_at l) as [[g1 g2]|] eqn:E; [|done].
  intros [= _ <-].
  by apply search_change_by_sound in E as (_ & _ & _ & _ & ?).
Qed.

Lemma resolves_name c o : resolves shell c o -> run_of Re.not_at o.
Proof. intros (out & _ & H). by eapply first_change_by_name. Qed.

(** The dictionary and the records after the loop. *)
Lemma first_loop_owners ifn latest body w v w' :
  first_loop log10_digits shell ifn latest body w = (Ok v, w') ->
  (forall c o, cl_owner v !! c = Some o -> resolves shell c o) /\
  (forall r, r ∈ data v ->
     cl_owner v !! r_from r = Some (r_from_owner r) /\
     cl_owner v !! r_to r = Some (r_to_owner r)).
Proof.
  apply (for_each_inv (fun _ v _ =>
    (forall c o, cl_owner v !! c = Some o -> resolves shell c o) /\
    (forall r, r ∈ data v ->
       cl_owner v !! r_from r = Some (r_from_owner r) /\
       cl_owner v !! r_to r = Some (r_to_owner r)))).
  { split.
    { intros c o H. change (cl_owner init_vars) with (∅ : gmap Z string) in H.
      by rewrite lookup_empty in H. }
    intros r Hr. by apply elem_of_nil in Hr. }
  clear. intros _ line v w v' w' [Hres Hrec] Hstep.
  apply process_line_ok in Hstep
    as (g1 & g2 & g3 & fo & to & m1 & w1 & _ & H1 & H2 & _ & _ & Hv').
  cbn zeta in Hv'. destruct Hv' as (-> & _).
  assert (Hm1 : (forall c o, m1 !! c = Some o -> resolves shell c o) /\
                (forall c o, cl_owner v !! c = Some o -> m1 !! c = Some o) /\
                m1 !! Py.int g1 = Some fo).
  { unfold get_cl_owner in H1.
    destruct (cl_owner v !! Py.int g1) as [o|] eqn:E.
    - injection H1 as <- <- <-. done.
    - apply bind_ok_inv in H1 as (o & w2 & Hget & [= <- <- <-]).
      apply get_owner_resolves in Hget. repeat split.
      + intros c o'. destruct (decide (c = Py.int g1)) as [->|Hne].
        * rewrite lookup_insert_eq. by intros [= <-].
        * rewrite lookup_insert_ne by done. apply Hres.
      + intros c o' Hc. rewrite lookup_insert_ne; [done|]. congruence.
      + apply lookup_insert_eq. }
  destruct Hm1 as (Hres1 & Hsub1 & Hfo).
  assert (Hm2 : (forall c o, cl_owner v' !! c = Some o -> resolves shell c o) /\
                (forall c o, m1 !! c = Some o -> cl_owner v' !! c = Some o) /\
                cl_owner v' !! Py.int g2 = Some to).
  { unfold get_cl_owner in H2.
    destruct (m1 !! Py.int g2) as [o|] eqn:E.
    - injection H2 as <- <- <-. done.
    - apply bind_ok_inv in H2 as (o & w2 & Hget & [= <- <- <-]).
      apply get_owner_resolves in Hget. repeat split.
      + intros c o'. destruct (decide (c = Py.int g2)) as [->|Hne].
        * rewrite lookup_insert_eq. by intros [= <-].
        * rewrite lookup_insert_ne by done. apply Hres1.
      + intros c o' Hc. rewrite lookup_insert_ne; [done|]. congruence.
      + apply lookup_insert_eq. }
  destruct Hm2 as (Hres2 & Hsub2 & Hto).
  split; [done|]. intros r Hr.
  apply elem_of_app in Hr as [Hr|Hr].
  - destruct (Hrec r Hr). split; by apply Hsub2, Hsub1.
  - apply list_elem_of_singleton in Hr as ->. cbn. split; [|done].
    by apply Hsub2.
Qed.

(** X7: the owners that the records show are those of the lookups:
    the owner shown for a change list is the name found in the first
    matching line of the output of its lookup command, a name that is
    not empty and has no [@]; and two records, or the two ends of one
    record, show the same owner for the same change list. *)
Theorem records_show_lookup_owners ifn latest body w v w' :
  first_loop log10_digits shell ifn latest body w = (Ok v, w') ->
  (forall r c o, r ∈ data v -> (c, o) ∈ shown_owners r ->
     resolves shell c o /\ run_of Re.not_at o) /\
  (forall r1 r2 c o1 o2, r1 ∈ data v -> r2 ∈ data v ->
     (c, o1) ∈ shown_owners r1 -> (c, o2) ∈ shown_owners r2 -> o1 = o2).
Proof.
  intros Hrun.
  destruct (first_loop_owners _ _ _ _ _ _ Hrun) as [Hres Hrec].
  assert (Hshown : forall r c o, r ∈ data v -> (c, o) ∈ shown_owners r ->
                                 resolves shell c o).
  { intros r c o Hr Hc. destruct (Hrec r Hr) as [Hf Ht].
    unfold shown_owners in Hc. rewrite !elem_of_cons, elem_of_nil in Hc.
    destruct Hc as [[= -> ->] | [[= -> ->] | []]]; by apply Hres. }
  split.
  - intros r c o Hr Hc. split; [by eapply Hshown|].
    by eapply resolves_name, Hshown.
  - intros r1 r2 c o1 o2 Hr1 Hr2 H1 H2.
    apply (resolves_inj c); [by apply (Hshown r1) | by apply (Hshown r2)].
Qed.

End Records.

(** ** The layout of the report *)

Section Layout.

Variable log10_digits : Z -> Z.
Variable shell : string -> Z * string.

Lemma ilog10_acc_nonneg f n : 0 <= Py.ilog10_acc f n.
Proof.
  revert n. induction f as [|f IH]; intros n; cbn; [done|].
  destruct (n <? 10); [done|]. specialize (IH (n / 10)). lia.
Qed.

Lemma exact_digits_pos n : 1 <= exact_digits n.
Proof.
  unfold exact_digits, Py.ilog10.
  pose proof (ilog10_acc_nonneg (Py.digit_fuel n) n). lia.
Qed.

(** A larger number has no fewer digits. *)
Lemma exact_digits_mono a b : 1 <= a <= b -> exact_digits a <= exact_digits b.
Proof.
  intros Hab. unfold exact_digits.
  pose proof (ilog10_spec a ltac:(lia)) as [Ha _].
  pose proof (ilog10_spec b ltac:(lia)) as [_ Hb].
  pose proof (exact_digits_pos a) as Pa. pose proof (exact_digits_pos b) as Pb.
  unfold exact_digits in Pa, Pb.
  destruct (Z.le_gt_cases (Py.ilog10 a) (Py.ilog10 b)) as [?|Hgt]; [lia|].
  exfalso.
  assert (10 ^ (Py.ilog10 b + 1) <= 10 ^ Py.ilog10 a)
    by (apply Z.pow_le_mono_r; lia).
  lia.
Qed.

Lemma rjust_spec (w : Z) (s : string) :
  Py.len s <= w -> Py.len (Py.rjust w s) = w.
Proof.
  intros Hle. pose proof (len_nonneg s). unfold Py.rjust.
  destruct (w <? 0) eqn:E; [apply Z.ltb_lt in E; lia|].
  rewrite len_app, len_spaces. lia.
Qed.

(** The running maxima bound the digits and the owners of every
    record, whose change lists are positive. *)
Lemma first_loop_widths ifn latest body w v w' :
  (forall n, 1 <= n -> exact_digits n <= log10_digits n) ->
  first_loop log10_digits shell ifn latest body w = (Ok v, w') ->
  forall r, r ∈ data v ->
    1 <= r_from r /\ 1 <= r_to r /\
    exact_digits (r_from r) <= cl_from_max_digits v /\
    exact_digits (r_to r) <= cl_to_max_digits v /\
    Py.len (r_from_owner r) <= cl_from_owner_max_len v /\
    Py.len (r_to_owner r) <= cl_to_owner_max_len v.
Proof.
  intros Hlog.
  apply (for_each_inv (fun _ v _ =>
    forall r, r ∈ data v ->
      1 <= r_from r /\ 1 <= r_to r /\
      exact_digits (r_from r) <= cl_from_max_digits v /\
      exact_digits (r_to r) <= cl_to_max_digits v /\
      Py.len (r_from_owner r) <= cl_from_owner_max_len v /\
      Py.len (r_to_owner r) <= cl_to_owner_max_len v)).
  { intros r Hr. by apply elem_of_nil in Hr. }
  clear -Hlog. intros _ line v w v' w' IH Hstep.
  apply process_line_ok in Hstep
    as (g1 & g2 & g3 & fo & to & m1 & w1 & _ & _ & _ & H1 & H2 & Hv').
  cbn zeta in Hv'. destruct Hv' as (-> & -> & -> & -> & -> & _).
  pose proof (Hlog _ H1) as Hl1. pose proof (Hlog _ H2) as Hl2.
  intros r H. apply elem_of_app in H as [H|H].
  - destruct (IH _ H) as (? & ? & ? & ? & ? & ?). lia.
  - apply list_elem_of_singleton in H as ->.
    cbn [r_from r_to r_from_owner r_to_owner]. lia.
Qed.

Lemma len_clr_fits (v : loop_vars) (r : record) :
  1 <= r_from r -> 1 <= r_to r ->
  exact_digits (r_from r) <= cl_from_max_digits v ->
  exact_digits (r_to r) <= cl_to_max_digits v ->
  Py.len (r_from_owner r) <= cl_from_owner_max_len v ->
  Py.len (r_to_owner r) <= cl_to_owner_max_len v ->
  Py.len (clr r) <= clr_len v.
Proof.
  unfold exact_digits. intros H1 H2 H3 H4 H5 H6.
  assert (Hf : Py.len (frec r)
               = Py.ilog10 (r_from r) + 1 + 1 + Py.len (r_from_owner r)).
  { unfold frec. rewrite !len_app, len_str by lia.
    change (Py.len "@") with 1. lia. }
  assert (Ht : Py.len (trec r)
               = Py.ilog10 (r_to r) + 1 + 1 + Py.len (r_to_owner r)).
  { unfold trec. rewrite !len_app, len_str by lia.
    change (Py.len "@") with 1. lia. }
  pose proof (len_nonneg (r_to_owner r)).
  pose proof (exact_digits_pos (r_to r)) as Hp. unfold exact_digits in Hp.
  unfold clr, clr_len. destruct (decide (r_type r = present)); [lia|].
  rewrite !len_app. change (Py.len " ... ") with 5. lia.
Qed.

(** The line numbers of the present records are between 1 and the
    final [lineno]. *)
Lemma first_loop_linenos ifn latest body w v w' :
  first_loop log10_digits shell ifn latest body w = (Ok v, w') ->
  0 <= lineno v /\
  forall r, r ∈ data v ->
    (r_type r = present -> 1 <= r_lineno r <= lineno v) /\
    Py.len (r_sep r) = 1.
Proof.
  apply (for_each_inv (fun _ v _ =>
    0 <= lineno v /\
    forall r, r ∈ data v ->
      (r_type r = present -> 1 <= r_lineno r <= lineno v) /\
      Py.len (r_sep r) = 1)).
  { split; [done|]. intros r Hr. by apply elem_of_nil in Hr. }
  clear. intros _ line v w v' w' [Hpos IH] Hstep.
  apply process_line_ok in Hstep
    as (g1 & g2 & g3 & fo & to & m1 & w1 & _ & _ & _ & _ & _ & Hv').
  cbn zeta in Hv'. destruct Hv' as (-> & _ & _ & _ & _ & ->).
  split; [destruct (is_present _ _ _); lia|].
  intros r H. apply elem_of_app in H as [H|H].
  - destruct (IH _ H) as [Hn Hs]. split; [|done].
    intros Hp. specialize (Hn Hp). destruct (is_present _ _ _); lia.
  - apply list_elem_of_singleton in H as ->. cbn.
    destruct (is_present _ _ _); split; try done. intros _. lia.
Qed.

(** X8: the report is aligned.  When [math.log10] never gives a
    positive integer fewer digits than it has, every record line of
    the report is made of columns of the same total width for all the
    records, then the separator, which is one character, a space and
    the text: the separators are one above the other, and so are the
    first characters of the texts. *)
Theorem report_is_aligned ifn latest body w v w' :
  (forall n, 1 <= n -> exact_digits n <= log10_digits n) ->
  first_loop log10_digits shell ifn latest body w = (Ok v, w') ->
  1 <= lineno v ->
  forall r, r ∈ data v ->
    exists cols,
      render (log10_digits (lineno v)) (clr_len v) r
      = cols +:+ r_sep r +:+ " " +:+ r_text r /\
      Py.len cols = log10_digits (lineno v) + clr_len v + 2 /\
      Py.len (r_sep r) = 1.
Proof.
  intros Hlog Hrun Hn r Hr.
  destruct (first_loop_widths _ _ _ _ _ _ Hlog Hrun r Hr)
    as (H1 & H2 & H3 & H4 & H5 & H6).
  destruct (first_loop_linenos _ _ _ _ _ _ Hrun) as [_ Hl].
  destruct (Hl r Hr) as [Hno Hsep].
  pose proof (len_clr_fits v r H1 H2 H3 H4 H5 H6) as Hclr.
  pose proof (Hlog _ Hn) as Hd.
  assert (Hlnum : Py.len (lnum (log10_digits (lineno v)) r)
                  = log10_digits (lineno v)).
  { unfold lnum. destruct (decide (r_type r = present)) as [Hp|Hp].
    - apply rjust_spec. specialize (Hno Hp).
      rewrite len_str by lia. fold (exact_digits (r_lineno r)).
      pose proof (exact_digits_mono (r_lineno r) (lineno v) Hno). lia.
    - apply rjust_spec. change (Py.len "-") with 1.
      pose proof (exact_digits_pos (lineno v)). lia. }
  exists (lnum (log10_digits (lineno v)) r +:+ " "
          +:+ Py.ljust (clr_len v) (clr r) +:+ " ").
  split; [unfold render; by rewrite !str_app_assoc|].
  split; [|done].
  destruct (ljust_spec (clr_len v) (clr r) Hclr) as [Hlj _].
  rewrite !len_app, Hlnum, Hlj. change (Py.len " ") with 1. lia.
Qed.

End Layout.

(** ** Well-formed input *)

Section WellFormed.

Variable VERBOSE : Z.
Variable log10_digits : Z -> Z.
Variable shell : string -> Z * string.

(** A request for a change list whose lookup gives an owner ends
    normally, whatever the dictionary. *)
Lemma get_cl_owner_succeeds c o (m : gmap Z string) w :
  resolves shell c o ->
  exists o' m' w', get_cl_owner shell c m w = (Ok (o', m'), w').
Proof.
  intros (out & Hsh & Hfirst). unfold get_cl_owner.
  destruct (m !! c) as [o'|]; [by eexists _, _, _|].
  eexists o, _, _. erewrite bind_ok; [reflexivity|].
  rewrite (get_owner_eq _ _ _ _ Hsh), Hfirst. by rewrite Z.eqb_refl.
Qed.

Lemma process_line_succeeds ifn latest v line w :
  good_line shell line ->
  exists v' w', process_line log10_digits shell ifn latest v line w
                = (Ok v', w').
Proof.
  intros (g1 & g2 & g3 & o1 & o2 & Hm & H1 & H2 & R1 & R2).
  unfold process_line. cbn zeta. rewrite Hm.
  destruct (get_cl_owner_succeeds _ _ (cl_owner v) w R1)
    as (fo & m1 & w1 & Hfo).
  destruct (get_cl_owner_succeeds _ _ m1 w1 R2) as (to & m2 & w2 & Hto).
  rewrite (bind_ok _ _ _ _ _ Hfo), (bind_ok _ _ _ _ _ Hto).
  assert (Hd : forall n w, 1 <= n ->
                 log10_plus_1 log10_digits n w = (Ok (log10_digits n), w)).
  { intros n w3 Hn. unfold log10_plus_1.
    destruct (n <=? 0) eqn:E; [apply Z.leb_le in E; lia | done]. }
  destruct (_ || _);
    rewrite (bind_ok _ _ _ _ _ (Hd _ _ H2)), (bind_ok _ _ _ _ _ (Hd _ _ H1));
    by eexists _, _.
Qed.

Lemma for_each_lines_succeed ifn latest body v w :
  Forall (good_line shell) body ->
  exists v' w', for_each (process_line log10_digits shell ifn latest) body v w
                = (Ok v', w').
Proof.
  intros Hbody. revert v w.
  induction Hbody as [|line body Hline _ IH]; intros v w.
  - by eexists _, _.
  - destruct (process_line_succeeds ifn latest v line w Hline)
      as (v1 & w1 & H1).
    destruct (IH v1 w1) as (v' & w' & H').
    exists v', w'. cbn [for_each]. by rewrite (bind_ok _ _ _ _ _ H1).
Qed.

(** The loop adds commands to those that were run. *)
Lemma one_command_log ifn latest body w v w' :
  first_loop log10_digits shell ifn latest body w = (Ok v, w') ->
  exists cmds, commands w' = commands w ++ cmds.
Proof.
  intros Hrun.
  assert (Hinit : lookups_of w [] (cl_owner init_vars) w).
  { repeat split; cbn.
    - by rewrite app_nil_r.
    - apply NoDup_nil_2.
    - intros Hc. by apply elem_of_nil in Hc.
    - intros [x Hx]. by rewrite lookup_empty in Hx. }
  destruct (for_each_lookups _ _ _ _ _ _ _ _ _ _ _ Hinit Hrun)
    as (cls & [Hcmd _] & _).
  by eexists.
Qed.

(** A present line makes [lineno] positive. *)
Lemma present_line_lineno ifn latest body w v w' :
  first_loop log10_digits shell ifn latest body w = (Ok v, w') ->
  Exists (fun line => latest ∈ line_changes line) body ->
  1 <= lineno v.
Proof.
  intros Hrun Hex.
  pose proof (first_loop_records _ _ _ _ _ _ _ _ Hrun) as HF.
  rewrite <- (lineno_counts_present _ _ _ _ _ _ _ _ Hrun).
  apply Exists_exists in Hex as (line & Hin & Hlatest).
  apply list_elem_of_lookup in Hin as [i Hi].
  destruct (Forall2_lookup_l _ _ _ _ _ HF Hi)
    as (r & Hr & g1 & g2 & Hm & Hf & Ht & Hty & _).
  assert (Hp : r_type r = present).
  { rewrite Hty. unfold line_changes in Hlatest. rewrite Hm in Hlatest.
    rewrite <- Hf, <- Ht in Hlatest.
    rewrite !elem_of_cons, elem_of_nil in Hlatest. unfold is_present.
    destruct Hlatest as [->|[->|[]]]; rewrite Z.eqb_refl; [done|].
    by rewrite orb_true_r. }
  assert (Hin : r ∈ filter (fun r => r_type r = present) (data v)).
  { apply list_elem_of_filter. split; [done|].
    by eapply list_elem_of_lookup_2. }
  destruct (filter _ (data v)); [by apply elem_of_nil in Hin|]. cbn. lia.
Qed.

(** X9: [process] succeeds on well-formed input.  When the
    annotation command succeeds and its output is a header with
    [info:] and the latest change list, text lines and a last line
    with [exit:]; when every text line is recognized, with positive
    change lists whose lookups give an owner; and when a text line
    names the latest change list: the run ends normally, and after
    the informational messages it has written the header, one line
    for each text line and the header again. *)
Theorem process_succeeds ifn out header body t g w :
  shell (annotate_cmd ifn) = (0, out) ->
  Py.split Py.NL out = header :: body ++ [t] ->
  0 <= Py.find header "info:" ->
  0 <= Py.find t "exit:" ->
  Re.search Re.change_at header = Some g ->
  Forall (good_line shell) body ->
  Exists (fun line => Py.int g ∈ line_changes line) body ->
  exists lines cmds,
    process VERBOSE log10_digits shell ifn w
    = (Ok tt,
       World (stdout (informed VERBOSE
                        ["file: " +:+ ifn;
                         "num lines = "
                         +:+ Py.str (Z.of_nat (length (header :: body ++ [t])));
                         "latest change list: " +:+ Py.str (Py.int g)] w)
                ++ [Print (Py.strip header)] ++ (Print <$> lines)
                ++ [Print (Py.strip header)])
         (commands w ++ annotate_cmd ifn :: cmds)) /\
    length lines = length body.
Proof.
  intros Hsh Hsplit Hinfo Ht Hg Hgood Hex.
  rewrite (process_to_find_last _ _ _ _ _ _ _ _ Hsh Hsplit Hinfo).
  rewrite (bind_ok _ _ _ _ _ (find_last_last ifn (header :: body) t _ Ht)).
  rewrite Hg, (bind_ok _ _ _ (Py.int g) _ eq_refl).
  rewrite (bind_ok _ _ _ _ _ (vinfo_informed _ _ _ _)).
  rewrite slice_to_last.
  set (w1 := informed VERBOSE _ _).
  destruct (for_each_lines_succeed ifn (Py.int g) body init_vars w1 Hgood)
    as (v & w2 & Hrun).
  fold (first_loop log10_digits shell ifn (Py.int g) body w1) in Hrun.
  pose proof (present_line_lineno _ _ _ _ _ _ Hrun Hex) as Hn.
  rewrite (process_records_ok _ _ _ _ _ _ _ _ _ Hrun Hn).
  pose proof (first_loop_stdout _ _ _ _ _ _ _ _ Hrun) as Hout.
  destruct (one_command_log ifn (Py.int g) body w1 v w2 Hrun) as [cmds Hcmds].
  exists (render (log10_digits (lineno v)) (clr_len v) <$> data v), cmds.
  split.
  - f_equal. f_equal.
    + rewrite Hout. subst w1. unfold informed.
      destruct (VERBOSE =? 0); cbn; by rewrite <- list_fmap_compose.
    + rewrite Hcmds. subst w1. unfold informed.
      destruct (VERBOSE =? 0); cbn; by rewrite <- (assoc_L (++)).
  - rewrite length_fmap.
    symmetry. eapply Forall2_length, first_loop_records, Hrun.
Qed.

End WellFormed.

(** ** The number in the lookup command and in its output *)

Section OwnNumber.

Variable shell : string -> Z * string.

Lemma isdigit_digit_char (d : Z) :
  0 <= d < 10 -> Py.isdigit (Py.digit_char d) = true.
Proof.
  intros Hd. unfold Py.isdigit, Py.digit_char.
  rewrite nat_ascii_embedding by lia.
  apply andb_true_iff. split; apply Nat.leb_le; lia.
Qed.

Lemma digits_acc_digits (f : nat) (n : Z) (acc : string) :
  0 <= n -> all_of Py.isdigit acc = true ->
  all_of Py.isdigit (Py.digits_acc f n acc) = true.
Proof.
  revert n acc. induction f as [|f IH]; intros n acc Hn Hacc; [done|].
  cbn [Py.digits_acc].
  assert (Hacc' : all_of Py.isdigit (String (Py.digit_char (n mod 10)) acc)
                  = true).
  { cbn. rewrite Hacc, isdigit_digit_char; [done|].
    apply Z.mod_pos_bound. lia. }
  destruct (n <? 10); [done|].
  apply IH; [apply Z.div_pos; lia | done].
Qed.

(** [str] writes a natural number as a non-empty string of digits. *)
Lemma str_digits (n : Z) : 0 <= n -> run_of Py.isdigit (Py.str n).
Proof.
  intros Hn. split.
  - intros Hs. pose proof (len_str n Hn) as Hl. rewrite Hs in Hl.
    pose proof (exact_digits_pos n) as Hp. unfold exact_digits in Hp.
    change (Py.len "") with 0 in Hl. lia.
  - unfold Py.str. destruct (n <? 0) eqn:E; [apply Z.ltb_lt in E; lia|].
    by apply digits_acc_digits.
Qed.

(** [re.search] returns the match at the start of the subject when
    there is one. *)
Lemma search_here {G} (m : string -> option G) s g :
  m s = Some g -> Re.search m s = Some g.
Proof. intros H. destruct s; cbn; by rewrite H. Qed.

(** X10: [get_owner] accepts an output whose first line starts with
    [Change N by owner@], where [N] is the requested change list
    written as the script writes it in the lookup command, and
    returns that owner: the number that [str] writes is read back by
    [int]. *)
Theorem get_owner_accepts_own_number cln o post more out w :
  0 <= cln -> run_of Re.not_at o ->
  shell (describe_cmd cln) = (0, out) ->
  Py.split Py.NL out
  = ("Change " +:+ Py.str cln +:+ " by " +:+ o +:+ "@" +:+ post) :: more ->
  get_owner shell cln w = (Ok o, ran (describe_cmd cln) w).
Proof.
  intros Hn Ho Hsh Hsplit.
  rewrite (get_owner_eq _ _ _ _ Hsh), Hsplit. cbn [first_change_by].
  rewrite (search_here _ _ (Py.str cln, o)).
  - by rewrite int_str, Z.eqb_refl.
  - apply change_by_at_complete; [by apply str_digits | done].
Qed.

End OwnNumber.

(** ** Exceptions *)

Section Exceptions.

Variable VERBOSE : Z.
Variable log10_digits : Z -> Z.
Variable shell : string -> Z * string.

Lemma raises_only_ret {A} E (a : A) : raises_only E (mret a).
Proof. by intros w r w' [= <- <-] e. Qed.

Lemma raises_only_raise {A} (E : exn -> Prop) e :
  E e -> raises_only E (raise (A:=A) e).
Proof. intros He w r w' H e' ->. by injection H as <- _. Qed.

Lemma raises_only_emit E e : raises_only E (emit e).
Proof. by intros w r w' [= <- <-] e'. Qed.

Lemma raises_only_bind {A B} E (m : M A) (k : A -> M B) :
  raises_only E m -> (forall a, raises_only E (k a)) ->
  raises_only E (m ≫= k).
Proof.
  intros Hm Hk w r w'. unfold mbind, M_bind.
  destruct (m w) as [[a|e] w1] eqn:Hw.
  - apply Hk.
  - intros H e' ->. injection H as <- _. by apply (Hm _ _ _ Hw).
Qed.

Lemma raises_only_for_each {A S} E (body : S -> A -> M S) l s :
  (forall s x, raises_only E (body s x)) -> raises_only E (for_each body l s).
Proof.
  intros Hb. revert s. induction l as [|x l IH]; intros s; cbn.
  - apply raises_only_ret.
  - apply raises_only_bind; [apply Hb | apply IH].
Qed.

Lemma not_index_err {A} msg : raises_only not_index (err (A:=A) msg).
Proof.
  unfold err. apply raises_only_bind; [apply raises_only_emit|].
  intros _. by apply raises_only_raise.
Qed.

Lemma not_index_vinfo msg : raises_only not_index (vinfo VERBOSE msg).
Proof.
  unfold vinfo. destruct (VERBOSE =? 0);
    [apply raises_only_ret | apply raises_only_emit].
Qed.

Lemma not_index_log10 n : raises_only not_index (log10_plus_1 log10_digits n).
Proof.
  unfold log10_plus_1. destruct (n <=? 0);
    [by apply raises_only_raise | apply raises_only_ret].
Qed.

Lemma not_index_system cmd : raises_only not_index (system shell cmd).
Proof.
  unfold system. apply raises_only_bind.
  - by intros w r w' [= <- <-] e.
  - intros [ret out]. apply raises_only_bind; [|intros; apply raises_only_ret].
    destruct (negb (ret =? 0)); [apply not_index_err | apply raises_only_ret].
Qed.

Lemma not_index_get_cl_owner cln m :
  raises_only not_index (get_cl_owner shell cln m).
Proof.
  unfold get_cl_owner. destruct (m !! cln); [apply raises_only_ret|].
  apply raises_only_bind; [|intros; apply raises_only_ret].
  unfold get_owner. cbn zeta.
  apply raises_only_bind; [apply not_index_system|]. intros [ret out].
  destruct (first_change_by (Py.split Py.NL out)) as [change owner].
  apply raises_only_bind.
  - destruct (negb (change =? cln));
      [apply not_index_err | apply raises_only_ret].
  - intros _. destruct owner; [apply raises_only_ret | apply not_index_err].
Qed.

Lemma not_index_process_records ifn header latest body :
  raises_only not_index
    (process_records log10_digits shell ifn header latest body).
Proof.
  unfold process_records, first_loop. apply raises_only_bind.
  - apply raises_only_for_each. intros v line.
    unfold process_line. cbn zeta.
    destruct (Re.search Re.text_at (Py.strip line)) as [[[g1 g2] g3]|];
      [|apply not_index_err].
    apply raises_only_bind; [apply not_index_get_cl_owner|]. intros [fo m1].
    apply raises_only_bind; [apply not_index_get_cl_owner|]. intros [to m2].
    destruct (_ || _);
      (apply raises_only_bind; [apply not_index_log10|]; intros d2;
       apply raises_only_bind; [apply not_index_log10|]; intros d1;
       apply raises_only_ret).
  - intros v. unfold report.
    apply raises_only_bind; [apply raises_only_emit|]. intros _.
    apply raises_only_bind; [apply not_index_log10|]. intros d.
    apply raises_only_bind; [|intros; apply raises_only_emit].
    apply raises_only_for_each. intros; apply raises_only_emit.
Qed.

(** What follows the search for the terminator in [process]. *)
Lemma not_index_after_find_last ifn header lines last :
  raises_only not_index
    (latest ← match Re.search Re.change_at header with
              | Some g1 => mret (Py.int g1)
              | None =>
                  err ("cannot find the latest change list number for "
                       +:+ ifn +:+ String Py.NL (String Py.TAB header))
              end;
     vinfo VERBOSE ("latest change list: " +:+ Py.str latest);;
     process_records log10_digits shell ifn header latest
       (Py.slice lines 1 last)).
Proof.
  apply raises_only_bind.
  { destruct (Re.search Re.change_at header);
      [apply raises_only_ret | apply not_index_err]. }
  intros latest. apply raises_only_bind; [apply not_index_vinfo|].
  intros _. apply not_index_process_records.
Qed.

(** The lines of an output are never none. *)
Lemma split_cons sep s : exists l ls, Py.split sep s = l :: ls.
Proof.
  induction s as [|c s (l & ls & IH)]; [by eexists _, _|]. cbn.
  destruct (Ascii.eqb c sep); [by eexists _, _|].
  rewrite IH. by eexists _, _.
Qed.

(** A list of two elements or more ends with two elements. *)
Lemma exists_last_two {A} (a b : A) l :
  exists pre t x, a :: b :: l = pre ++ [t; x].
Proof.
  revert a b. induction l as [|c l IH]; intros a b.
  - by exists [], a, b.
  - destruct (IH b c) as (pre & t & x & ->). by exists (a :: pre), t, x.
Qed.

(** The search for the terminator ends with [IndexError] for one
    line without [exit:], and for nothing else. *)
Lemma find_last_index_error ifn l ls w r w' :
  find_last ifn (l :: ls) w = (r, w') ->
  r = Raise IndexError <-> ls = [] /\ Py.find l "exit:" < 0.
Proof.
  destruct ls as [|l2 ls].
  - unfold find_last, item.
    change (Py.getitem [l] (-1)) with (Some l).
    change (Py.getitem [l] (-2)) with (@None string).
    unfold mbind, M_bind, mret, M_ret, raise.
    destruct (Py.find l "exit:" <? 0) eqn:E; intros [= <- <-].
    + apply Z.ltb_lt in E. done.
    + apply Z.ltb_ge in E. split; [done|]. intros [_ ?]. lia.
  - destruct (exists_last_two l l2 ls) as (pre & t & x & ->).
    destruct (Z.lt_ge_cases (Py.find x "exit:") 0) as [Hx|Hx].
    + destruct (Z.lt_ge_cases (Py.find t "exit:") 0) as [Ht|Ht].
      * rewrite find_last_missing by done. intros [= <- <-].
        split; [done|]. intros [Hnil _].
        by destruct pre as [|? [|? ?]].
      * rewrite find_last_before_last by lia. intros [= <- <-].
        split; [done|]. intros [Hnil _].
        by destruct pre as [|? [|? ?]].
    + replace (pre ++ [t; x]) with ((pre ++ [t]) ++ [x])
        by (by rewrite <- (assoc_L (++))).
      rewrite find_last_last by lia. intros [= <- <-].
      split; [done|]. intros [Hnil _].
      by destruct pre as [|? [|? ?]].
Qed.

(** X11: [process] ends with [IndexError] in one case only: the
    annotation command succeeds and its output is a single line (it
    has no newline) that has [info:] and has no [exit:]; the script
    then looks for the line before the last, which does not exist. *)
Theorem index_error_iff_single_line ifn w :
  (exists w', process VERBOSE log10_digits shell ifn w
              = (Raise IndexError, w')) <->
  (exists out line,
      shell (annotate_cmd ifn) = (0, out) /\
      Py.split Py.NL out = [line] /\
      0 <= Py.find line "info:" /\ Py.find line "exit:" < 0).
Proof.
  split.
  - intros [w' Hrun].
    destruct (shell (annotate_cmd ifn)) as [ret out] eqn:Hsh.
    destruct (Z.eq_dec ret 0) as [->|Hret].
    2:{ by rewrite (annotate_failure _ _ _ _ _ _ _ Hsh Hret) in Hrun. }
    destruct (split_cons Py.NL out) as (header & rest & Hsplit).
    destruct (Z.lt_ge_cases (Py.find header "info:") 0) as [Hinfo|Hinfo].
    { by rewrite (missing_header _ _ _ _ _ _ _ _ Hsh Hsplit Hinfo) in Hrun. }
    rewrite (process_to_find_last _ _ _ _ _ _ _ _ Hsh Hsplit Hinfo) in Hrun.
    apply bind_raise_inv in Hrun as [Hfind|(last & w1 & Hfind & Hrest)].
    + pose proof (find_last_index_error _ _ _ _ _ _ Hfind) as [Hr _].
      destruct (Hr eq_refl) as [-> Hexit]. by exists out, header.
    + by destruct (not_index_after_find_last _ _ _ _ _ _ _ Hrest
                     IndexError eq_refl).
  - intros (out & line & Hsh & Hsplit & Hinfo & Hexit).
    rewrite (process_to_find_last _ _ _ _ _ _ _ _ Hsh Hsplit Hinfo).
    set (w1 := informed _ _ _).
    destruct (find_last ifn [line] w1) as [r w2] eqn:Hfind.
    pose proof (find_last_index_error _ _ _ _ _ _ Hfind) as [_ Hr].
    rewrite (Hr (conj eq_refl Hexit)) in Hfind.
    exists w2. by rewrite (bind_raise _ _ _ _ _ Hfind).
Qed.

(** X12: the errors that [process] finds before the text lines, in
    the order of its checks: the annotation command that fails, the
    first line without [info:], the header without the latest change
    list (when there is a terminator).  Each ends the run with its
    own message and the exit status 1, and no lookup has been run. *)
Theorem errors_before_the_text_lines ifn w :
  let cmd := annotate_cmd ifn in
  let w1 n :=
    informed VERBOSE
      ["file: " +:+ ifn; "num lines = " +:+ Py.str (Z.of_nat n)]
      (ran cmd w) in
  (forall ret out,
      shell cmd = (ret, out) -> ret <> 0 ->
      process VERBOSE log10_digits shell ifn w
      = failed ("command failed: " +:+ String Py.DQUOTE cmd
                +:+ String Py.DQUOTE "") (ran cmd w)) /\
  (forall out header rest,
      shell cmd = (0, out) -> Py.split Py.NL out = header :: rest ->
      Py.find header "info:" < 0 ->
      process VERBOSE log10_digits shell ifn w
      = failed ("cannot find info: record in " +:+ ifn)
          (w1 (length (header :: rest)))) /\
  (forall out header body t,
      shell cmd = (0, out) -> Py.split Py.NL out = header :: body ++ [t] ->
      0 <= Py.find header "info:" -> 0 <= Py.find t "exit:" ->
      Re.search Re.change_at header = None ->
      process VERBOSE log10_digits shell ifn w
      = failed ("cannot find the latest change list number for " +:+ ifn
                +:+ String Py.NL (String Py.TAB header))
          (w1 (length (header :: body ++ [t])))) /\
  (forall n msg,
      commands (snd (failed (A:=unit) msg (w1 n))) = commands w ++ [cmd]).
Proof.
  intros cmd w1. repeat apply conj.
  - intros ret out Hsh Hret. by apply (annotate_failure _ _ _ _ ret out).
  - intros out header rest Hsh Hsplit Hinfo.
    by apply (missing_header _ _ _ _ out).
  - intros out header body t Hsh Hsplit Hinfo Ht Hg.
    rewrite (process_to_find_last _ _ _ _ _ _ _ _ Hsh Hsplit Hinfo).
    rewrite (bind_ok _ _ _ _ _ (find_last_last ifn (header :: body) t _ Ht)).
    rewrite Hg. erewrite bind_raise; [reflexivity|]. by rewrite err_eq.
  - intros n msg. subst w1. cbn. unfold informed.
    by destruct (VERBOSE =? 0).
Qed.

(** X13: the first text line that fails ends the run.  After text
    lines that were recorded: a line that the pattern does not
    recognize, a line whose first lookup command fails, and a line
    whose first lookup has the pattern in no line of its output each
    end the run with their own message; nothing has been printed, and
    the lines after it are not looked at. *)
Theorem first_bad_line_ends_the_run ifn header latest pre line post w v w1 :
  first_loop log10_digits shell ifn latest pre w = (Ok v, w1) ->
  let run :=
    process_records log10_digits shell ifn header latest
      (pre ++ line :: post) w in
  stdout w1 = stdout w /\
  (Re.search Re.text_at (Py.strip line) = None ->
   run = failed ("unrecognized line in " +:+ ifn
                 +:+ String Py.NL (String Py.TAB (Py.strip line))) w1) /\
  (forall g1 g2 g3 ret out,
      Re.search Re.text_at (Py.strip line) = Some (g1, g2, g3) ->
      cl_owner v !! Py.int g1 = None ->
      shell (describe_cmd (Py.int g1)) = (ret, out) -> ret <> 0 ->
      run = failed ("command failed: "
                    +:+ String Py.DQUOTE (describe_cmd (Py.int g1))
                    +:+ String Py.DQUOTE "")
              (ran (describe_cmd (Py.int g1)) w1)) /\
  (forall g1 g2 g3 out,
      Re.search Re.text_at (Py.strip line) = Some (g1, g2, g3) ->
      cl_owner v !! Py.int g1 = None ->
      shell (describe_cmd (Py.int g1)) = (0, out) ->
      (forall l, l ∈ Py.split Py.NL out ->
                 Re.search Re.change_by_at l = None) ->
      run = failed ("p4 describe record not found for "
                    +:+ Py.str (Py.int g1))
              (ran (describe_cmd (Py.int g1)) w1)).
Proof.
  intros Hpre run. split; [by eapply first_loop_stdout|].
  split; [intros Hline; by eapply unrecognized_line|].
  split.
  - intros g1 g2 g3 ret out Hline Hm Hsh Hret. subst run.
    eapply lookup_failure; [exact Hpre|exact Hline|].
    left. unfold get_cl_owner. rewrite Hm.
    erewrite bind_raise; [reflexivity|]. unfold get_owner. cbn zeta.
    erewrite bind_raise; [reflexivity|]. by apply (system_failed _ _ ret out).
  - intros g1 g2 g3 out Hline Hm Hsh Hnone. subst run.
    eapply lookup_failure; [exact Hpre|exact Hline|].
    left. unfold get_cl_owner. rewrite Hm.
    erewrite bind_raise; [reflexivity|].
    by rewrite (get_owner_eq _ _ _ _ Hsh), (first_change_by_none _ Hnone).
Qed.

(** X14: a text line that names the change list 0 is recognized by
    the pattern, and its lookups are run, but [math.log10(0)] then
    raises [ValueError]: after text lines that were recorded, the
    loop ends with that exception and nothing has been printed. *)
Theorem zero_change_list_raises ifn latest pre line post w v w1 g1 g2 g3
  o1 o2 :
  first_loop log10_digits shell ifn latest pre w = (Ok v, w1) ->
  Re.search Re.text_at (Py.strip line) = Some (g1, g2, g3) ->
  resolves shell (Py.int g1) o1 -> resolves shell (Py.int g2) o2 ->
  Py.int g1 = 0 \/ Py.int g2 = 0 ->
  exists w2,
    first_loop log10_digits shell ifn latest (pre ++ line :: post) w
    = (Raise ValueError, w2) /\
    stdout w2 = stdout w.
Proof.
  intros Hpre Hline R1 R2 Hzero.
  pose proof (first_loop_stdout _ _ _ _ _ _ _ _ Hpre) as Hout.
  destruct (get_cl_owner_succeeds _ _ _ (cl_owner v) w1 R1)
    as (fo & m1 & w2 & Hfo).
  destruct (get_cl_owner_succeeds _ _ _ m1 w2 R2) as (to & m2 & w3 & Hto).
  exists w3. split.
  - unfold first_loop in *.
    rewrite for_each_app, (bind_ok _ _ _ _ _ Hpre). cbn [for_each].
    erewrite bind_raise; [reflexivity|].
    unfold process_line. cbn zeta. rewrite Hline.
    rewrite (bind_ok _ _ _ _ _ Hfo), (bind_ok _ _ _ _ _ Hto).
    destruct (Z.eq_dec (Py.int g2) 0) as [H2|H2].
    + destruct (_ || _); erewrite bind_raise; try reflexivity;
        unfold log10_plus_1; by rewrite H2.
    + destruct Hzero as [H1|?]; [|done].
      assert (Hd : forall w, log10_plus_1 log10_digits (Py.int g2) w
                             = (Ok (log10_digits (Py.int g2)), w)).
      { intros w4. unfold log10_plus_1.
        destruct (Py.int g2 <=? 0) eqn:E; [|done].
        apply Z.leb_le in E.
        apply search_sound in Hline as (p & t & _ & Ht).
        apply text_at_sound in Ht as (_ & _ & _ & _ & _ & [_ Hg2] & _).
        pose proof (int_nonneg _ Hg2). lia. }
      destruct (_ || _); rewrite (bind_ok _ _ _ _ _ (Hd _));
        erewrite bind_raise; try reflexivity;
        unfold log10_plus_1; by rewrite H1.
  - apply get_cl_owner_ok in Hfo as [(_ & _ & ->)|(_ & _ & ->)];
      apply get_cl_owner_ok in Hto as [(_ & _ & ->)|(_ & _ & ->)]; done.
Qed.

End Exceptions.

(** ** What a normal end says about the input *)

Section NormalEnd.

Variable VERBOSE : Z.
Variable log10_digits : Z -> Z.
Variable shell : string -> Z * string.

Lemma get_cl_owner_resolves c (m m' : gmap Z string) o w w' :
  (forall c o, m !! c = Some o -> resolves shell c o) ->
  get_cl_owner shell c m w = (Ok (o, m'), w') ->
  resolves shell c o /\ (forall c o, m' !! c = Some o -> resolves shell c o).
Proof.
  intros Hres H. unfold get_cl_owner in H.
  destruct (m !! c) as [o'|] eqn:E.
  - injection H as <- <- <-. split; [by apply Hres | done].
  - apply bind_ok_inv in H as (o' & w2 & Hget & [= <- <- <-]).
    apply get_owner_resolves in Hget. split; [done|].
    intros c' o''. destruct (decide (c' = c)) as [->|Hne].
    + rewrite lookup_insert_eq. by intros [= <-].
    + rewrite lookup_insert_ne by done. apply Hres.
Qed.

(** Every text line of a first loop that ends normally is recognized,
    with positive change lists whose lookups give an owner. *)
Lemma first_loop_good_lines ifn latest body w v w' :
  first_loop log10_digits shell ifn latest body w = (Ok v, w') ->
  Forall (good_line shell) body.
Proof.
  intros H.
  refine (proj2 (for_each_inv (fun done v _ =>
    (forall c o, cl_owner v !! c = Some o -> resolves shell c o) /\
    Forall (good_line shell) done) _ _ _ _ _ _ _ _ H)).
  { split; [|constructor].
    intros c o Hc. change (cl_owner init_vars) with (∅ : gmap Z string) in Hc.
    by rewrite lookup_empty in Hc. }
  clear. intros pre line v w v' w' [Hres Hgood] Hstep.
  apply process_line_ok in Hstep
    as (g1 & g2 & g3 & fo & to & m1 & w1 & Hm & H1 & H2 & Hp1 & Hp2 & _).
  destruct (get_cl_owner_resolves _ _ _ _ _ _ Hres H1) as [R1 Hres1].
  destruct (get_cl_owner_resolves _ _ _ _ _ _ Hres1 H2) as [R2 Hres2].
  split; [done|]. apply Forall_app. split; [done|].
  constructor; [|constructor]. by exists g1, g2, g3, fo, to.
Qed.

(** The counter of present lines has left 0 only when a text line
    names the latest change list. *)
Lemma lineno_needs_latest ifn latest body w v w' :
  first_loop log10_digits shell ifn latest body w = (Ok v, w') ->
  1 <= lineno v ->
  Exists (fun line => latest ∈ line_changes line) body.
Proof.
  intros Hrun Hn.
  pose proof (first_loop_records _ _ _ _ _ _ _ _ Hrun) as HF.
  rewrite <- (lineno_counts_present _ _ _ _ _ _ _ _ Hrun) in Hn.
  destruct (filter (fun r => r_type r = present) (data v)) as [|r rs] eqn:E;
    [cbn in Hn; lia|].
  assert (Hin : r ∈ filter (fun r => r_type r = present) (data v))
    by (rewrite E; left).
  apply list_elem_of_filter in Hin as [Hty Hin].
  apply list_elem_of_lookup in Hin as [i Hi].
  destruct (Forall2_lookup_r _ _ _ _ _ HF Hi)
    as (line & Hl & g1 & g2 & Hm & Hf & Ht & Hty' & _).
  apply Exists_exists. exists line.
  split; [by eapply list_elem_of_lookup_2|].
  unfold line_changes. rewrite Hm, <- Hf, <- Ht.
  rewrite Hty' in Hty. unfold is_present in Hty.
  destruct (r_from r =? latest) eqn:E1.
  { apply Z.eqb_eq in E1 as <-. left. }
  destruct (r_to r =? latest) eqn:E2; [|done].
  apply Z.eqb_eq in E2 as <-. right. left.
Qed.

(** When the search for the terminator returns, it has found [exit:]
    in the last line, or in the line before it and not in the last. *)
Lemma find_last_ok_inv ifn lines last w w' :
  find_last ifn lines w = (Ok last, w') ->
  w' = w /\
  ((last = -1 /\
    exists pre t, lines = pre ++ [t] /\ 0 <= Py.find t "exit:") \/
   (last = -2 /\
    exists pre t x, lines = pre ++ [t; x] /\
                    Py.find x "exit:" < 0 /\ 0 <= Py.find t "exit:")).
Proof.
  destruct lines as [|l [|l2 ls]].
  - intros H. discriminate H.
  - unfold find_last, item.
    change (Py.getitem [l] (-1)) with (Some l).
    change (Py.getitem [l] (-2)) with (@None string).
    unfold mbind, M_bind, mret, M_ret, raise.
    destruct (Py.find l "exit:" <? 0) eqn:E; intros [= <- <-].
    apply Z.ltb_ge in E. split; [done|]. left. split; [done|].
    by exists [], l.
  - destruct (exists_last_two l l2 ls) as (pre & t & x & ->).
    destruct (Z.lt_ge_cases (Py.find x "exit:") 0) as [Hx|Hx].
    + destruct (Z.lt_ge_cases (Py.find t "exit:") 0) as [Ht|Ht].
      * by rewrite find_last_missing.
      * rewrite find_last_before_last by lia. intros [= <- <-].
        split; [done|]. right. split; [done|]. by exists pre, t, x.
    + replace (pre ++ [t; x]) with ((pre ++ [t]) ++ [x])
        by (by rewrite <- (assoc_L (++))).
      rewrite find_last_last by lia. intros [= <- <-].
      split; [done|]. left. split; [done|]. by exists (pre ++ [t]), x.
Qed.

(** A normal end of [process], step by step: the checks that have
    passed, the first loop over the text lines, and the report. *)
Lemma process_ok_inv ifn w w' :
  process VERBOSE log10_digits shell ifn w = (Ok tt, w') ->
  exists out header body t rest g v w2,
    shell (annotate_cmd ifn) = (0, out) /\
    Py.split Py.NL out = header :: body ++ t :: rest /\
    (rest = [] \/ exists x, rest = [x] /\ Py.find x "exit:" < 0) /\
    0 <= Py.find header "info:" /\ 0 <= Py.find t "exit:" /\
    Re.search Re.change_at header = Some g /\
    first_loop log10_digits shell ifn (Py.int g) body
      (informed VERBOSE
         ["file: " +:+ ifn;
          "num lines = "
          +:+ Py.str (Z.of_nat (length (header :: body ++ t :: rest)));
          "latest change list: " +:+ Py.str (Py.int g)]
         (ran (annotate_cmd ifn) w))
    = (Ok v, w2) /\
    1 <= lineno v /\
    w' = World (stdout w2 ++ [Print (Py.strip header)]
                  ++ (Print ∘ render (log10_digits (lineno v)) (clr_len v)
                        <$> data v)
                  ++ [Print (Py.strip header)])
           (commands w2).
Proof.
  intros Hrun.
  destruct (shell (annotate_cmd ifn)) as [ret out] eqn:Hsh.
  destruct (Z.eq_dec ret 0) as [->|Hret].
  2:{ by rewrite (annotate_failure _ _ _ _ _ _ _ Hsh Hret) in Hrun. }
  destruct (split_cons Py.NL out) as (header & tl & Hsplit).
  destruct (Z.lt_ge_cases (Py.find header "info:") 0) as [Hinfo|Hinfo].
  { by rewrite (missing_header _ _ _ _ _ _ _ _ Hsh Hsplit Hinfo) in Hrun. }
  rewrite (process_to_find_last _ _ _ _ _ _ _ _ Hsh Hsplit Hinfo) in Hrun.
  apply bind_ok_inv in Hrun as (last & w1 & Hfind & Hrun).
  apply find_last_ok_inv in Hfind as [-> Hshape].
  destruct (Re.search Re.change_at header) as [g|] eqn:Hg.
  2:{ by apply bind_ok_inv in Hrun as (? & ? & Herr & _). }
  rewrite (bind_ok _ _ _ (Py.int g) _ eq_refl) in Hrun.
  rewrite (bind_ok _ _ _ _ _ (vinfo_informed _ _ _ _)) in Hrun.
  unfold process_records in Hrun.
  apply bind_ok_inv in Hrun as (v & w2 & Hloop & Hrep).
  assert (Hn : 1 <= lineno v).
  { destruct (Z.lt_ge_cases (lineno v) 1) as [Hlt|]; [|done].
    pose proof (first_loop_linenos _ _ _ _ _ _ _ _ Hloop) as [H0 _].
    by rewrite report_value_error in Hrep by lia. }
  rewrite report_ok in Hrep by done. injection Hrep as <-.
  pose proof (lineno_needs_latest _ _ _ _ _ _ Hloop Hn) as Hex.
  destruct Hshape as [(-> & pre & t & Hl & Ht)
                     |(-> & pre & t & x & Hl & Hx & Ht)].
  - destruct pre as [|h pre]; injection Hl as -> ->.
    { change (Py.slice [t] 1 (-1)) with (@nil string) in Hex.
      by apply Exists_nil in Hex. }
    rewrite slice_to_last in Hloop.
    exists out, h, pre, t, [], g, v, w2.
    repeat (split; [by auto|]). done.
  - destruct pre as [|h pre]; injection Hl as -> ->.
    { change (Py.slice [t; x] 1 (-2)) with (@nil string) in Hex.
      by apply Exists_nil in Hex. }
    rewrite slice_to_before_last in Hloop.
    exists out, h, pre, t, [x], g, v, w2.
    repeat (split; [by eauto|]). done.
Qed.

(** X15: a run of [process] that ends normally had well-formed input:
    the annotation command succeeded; its output is a header with
    [info:] and the latest change list, text lines, a line with
    [exit:], and at most one more line, which has no [exit:]; there is
    a text line that names the latest change list, and every text
    line is recognized, with positive change lists whose lookups give
    an owner.  After the informational messages the run has written
    the header, one line for each text line and the header again. *)
Theorem normal_end_needs_well_formed_input ifn w w' :
  process VERBOSE log10_digits shell ifn w = (Ok tt, w') ->
  exists out header body t rest g lines,
    shell (annotate_cmd ifn) = (0, out) /\
    Py.split Py.NL out = header :: body ++ t :: rest /\
    (rest = [] \/ exists x, rest = [x] /\ Py.find x "exit:" < 0) /\
    0 <= Py.find header "info:" /\ 0 <= Py.find t "exit:" /\
    Re.search Re.change_at header = Some g /\
    Forall (good_line shell) body /\
    Exists (fun line => Py.int g ∈ line_changes line) body /\
    stdout w'
    = stdout (informed VERBOSE
                ["file: " +:+ ifn;
                 "num lines = "
                 +:+ Py.str (Z.of_nat (length (header :: body ++ t :: rest)));
                 "latest change list: " +:+ Py.str (Py.int g)] w)
      ++ [Print (Py.strip header)] ++ (Print <$> lines)
      ++ [Print (Py.strip header)] /\
    length lines = length body.
Proof.
  intros Hrun.
  destruct (process_ok_inv _ _ _ Hrun)
    as (out & header & body & t & rest & g & v & w2 & Hsh & Hsplit & Hrest
        & Hinfo & Ht & Hg & Hloop & Hn & ->).
  exists out, header, body, t, rest, g,
    (render (log10_digits (lineno v)) (clr_len v) <$> data v).
  split; [done|]. split; [done|]. split; [done|]. split; [done|].
  split; [done|]. split; [done|].
  split; [by eapply first_loop_good_lines|].
  split; [by eapply lineno_needs_latest|].
  split.
  - cbn [stdout].
    rewrite (first_loop_stdout _ _ _ _ _ _ _ _ Hloop), <- list_fmap_compose.
    f_equal. unfold informed. by destruct (VERBOSE =? 0).
  - rewrite length_fmap. symmetry.
    eapply Forall2_length, first_loop_records, Hloop.
Qed.

(** The change lists of a text line are change lists of the stream. *)
Lemma stream_changes_elem body line c :
  line ∈ body -> c ∈ line_changes line -> c ∈ stream_changes body.
Proof.
  induction body as [|l body IH]; intros Hin Hc;
    [by apply elem_of_nil in Hin|].
  unfold stream_changes. cbn [fmap list_fmap concat]. rewrite elem_of_app.
  apply elem_of_cons in Hin as [->|Hin]; [by left|].
  right. by apply IH.
Qed.

(** X4: the dictionary of owners is local to a call of [process].
    When [process] ends normally for a file, it has run the
    annotation command and then one lookup for each change list that
    the text lines name, of which there is at least one; it does so
    again whenever the file is processed again, whatever was run
    before: a file that is given twice has every one of its lookups
    run twice, the owners found the first time are not used the
    second time. *)
Theorem second_run_repeats_lookups ifn w w1 :
  process VERBOSE log10_digits shell ifn w = (Ok tt, w1) ->
  exists out header body tail cls,
    shell (annotate_cmd ifn) = (0, out) /\
    Py.split Py.NL out = header :: body ++ tail /\
    cls <> [] /\ NoDup cls /\
    (forall c, c ∈ cls <-> c ∈ stream_changes body) /\
    let run := annotate_cmd ifn :: (describe_cmd <$> cls) in
    commands w1 = commands w ++ run /\
    (forall w', exists w2,
        process VERBOSE log10_digits shell ifn w' = (Ok tt, w2) /\
        commands w2 = commands w' ++ run) /\
    exists w2,
      main VERBOSE log10_digits shell [ifn; ifn] w = (Ok tt, w2) /\
      commands w2 = commands w ++ run ++ run.
Proof.
  intros Hrun.
  destruct (process_ok_inv _ _ _ Hrun)
    as (out & header & body & t & rest & g & v & w2 & Hsh & Hsplit & _
        & _ & _ & _ & Hloop & Hn & Hw1).
  set (wa := informed VERBOSE _ _) in Hloop.
  assert (Hinit : lookups_of wa [] (cl_owner init_vars) wa).
  { repeat split; cbn.
    - by rewrite app_nil_r.
    - apply NoDup_nil_2.
    - intros Hc. by apply elem_of_nil in Hc.
    - intros [x Hx]. by rewrite lookup_empty in Hx. }
  pose proof Hloop as Hlog. unfold first_loop in Hlog.
  destruct (for_each_lookups _ _ _ _ _ _ _ _ _ _ _ Hinit Hlog)
    as (cls & [Hcmd Hnd] & Hsub & Hsup).
  assert (Hwa : commands wa = commands w ++ [annotate_cmd ifn]).
  { subst wa. unfold informed. by destruct (VERBOSE =? 0). }
  assert (Hcmds : commands w1
                  = commands w ++ annotate_cmd ifn :: (describe_cmd <$> cls)).
  { rewrite Hw1. cbn [commands]. by rewrite Hcmd, Hwa, <- (assoc_L (++)). }
  exists out, header, body, (t :: rest), cls.
  split; [done|]. split; [done|]. split.
  { pose proof (lineno_needs_latest _ _ _ _ _ _ Hloop Hn) as Hex.
    apply Exists_exists in Hex as (line & Hin & Hlatest).
    assert (Hc : Py.int g ∈ cls).
    { apply Hsup; [by eexists|]. right. by eapply stream_changes_elem. }
    intros ->. by apply elem_of_nil in Hc. }
  split; [done|]. split.
  { intros c. split.
    - intros Hc. apply Hsub in Hc as [Hc|?]; [|done].
      by apply elem_of_nil in Hc.
    - intros Hc. apply Hsup; [by eexists|]. by right. }
  cbn zeta. split; [done|].
  destruct (framed_process VERBOSE log10_digits shell ifn)
    as (r & evs & cmds & Hp).
  pose proof (Hp w) as Hpw. rewrite Hrun in Hpw. injection Hpw as <- ->.
  assert (cmds = annotate_cmd ifn :: (describe_cmd <$> cls)) as ->.
  { cbn [extend commands] in Hcmds. by apply app_inv_head in Hcmds. }
  split.
  - intros w'. exists (extend w' evs (annotate_cmd ifn
                                       :: (describe_cmd <$> cls))).
    by rewrite Hp.
  - eexists. split.
    + unfold main. cbn [for_each].
      rewrite (bind_ok _ _ _ _ _ (Hp w)), (bind_ok _ _ _ _ _ (Hp _)).
      reflexivity.
    + cbn [extend commands]. by rewrite <- (assoc_L (++)).
Qed.

End NormalEnd.

(** * Concrete runs of the further properties *)

Lemma getopts_files_and_verbosity_witness :
  Forall (fun opt => is_stop opt = false) (drop 1 argv_verbose) /\
  getopts argv_verbose 0 w0 = (Ok (["file"; "other"], 2), w0) /\
  run_main exact_digits shell_scenario argv_verbose w0
  = main 2 exact_digits shell_scenario ["file"; "other"] w0.
Proof.
  assert (H : Forall (fun opt => is_stop opt = false) (drop 1 argv_verbose))
    by (vm_compute; repeat constructor).
  split; [exact H|].
  exact (getopts_files_and_verbosity exact_digits shell_scenario
           argv_verbose 0 w0 H).
Defined.

Lemma run_main_help_or_version_witness :
  Forall (fun opt => is_stop opt = false) ["-v"; "file"] /\
  is_stop "--help" = true /\
  run_main exact_digits shell_scenario
    ("/usr/bin/p4-whodunit.py" :: ["-v"; "file"] ++ "--help" :: ["-V"]) w0
  = (Raise (SystemExit 0), World [Print (usage "p4-whodunit.py")] []).
Proof.
  assert (H : Forall (fun opt => is_stop opt = false) ["-v"; "file"])
    by (vm_compute; repeat constructor).
  assert (Hopt : is_stop "--help" = true) by (vm_compute; reflexivity).
  split; [exact H|]. split; [exact Hopt|].
  exact (run_main_help_or_version exact_digits shell_scenario
           "/usr/bin/p4-whodunit.py" ["-v"; "file"] "--help" ["-V"] w0
           H Hopt).
Defined.

Lemma main_stops_at_first_failure_witness :
  let w1 := (main 0 exact_digits shell_scenario ["file"] w0).2 in
  let w2 := (process 0 exact_digits shell_scenario "missing" w1).2 in
  main 0 exact_digits shell_scenario ["file"] w0 = (Ok tt, w1) /\
  process 0 exact_digits shell_scenario "missing" w1
  = (Raise (SystemExit 1), w2) /\
  main 0 exact_digits shell_scenario (["file"] ++ "missing" :: ["file"]) w0
  = (Raise (SystemExit 1), w2).
Proof.
  cbn zeta.
  assert (H1 : main 0 exact_digits shell_scenario ["file"] w0
               = (Ok tt, (main 0 exact_digits shell_scenario ["file"] w0).2))
    by (vm_compute; reflexivity).
  assert (H2 : process 0 exact_digits shell_scenario "missing"
                 (main 0 exact_digits shell_scenario ["file"] w0).2
               = (Raise (SystemExit 1),
                  (process 0 exact_digits shell_scenario "missing"
                     (main 0 exact_digits shell_scenario ["file"] w0).2).2))
    by (vm_compute; reflexivity).
  split; [exact H1|]. split; [exact H2|].
  exact (main_stops_at_first_failure exact_digits shell_scenario 0
           ["file"] "missing" ["file"] w0 _ _ _ H1 H2).
Defined.

Lemma process_writes_by_outcome_witness :
  let w' := (process 1 exact_digits shell_scenario "file" w0).2 in
  process 1 exact_digits shell_scenario "file" w0 = (Ok tt, w') /\
  exists infos tail,
    stdout w' = stdout w0 ++ infos ++ tail /\
    Forall is_info infos /\ (1 = 0 -> infos = []) /\
    report_tail (Ok tt) tail.
Proof.
  cbn zeta.
  assert (H : process 1 exact_digits shell_scenario "file" w0
              = (Ok tt, (process 1 exact_digits shell_scenario "file" w0).2))
    by (vm_compute; reflexivity).
  split; [exact H|].
  exact (process_writes_by_outcome 1 exact_digits shell_scenario
           "file" w0 _ _ H).
Defined.

Lemma records_follow_lines_witness :
  first_loop exact_digits shell_scenario "file" 30 scenario_body w0
  = (Ok scenario_vars, scenario_world) /\
  length (data scenario_vars) = length scenario_body /\
  Forall2 (record_of_line 30) scenario_body (data scenario_vars) /\
  forall i line r,
    scenario_body !! i = Some line -> data scenario_vars !! i = Some r ->
    line_changes line = [r_from r; r_to r].
Proof.
  assert (H : first_loop exact_digits shell_scenario "file" 30
                scenario_body w0
              = (Ok scenario_vars, scenario_world))
    by (vm_compute; reflexivity).
  split; [exact H|].
  exact (records_follow_lines exact_digits shell_scenario "file" 30
           scenario_body w0 _ _ H).
Defined.

Lemma records_show_lookup_owners_witness :
  first_loop exact_digits shell_scenario "file" 30 scenario_body w0
  = (Ok scenario_vars, scenario_world) /\
  (forall r c o, r ∈ data scenario_vars -> (c, o) ∈ shown_owners r ->
     resolves shell_scenario c o /\ run_of Re.not_at o) /\
  (forall r1 r2 c o1 o2,
     r1 ∈ data scenario_vars -> r2 ∈ data scenario_vars ->
     (c, o1) ∈ shown_owners r1 -> (c, o2) ∈ shown_owners r2 -> o1 = o2).
Proof.
  assert (H : first_loop exact_digits shell_scenario "file" 30
                scenario_body w0
              = (Ok scenario_vars, scenario_world))
    by (vm_compute; reflexivity).
  split; [exact H|].
  exact (records_show_lookup_owners exact_digits shell_scenario "file" 30
           scenario_body w0 _ _ H).
Defined.

Lemma report_is_aligned_witness :
  (forall n, 1 <= n -> exact_digits n <= exact_digits n) /\
  first_loop exact_digits shell_scenario "file" 30 scenario_body w0
  = (Ok scenario_vars, scenario_world) /\
  1 <= lineno scenario_vars /\
  scenario_deleted ∈ data scenario_vars /\
  exists cols,
    render (exact_digits (lineno scenario_vars)) (clr_len scenario_vars)
      scenario_deleted
    = cols +:+ r_sep scenario_deleted +:+ " " +:+ r_text scenario_deleted /\
    Py.len cols
    = exact_digits (lineno scenario_vars) + clr_len scenario_vars + 2 /\
    Py.len (r_sep scenario_deleted) = 1.
Proof.
  assert (Hd : forall n, 1 <= n -> exact_digits n <= exact_digits n)
    by (intros; lia).
  assert (H : first_loop exact_digits shell_scenario "file" 30
                scenario_body w0
              = (Ok scenario_vars, scenario_world))
    by (vm_compute; reflexivity).
  assert (Hn : 1 <= lineno scenario_vars) by (vm_compute; discriminate).
  assert (Hin : scenario_deleted ∈ data scenario_vars) by (right; left).
  split; [exact Hd|]. split; [exact H|]. split; [exact Hn|].
  split; [exact Hin|].
  exact (report_is_aligned exact_digits shell_scenario "file" 30
           scenario_body w0 _ _ Hd H Hn _ Hin).
Defined.

Lemma process_succeeds_witness :
  let out := join Py.NL (scenario_header :: scenario_body ++ ["exit:"]) in
  shell_scenario (annotate_cmd "file") = (0, out) /\
  Py.split Py.NL out = scenario_header :: scenario_body ++ ["exit:"] /\
  0 <= Py.find scenario_header "info:" /\
  0 <= Py.find "exit:" "exit:" /\
  Re.search Re.change_at scenario_header = Some "30" /\
  Forall (good_line shell_scenario) scenario_body /\
  Exists (fun line => Py.int "30" ∈ line_changes line) scenario_body /\
  exists lines cmds,
    process 1 exact_digits shell_scenario "file" w0
    = (Ok tt,
       World (stdout (informed 1
                        ["file: " +:+ "file";
                         "num lines = "
                         +:+ Py.str (Z.of_nat (length (scenario_header
                                          :: scenario_body ++ ["exit:"])));
                         "latest change list: " +:+ Py.str (Py.int "30")] w0)
                ++ [Print (Py.strip scenario_header)] ++ (Print <$> lines)
                ++ [Print (Py.strip scenario_header)])
         (commands w0 ++ annotate_cmd "file" :: cmds)) /\
    length lines = length scenario_body.
Proof.
  cbn zeta.
  assert (Hsh : shell_scenario (annotate_cmd "file")
                = (0, join Py.NL
                        (scenario_header :: scenario_body ++ ["exit:"])))
    by (vm_compute; reflexivity).
  assert (Hsplit : Py.split Py.NL
                     (join Py.NL
                        (scenario_header :: scenario_body ++ ["exit:"]))
                   = scenario_header :: scenario_body ++ ["exit:"])
    by (vm_compute; reflexivity).
  assert (Hinfo : 0 <= Py.find scenario_header "info:")
    by (vm_compute; discriminate).
  assert (Hexit : 0 <= Py.find "exit:" "exit:")
    by (vm_compute; discriminate).
  assert (Hg : Re.search Re.change_at scenario_header = Some "30")
    by (vm_compute; reflexivity).
  assert (R10 : resolves shell_scenario 10 "amy")
    by (eexists; split; vm_compute; reflexivity).
  assert (R20 : resolves shell_scenario 20 "bob")
    by (eexists; split; vm_compute; reflexivity).
  assert (R30 : resolves shell_scenario 30 "cleo")
    by (eexists; split; vm_compute; reflexivity).
  assert (Hgood : Forall (good_line shell_scenario) scenario_body).
  { constructor; [|constructor; [|constructor]].
    - exists "10", "30", "alpha", "amy", "cleo".
      split; [vm_compute; reflexivity|].
      split; [vm_compute; discriminate|].
      split; [vm_compute; discriminate|].
      split; [exact R10|exact R30].
    - exists "10", "20", "beta", "amy", "bob".
      split; [vm_compute; reflexivity|].
      split; [vm_compute; discriminate|].
      split; [vm_compute; discriminate|].
      split; [exact R10|exact R20]. }
  assert (Hlatest : Exists (fun line => Py.int "30" ∈ line_changes line)
                      scenario_body)
    by (apply Exists_cons_hd; vm_compute; right; left).
  split; [exact Hsh|]. split; [exact Hsplit|]. split; [exact Hinfo|].
  split; [exact Hexit|]. split; [exact Hg|]. split; [exact Hgood|].
  split; [exact Hlatest|].
  exact (process_succeeds 1 exact_digits shell_scenario "file" _
           scenario_header scenario_body "exit:" "30" w0
           Hsh Hsplit Hinfo Hexit Hg Hgood Hlatest).
Defined.

Lemma get_owner_accepts_own_number_witness :
  0 <= 10 /\ run_of Re.not_at "amy" /\
  shell_scenario (describe_cmd 10)
  = (0, "Change 10 by amy@ws on 2015/01/01 10:00:00") /\
  Py.split Py.NL "Change 10 by amy@ws on 2015/01/01 10:00:00"
  = ("Change " +:+ Py.str 10 +:+ " by " +:+ "amy" +:+ "@"
     +:+ "ws on 2015/01/01 10:00:00") :: [] /\
  get_owner shell_scenario 10 w0 = (Ok "amy", ran (describe_cmd 10) w0).
Proof.
  assert (Hc : 0 <= 10) by lia.
  assert (Ho : run_of Re.not_at "amy")
    by (split; [discriminate | vm_compute; reflexivity]).
  assert (Hsh : shell_scenario (describe_cmd 10)
                = (0, "Change 10 by amy@ws on 2015/01/01 10:00:00"))
    by (vm_compute; reflexivity).
  assert (Hsplit : Py.split Py.NL "Change 10 by amy@ws on 2015/01/01 10:00:00"
                   = ("Change " +:+ Py.str 10 +:+ " by " +:+ "amy" +:+ "@"
                      +:+ "ws on 2015/01/01 10:00:00") :: [])
    by (vm_compute; reflexivity).
  split; [exact Hc|]. split; [exact Ho|]. split; [exact Hsh|].
  split; [exact Hsplit|].
  exact (get_owner_accepts_own_number shell_scenario 10 "amy"
           "ws on 2015/01/01 10:00:00" [] _ w0 Hc Ho Hsh Hsplit).
Defined.

Lemma first_bad_line_ends_the_run_witness :
  first_loop exact_digits shell_scenario "file" 30 scenario_body w0
  = (Ok scenario_vars, scenario_world) /\
  Re.search Re.text_at (Py.strip "text: 10-3O:gamma") = None /\
  stdout scenario_world = stdout w0 /\
  process_records exact_digits shell_scenario "file" scenario_header 30
    (scenario_body ++ "text: 10-3O:gamma" :: ["text: 10-30:delta"]) w0
  = failed ("unrecognized line in " +:+ "file"
            +:+ String Py.NL
                  (String Py.TAB (Py.strip "text: 10-3O:gamma")))
      scenario_world.
Proof.
  assert (H : first_loop exact_digits shell_scenario "file" 30
                scenario_body w0
              = (Ok scenario_vars, scenario_world))
    by (vm_compute; reflexivity).
  assert (Hline : Re.search Re.text_at (Py.strip "text: 10-3O:gamma") = None)
    by (vm_compute; reflexivity).
  split; [exact H|]. split; [exact Hline|].
  pose proof (first_bad_line_ends_the_run exact_digits shell_scenario "file"
                scenario_header 30 scenario_body "text: 10-3O:gamma"
                ["text: 10-30:delta"] w0 _ _ H) as (Hout & Hbad & _).
  split; [exact Hout | exact (Hbad Hline)].
Defined.

Lemma zero_change_list_raises_witness :
  first_loop exact_digits shell_zero "file" 30 scenario_body w0
  = (Ok scenario_vars, scenario_world) /\
  Re.search Re.text_at (Py.strip "text: 0-30:gamma")
  = Some ("0", "30", "gamma") /\
  resolves shell_zero (Py.int "0") "root" /\
  resolves shell_zero (Py.int "30") "cleo" /\
  (Py.int "0" = 0 \/ Py.int "30" = 0) /\
  exists w2,
    first_loop exact_digits shell_zero "file" 30
      (scenario_body ++ "text: 0-30:gamma" :: ["text: 10-30:delta"]) w0
    = (Raise ValueError, w2) /\
    stdout w2 = stdout w0.
Proof.
  assert (H : first_loop exact_digits shell_zero "file" 30 scenario_body w0
              = (Ok scenario_vars, scenario_world))
    by (vm_compute; reflexivity).
  assert (Hline : Re.search Re.text_at (Py.strip "text: 0-30:gamma")
                  = Some ("0", "30", "gamma"))
    by (vm_compute; reflexivity).
  assert (R0 : resolves shell_zero (Py.int "0") "root")
    by (eexists; split; vm_compute; reflexivity).
  assert (R30 : resolves shell_zero (Py.int "30") "cleo")
    by (eexists; split; vm_compute; reflexivity).
  assert (Hz : Py.int "0" = 0 \/ Py.int "30" = 0)
    by (left; vm_compute; reflexivity).
  split; [exact H|]. split; [exact Hline|]. split; [exact R0|].
  split; [exact R30|]. split; [exact Hz|].
  exact (zero_change_list_raises exact_digits shell_zero "file" 30
           scenario_body "text: 0-30:gamma" ["text: 10-30:delta"] w0 _ _
           _ _ _ _ _ H Hline R0 R30 Hz).
Defined.

Lemma normal_end_needs_well_formed_input_witness :
  let w' := (process 1 exact_digits shell_scenario_nl "file" w0).2 in
  process 1 exact_digits shell_scenario_nl "file" w0 = (Ok tt, w') /\
  exists out header body t rest g lines,
    shell_scenario_nl (annotate_cmd "file") = (0, out) /\
    Py.split Py.NL out = header :: body ++ t :: rest /\
    (rest = [] \/ exists x, rest = [x] /\ Py.find x "exit:" < 0) /\
    0 <= Py.find header "info:" /\ 0 <= Py.find t "exit:" /\
    Re.search Re.change_at header = Some g /\
    Forall (good_line shell_scenario_nl) body /\
    Exists (fun line => Py.int g ∈ line_changes line) body /\
    stdout w'
    = stdout (informed 1
                ["file: " +:+ "file";
                 "num lines = "
                 +:+ Py.str (Z.of_nat (length (header :: body ++ t :: rest)));
                 "latest change list: " +:+ Py.str (Py.int g)] w0)
      ++ [Print (Py.strip header)] ++ (Print <$> lines)
      ++ [Print (Py.strip header)] /\
    length lines = length body.
Proof.
  cbn zeta.
  assert (H : process 1 exact_digits shell_scenario_nl "file" w0
              = (Ok tt,
                 (process 1 exact_digits shell_scenario_nl "file" w0).2))
    by (vm_compute; reflexivity).
  split; [exact H|].
  exact (normal_end_needs_well_formed_input 1 exact_digits shell_scenario_nl
           "file" w0 _ H).
Defined.

Lemma second_run_repeats_lookups_witness :
  let w1 := (process 0 exact_digits shell_scenario "file" w0).2 in
  process 0 exact_digits shell_scenario "file" w0 = (Ok tt, w1) /\
  exists out header body tail cls,
    shell_scenario (annotate_cmd "file") = (0, out) /\
    Py.split Py.NL out = header :: body ++ tail /\
    cls <> [] /\ NoDup cls /\
    (forall c, c ∈ cls <-> c ∈ stream_changes body) /\
    let run := annotate_cmd "file" :: (describe_cmd <$> cls) in
    commands w1 = commands w0 ++ run /\
    (forall w', exists w2,
        process 0 exact_digits shell_scenario "file" w' = (Ok tt, w2) /\
        commands w2 = commands w' ++ run) /\
    exists w2,
      main 0 exact_digits shell_scenario ["file"; "file"] w0 = (Ok tt, w2) /\
      commands w2 = commands w0 ++ run ++ run.
Proof.
  cbn zeta.
  assert (H : process 0 exact_digits shell_scenario "file" w0
              = (Ok tt, (process 0 exact_digits shell_scenario "file" w0).2))
    by (vm_compute; reflexivity).
  split; [exact H|].
  exact (second_run_repeats_lookups 0 exact_digits shell_scenario
           "file" w0 _ H).
Defined.
